(** * chromatic-cli: the pipeline tasks, embedded and verified

    The tasks of the CLI are [async] functions over one mutable context
    object [ctx]; they call external collaborators (git, the package
    manager, the GraphQL client, the file system), write to the log and
    either return or throw.  They are embedded here as computations in a
    small state-and-exception monad:

    - the context is a record, threaded explicitly;
    - the collaborators are operations on an abstract world [W], taken as
      a record of functions [W -> outcome R * W], so that every theorem
      holds for every behaviour of git, the network and the file system;
    - every collaborator call, log line and task transition is appended
      to a trace, which is what the "is called" / "is never called"
      statements are about;
    - [throw] keeps the mutations made so far, as a JavaScript exception
      does. *)

From Stdlib Require Import String Ascii List ZArith NArith Bool Lia.
From Stdlib Require Import DecimalString Sorted.
Import ListNotations.

Set Implicit Arguments.
Local Open Scope string_scope.

(* ================================================================== *)
(** ** JavaScript values used by the tasks *)
(* ================================================================== *)

(** A thrown value.  Everything the tasks throw or catch is an [Error]
    with a message. *)
Inductive exn : Type :=
| Error (message : string).

Definition exn_message (e : exn) : string :=
  match e with Error m => m end.

(** The result of awaiting a call: it resolves or it rejects. *)
Inductive outcome (A : Type) : Type :=
| Returned (a : A)
| Threw (e : exn).
Arguments Returned {A} a.
Arguments Threw {A} e.

(** Truthiness of a value that is a string, [null] or [undefined]:
    only a non-empty string is truthy. *)
Definition truthy_string (v : option string) : bool :=
  match v with
  | Some s => negb (String.eqb s EmptyString)
  | None => false
  end.

(* ================================================================== *)
(** ** The task monad *)
(* ================================================================== *)

Module Task.

Section Monad.
Variables C W Ev : Type.

(** What a running task can see and change: its context object, the
    world behind the collaborators, and the trace of effects so far
    (oldest first). *)
Record machine : Type := Machine {
  m_ctx : C;
  m_world : W;
  m_trace : list Ev
}.

Definition task (A : Type) : Type := machine -> outcome A * machine.

Definition ret {A} (a : A) : task A := fun m => (Returned a, m).

Definition bind {A B} (t : task A) (k : A -> task B) : task B :=
  fun m =>
    match t m with
    | (Returned a, m') => k a m'
    | (Threw e, m') => (Threw e, m')
    end.

(** [throw new Error(...)] *)
Definition throw {A} (e : exn) : task A := fun m => (Threw e, m).

(** [try { body } catch (err) { handler(err) }] *)
Definition try_catch {A} (body : task A) (handler : exn -> task A) : task A :=
  fun m =>
    match body m with
    | (Returned a, m') => (Returned a, m')
    | (Threw e, m') => handler e m'
    end.

(** Reading and mutating [ctx]. *)
Definition get_ctx : task C := fun m => (Returned (m_ctx m), m).

Definition modify_ctx (f : C -> C) : task unit :=
  fun m => (Returned tt, Machine (f (m_ctx m)) (m_world m) (m_trace m)).

(** An effect that is only observed: a log line, a transition. *)
Definition emit (e : Ev) : task unit :=
  fun m => (Returned tt, Machine (m_ctx m) (m_world m) (m_trace m ++ [e])).

(** [await collaborator(...)]: the call is recorded, then the world
    answers. *)
Definition call {R} (e : Ev) (op : W -> outcome R * W) : task R :=
  fun m =>
    let (r, w') := op (m_world m) in
    (r, Machine (m_ctx m) w' (m_trace m ++ [e])).

Definition run {A} (t : task A) (c : C) (w : W) : outcome A * machine :=
  t (Machine c w []).

(** What a finished run leaves behind. *)
Definition result {A} (x : outcome A * machine) : outcome A := fst x.
Definition final_ctx {A} (x : outcome A * machine) : C := m_ctx (snd x).
Definition final_world {A} (x : outcome A * machine) : W := m_world (snd x).
Definition trace {A} (x : outcome A * machine) : list Ev := m_trace (snd x).
End Monad.

Arguments Machine {C W Ev} _ _ _.
Arguments m_ctx {C W Ev} _.
Arguments m_world {C W Ev} _.
Arguments m_trace {C W Ev} _.
Arguments ret {C W Ev A} _ _.
Arguments bind {C W Ev A B} _ _ _.
Arguments throw {C W Ev A} _ _.
Arguments try_catch {C W Ev A} _ _ _.
Arguments get_ctx {C W Ev} _.
Arguments modify_ctx {C W Ev} _ _.
Arguments emit {C W Ev} _ _.
Arguments call {C W Ev R} _ _ _.
Arguments run {C W Ev A} _ _ _.
Arguments result {C W Ev A} _.
Arguments final_ctx {C W Ev A} _.
Arguments final_world {C W Ev A} _.
Arguments trace {C W Ev A} _.

End Task.

Declare Scope task_scope.
Delimit Scope task_scope with task.
Notation "x <- t ;; k" := (Task.bind t (fun x => k))
  (at level 100, t at next level, right associativity) : task_scope.
Notation "t ;; k" := (Task.bind t (fun _ => k))
  (at level 100, right associativity) : task_scope.

(** Did the run end by throwing? *)
Definition threw {A} (r : outcome A) : bool :=
  match r with Threw _ => true | Returned _ => false end.

(** How many times an effect occurs in a trace. *)
Definition occurrences {Ev} (p : Ev -> bool) (tr : list Ev) : nat :=
  List.length (List.filter p tr).

(* ================================================================== *)
(** ** bin/tasks/prepareWorkspace.js *)
(* ================================================================== *)

Module PrepareWorkspace.
Import Task.
Local Open Scope task_scope.

(** [ctx.options], the part the task reads. *)
Record options : Type := Options {
  patchHeadRef : option string;
  patchBaseRef : option string
}.

(** The fields of [ctx] the task reads or writes.  A field that was never
    assigned is [undefined]: [None], and [false] for the [userError]
    flag. *)
Record ctx : Type := Ctx {
  ctx_options : options;
  exitCode : option Z;
  userError : bool;
  mergeBase : option string
}.

Definition set_exitCode (z : Z) (c : ctx) : ctx :=
  Ctx (ctx_options c) (Some z) (userError c) (mergeBase c).
Definition set_userError (b : bool) (c : ctx) : ctx :=
  Ctx (ctx_options c) (exitCode c) b (mergeBase c).
Definition set_mergeBase (v : option string) (c : ctx) : ctx :=
  Ctx (ctx_options c) (exitCode c) (userError c) v.

(** The messages of [../ui/messages/errors], by name. *)
Inductive message : Type :=
| workspaceNotClean
| workspaceNotUpToDate (updateMessage : string)
| mergeBaseNotFound (o : options)
| thrownError (err : exn).

(** The states of [../ui/tasks/prepareWorkspace] the task moves through. *)
Inductive phase : Type :=
| lookupMergeBase | checkoutMergeBase | installingDependencies.

Inductive event : Type :=
| CallIsClean
| CallIsUpToDate
| CallGetUpdateMessage
| CallFindMergeBase (headRef baseRef : option string)
| CallCheckout (ref : option string)
| CallInstallDependencies
| CallRunRestoreWorkspace
| LogError (msg : message)
| TransitionTo (p : phase).

(** The collaborators: [../git/git], [../lib/installDependencies] and
    [./restoreWorkspace].  Each may resolve or reject, and may change the
    world. *)
Record collaborators (W : Type) : Type := Collaborators {
  isClean : W -> outcome bool * W;
  isUpToDate : W -> outcome bool * W;
  getUpdateMessage : W -> outcome string * W;
  findMergeBase : option string -> option string -> W -> outcome (option string) * W;
  checkout : option string -> W -> outcome unit * W;
  installDependencies : W -> outcome unit * W;
  runRestoreWorkspace : W -> outcome unit * W
}.

Section Task.
Variable W : Type.
Variable ext : collaborators W.

Definition prepareWorkspace : Task.task ctx W event unit :=
  c <- get_ctx ;;
  let head := patchHeadRef (ctx_options c) in
  let base := patchBaseRef (ctx_options c) in
  (* Make sure the git repo is in a clean state. *)
  clean <- call CallIsClean (isClean ext) ;;
  (if negb clean then
     modify_ctx (set_exitCode 101) ;;
     modify_ctx (set_userError true) ;;
     emit (LogError workspaceNotClean) ;;
     throw (Error "Working directory is not clean")
   else ret tt) ;;
  (* Make sure both branches are up-to-date with the remote. *)
  current <- call CallIsUpToDate (isUpToDate ext) ;;
  (if negb current then
     modify_ctx (set_exitCode 102) ;;
     modify_ctx (set_userError true) ;;
     hint <- call CallGetUpdateMessage (getUpdateMessage ext) ;;
     emit (LogError (workspaceNotUpToDate hint)) ;;
     throw (Error "Workspace not up-to-date with remote")
   else ret tt) ;;
  emit (TransitionTo lookupMergeBase) ;;
  (* Get the merge base commit hash. *)
  mb <- call (CallFindMergeBase head base) (findMergeBase ext head base) ;;
  modify_ctx (set_mergeBase mb) ;;
  (if negb (truthy_string mb) then
     modify_ctx (set_exitCode 103) ;;
     modify_ctx (set_userError true) ;;
     emit (LogError (mergeBaseNotFound (ctx_options c))) ;;
     throw (Error "Could not find a merge base")
   else ret tt) ;;
  emit (TransitionTo checkoutMergeBase) ;;
  call (CallCheckout mb) (checkout ext mb) ;;
  try_catch
    (emit (TransitionTo installingDependencies) ;;
     call CallInstallDependencies (installDependencies ext))
    (fun err =>
       modify_ctx (set_exitCode 104) ;;
       emit (LogError (thrownError err)) ;;
       (* make sure we clean up even when something breaks *)
       call CallRunRestoreWorkspace (runRestoreWorkspace ext) ;;
       throw (Error "Failed to install dependencies")).
End Task.

Definition is_findMergeBase (e : event) : bool :=
  match e with CallFindMergeBase _ _ => true | _ => false end.
Definition is_restore (e : event) : bool :=
  match e with CallRunRestoreWorkspace => true | _ => false end.
Definition is_checkout (e : event) : bool :=
  match e with CallCheckout _ => true | _ => false end.

(** The context a run starts from. *)
Definition initial_ctx (o : options) : ctx := Ctx o None false None.

(** What the task has done when the installation is about to start. *)
Definition before_install (c : ctx) (mb : option string) : list event :=
  [CallIsClean; CallIsUpToDate; TransitionTo lookupMergeBase;
   CallFindMergeBase (patchHeadRef (ctx_options c)) (patchBaseRef (ctx_options c));
   TransitionTo checkoutMergeBase; CallCheckout mb;
   TransitionTo installingDependencies; CallInstallDependencies].

(** The three gates pass and the merge base [mb] is checked out: the run
    from [w0] is about to install the dependencies in the world [w4]. *)
Definition reaches_install {W} (ext : collaborators W) (c : ctx)
    (w0 w4 : W) (mb : option string) : Prop :=
  exists w1 w2 w3,
    isClean ext w0 = (Returned true, w1) /\
    isUpToDate ext w1 = (Returned true, w2) /\
    findMergeBase ext (patchHeadRef (ctx_options c)) (patchBaseRef (ctx_options c)) w2
      = (Returned mb, w3) /\
    truthy_string mb = true /\
    checkout ext mb w3 = (Returned tt, w4).

End PrepareWorkspace.

(* ================================================================== *)
(** ** Plain JavaScript objects and [JSON.stringify] *)
(* ================================================================== *)

(** An object used as a dictionary: its own enumerable string-keyed
    properties, in the order [Object.keys], [Object.entries] and
    [JSON.stringify] visit them.  That order is: the keys that are array
    indices in ascending numeric order, then all other keys in the order
    they were first assigned. *)
Module JsObject.

Definition t (V : Type) : Type := list (string * V).

(** A key is an array index when it is the canonical decimal form of an
    integer from 0 to 2^32 - 2. *)
Definition array_index (k : string) : option N :=
  match NilEmpty.uint_of_string k with
  | Some u =>
      let n := N.of_uint u in
      if String.eqb (NilEmpty.string_of_uint (N.to_uint n)) k && (n <? 4294967295)%N
      then Some n else None
  | None => None
  end.

Section Ops.
Variable V : Type.

Definition empty : t V := [].

(** [o[k]] *)
Fixpoint get (k : string) (o : t V) : option V :=
  match o with
  | [] => None
  | (k', v) :: o' => if String.eqb k k' then Some v else get k o'
  end.

Definition has (k : string) (o : t V) : bool :=
  match get k o with Some _ => true | None => false end.

(** Assigning to a key the object has: the value changes, the place of
    the key does not. *)
Fixpoint replace (k : string) (v : V) (o : t V) : t V :=
  match o with
  | [] => []
  | (k', v') :: o' =>
      if String.eqb k k' then (k', v) :: o' else (k', v') :: replace k v o'
  end.

(** A new array-index key goes after the smaller indices. *)
Fixpoint insert_index (n : N) (k : string) (v : V) (o : t V) : t V :=
  match o with
  | [] => [(k, v)]
  | (k', v') :: o' =>
      match array_index k' with
      | Some n' =>
          if (n' <? n)%N then (k', v') :: insert_index n k v o'
          else (k, v) :: (k', v') :: o'
      | None => (k, v) :: (k', v') :: o'
      end
  end.

(** [o[k] = v] *)
Definition set (k : string) (v : V) (o : t V) : t V :=
  if has k o then replace k v o
  else match array_index k with
       | Some n => insert_index n k v o
       | None => (o ++ [(k, v)])%list
       end.

(** [Object.keys(o)] and [Object.entries(o)] *)
Definition keys (o : t V) : list string := List.map fst o.
Definition entries (o : t V) : list (string * V) := o.
End Ops.

End JsObject.

Module Json.

Definition quote : ascii := ascii_of_N 34.
Definition backslash : ascii := ascii_of_N 92.

Definition hex_digit (n : N) : ascii :=
  if (n <? 10)%N then ascii_of_N (48 + n) else ascii_of_N (87 + n).

(** One character of a quoted JSON string (QuoteJSONString): the quote
    and the backslash are escaped, the control characters are written
    with their short escape or as a lower-case [\u00XX], everything else
    is kept. *)
Definition escape_char (c : ascii) : string :=
  let n := N_of_ascii c in
  let esc (x : ascii) := String backslash (String x EmptyString) in
  if (n =? 8)%N then esc "b"%char
  else if (n =? 9)%N then esc "t"%char
  else if (n =? 10)%N then esc "n"%char
  else if (n =? 12)%N then esc "f"%char
  else if (n =? 13)%N then esc "r"%char
  else if (n =? 34)%N then esc quote
  else if (n =? 92)%N then esc backslash
  else if (n <? 32)%N then
    String backslash
      (String "u" (String "0" (String "0"
         (String (hex_digit (n / 16)) (String (hex_digit (n mod 16)) EmptyString)))))
  else String c EmptyString.

Fixpoint escape (s : string) : string :=
  match s with
  | EmptyString => EmptyString
  | String c s' => escape_char c ++ escape s'
  end.

Definition quoted (s : string) : string :=
  String quote (escape s ++ String quote EmptyString).

Definition member (kv : string * string) : string :=
  quoted (fst kv) ++ ":" ++ quoted (snd kv).

Fixpoint members (l : list (string * string)) : string :=
  match l with
  | [] => EmptyString
  | [kv] => member kv
  | kv :: l' => member kv ++ "," ++ members l'
  end.

(** [JSON.stringify(o)] for an object whose values are strings. *)
Definition stringify (o : JsObject.t string) : string :=
  "{" ++ members (JsObject.entries o) ++ "}".

End Json.

(* ================================================================== *)
(** ** bin/tasks/verify.js *)
(* ================================================================== *)

Module Verify.
Import Task.
Local Open Scope task_scope.

(** An option that is either a boolean or a branch glob
    ([autoAcceptChanges], [exitOnceUploaded]). *)
Inductive flag : Type :=
| FlagUnset
| FlagBool (b : bool)
| FlagGlob (glob : string).

Record options : Type := Options {
  options_list : bool;   (* [options.list] *)
  only : option string;
  patchBaseRef : option string;
  patchHeadRef : option string;
  preserveMissingSpecs : option bool;
  autoAcceptChanges : flag;
  exitOnceUploaded : flag
}.

(** [ctx.git]: [matchesBranch] and the fields that are sent as they are
    ([commitInfo]); [version] and [changedFiles] are left out of the
    request. *)
Record git : Type := Git {
  matchesBranch : flag -> bool;
  commitInfo : list (string * string)
}.

(** The build the service answers with.  Its boolean fields are used only
    through their truthiness, so [null] and [false] are both [false]. *)
Record account : Type := Account {
  exceededThreshold : bool;
  paymentRequired : bool;
  billingUrl : option string
}.

Record features : Type := Features {
  uiTests : bool;
  uiReview : bool
}.

Record build : Type := Build {
  build_id : string;
  build_number : Z;
  build_features : features;
  build_wasLimited : bool;
  build_autoAcceptChanges : bool;
  build_account : account;
  build_tests : list string
}.

(** The [input] of [TesterCreateBuildMutation]. *)
Record createBuildInput : Type := CreateBuildInput {
  in_commitInfo : list (string * string);
  in_only : option string;
  in_onlyStoryFiles : option (list string);
  in_autoAcceptChanges : bool;
  in_cachedUrl : option string;
  in_environment : option string;
  in_patchBaseRef : option string;
  in_patchHeadRef : option string;
  in_preserveMissingSpecs : option bool;
  in_packageVersion : string;
  in_storybookVersion : option string;
  in_viewLayer : option string
}.

(** A regular expression of [ctx.env.ENVIRONMENT_WHITELIST] is taken as
    the test it performs on a key: whether [key.match(regex)] is truthy. *)
Definition regex : Type := string -> bool.

Record ctx : Type := Ctx {
  ctx_options : options;
  ctx_git : git;
  ENVIRONMENT_WHITELIST : list regex;
  isolatorUrl : string;
  cachedUrl : option string;
  onlyStoryFiles : option (JsObject.t (list string));
  pkg_version : string;
  storybook_version : option string;
  storybook_viewLayer : option string;
  (* written by the task *)
  environment : option string;
  ctx_build : option build;
  isPublishOnly : bool;
  isOnboarding : bool;
  exitCode : option Z;
  skipSnapshots : bool
}.

Definition set_environment (s : string) (c : ctx) : ctx :=
  Ctx (ctx_options c) (ctx_git c) (ENVIRONMENT_WHITELIST c) (isolatorUrl c)
      (cachedUrl c) (onlyStoryFiles c) (pkg_version c) (storybook_version c)
      (storybook_viewLayer c)
      (Some s) (ctx_build c) (isPublishOnly c) (isOnboarding c) (exitCode c)
      (skipSnapshots c).
Definition set_build (b : build) (c : ctx) : ctx :=
  Ctx (ctx_options c) (ctx_git c) (ENVIRONMENT_WHITELIST c) (isolatorUrl c)
      (cachedUrl c) (onlyStoryFiles c) (pkg_version c) (storybook_version c)
      (storybook_viewLayer c)
      (environment c) (Some b) (isPublishOnly c) (isOnboarding c) (exitCode c)
      (skipSnapshots c).
Definition set_isPublishOnly (v : bool) (c : ctx) : ctx :=
  Ctx (ctx_options c) (ctx_git c) (ENVIRONMENT_WHITELIST c) (isolatorUrl c)
      (cachedUrl c) (onlyStoryFiles c) (pkg_version c) (storybook_version c)
      (storybook_viewLayer c)
      (environment c) (ctx_build c) v (isOnboarding c) (exitCode c)
      (skipSnapshots c).
Definition set_isOnboarding (v : bool) (c : ctx) : ctx :=
  Ctx (ctx_options c) (ctx_git c) (ENVIRONMENT_WHITELIST c) (isolatorUrl c)
      (cachedUrl c) (onlyStoryFiles c) (pkg_version c) (storybook_version c)
      (storybook_viewLayer c)
      (environment c) (ctx_build c) (isPublishOnly c) v (exitCode c)
      (skipSnapshots c).
Definition set_exitCode (z : Z) (c : ctx) : ctx :=
  Ctx (ctx_options c) (ctx_git c) (ENVIRONMENT_WHITELIST c) (isolatorUrl c)
      (cachedUrl c) (onlyStoryFiles c) (pkg_version c) (storybook_version c)
      (storybook_viewLayer c)
      (environment c) (ctx_build c) (isPublishOnly c) (isOnboarding c) (Some z)
      (skipSnapshots c).
Definition set_skipSnapshots (v : bool) (c : ctx) : ctx :=
  Ctx (ctx_options c) (ctx_git c) (ENVIRONMENT_WHITELIST c) (isolatorUrl c)
      (cachedUrl c) (onlyStoryFiles c) (pkg_version c) (storybook_version c)
      (storybook_viewLayer c)
      (environment c) (ctx_build c) (isPublishOnly c) (isOnboarding c) (exitCode c)
      v.

(** The messages of [../ui/messages], by name. *)
Inductive message : Type :=
| gotEnvironment (env : string)
| listingStories (tests : list string)
| snapshotQuotaReached (a : account)
| paymentRequiredWarning (a : account)
| buildLimited (a : account)
| storybookPublished.

Inductive phase : Type := runOnly | runOnlyFiles | success.

Inductive event : Type :=
| LogDebug (msg : message)
| LogInfo (msg : message)
| LogWarn (msg : message)
| TransitionTo (p : phase) (isFinal : bool)
| CallRunQuery (input : createBuildInput) (isolator : string)
| AssignExitCode (z : Z).

(** [process.env], as [Object.entries] lists it, and the GraphQL client. *)
Record collaborators (W : Type) : Type := Collaborators {
  process_env : W -> list (string * string);
  runQuery : createBuildInput -> string -> W -> outcome build * W
}.

(** [ENVIRONMENT_WHITELIST.find((regex) => key.match(regex))], as the
    condition of the [if]: a regular expression is found. *)
Definition whitelisted (whitelist : list regex) (key : string) : bool :=
  match List.find (fun r : regex => r key) whitelist with
  | Some _ => true
  | None => false
  end.

(** [acc[key] = value] on the object literal [{}] that the reducer starts
    from, for a value that is a string.  The assignment creates or
    overwrites an own property, except for the key [__proto__]: that
    one is an accessor of [Object.prototype], the assignment runs its
    setter, and the setter ignores a value that is neither an object nor
    [null], so that nothing is stored. *)
Definition assign (key value : string) (acc : JsObject.t string) : JsObject.t string :=
  if String.eqb key "__proto__" then acc else JsObject.set key value acc.

(** The reducer of [setEnvironment] and the object it builds. *)
Definition pick_whitelisted (whitelist : list regex)
    (acc : JsObject.t string) (kv : string * string) : JsObject.t string :=
  let (key, value) := kv in
  if whitelisted whitelist key then assign key value acc else acc.

(** The keys that [setEnvironment] stores: those a regular expression of
    the whitelist matches, [__proto__] apart. *)
Definition stored (whitelist : list regex) (key : string) : bool :=
  whitelisted whitelist key && negb (String.eqb key "__proto__").

Definition whitelisted_environment (whitelist : list regex)
    (env : list (string * string)) : JsObject.t string :=
  List.fold_left (pick_whitelisted whitelist) env (JsObject.empty string).

(** The [input] variable of the mutation, from the context. *)
Definition createBuildInput_of (c : ctx) : createBuildInput :=
  let o := ctx_options c in
  CreateBuildInput
    (commitInfo (ctx_git c))
    (if truthy_string (only o) then only o else None)
    (option_map (@JsObject.keys _) (onlyStoryFiles c))
    (matchesBranch (ctx_git c) (autoAcceptChanges o))
    (cachedUrl c)
    (environment c)
    (patchBaseRef o)
    (patchHeadRef o)
    (preserveMissingSpecs o)
    (pkg_version c)
    (storybook_version c)
    (storybook_viewLayer c).

(** [!build.features.uiReview && !build.features.uiTests] *)
Definition publishOnly (b : build) : bool :=
  negb (uiReview (build_features b)) && negb (uiTests (build_features b)).

(** [list || ctx.isPublishOnly || matchesBranch(options.exitOnceUploaded)] *)
Definition exitsOnceUploaded (c : ctx) (b : build) : bool :=
  options_list (ctx_options c) || publishOnly b
  || matchesBranch (ctx_git c) (exitOnceUploaded (ctx_options c)).

(** The entries of an environment that the whitelist lets through, in the
    order in which the environment lists them. *)
Definition visible (whitelist : list regex) (env : list (string * string))
    : list (string * string) :=
  List.filter (fun kv => whitelisted whitelist (fst kv)) env.

Section Task.
Variable W : Type.
Variable ext : collaborators W.

(** [ctx.exitCode = z] *)
Definition assign_exitCode (z : Z) : Task.task ctx W event unit :=
  modify_ctx (set_exitCode z) ;; emit (AssignExitCode z).

Definition setEnvironment : Task.task ctx W event unit :=
  c <- get_ctx ;;
  env <- (fun m => (Returned (process_env ext (m_world m)), m)) ;;
  let s := Json.stringify (whitelisted_environment (ENVIRONMENT_WHITELIST c) env) in
  modify_ctx (set_environment s) ;;
  emit (LogDebug (gotEnvironment s)).

Definition createBuild : Task.task ctx W event unit :=
  c <- get_ctx ;;
  let o := ctx_options c in
  let accept := matchesBranch (ctx_git c) (autoAcceptChanges o) in
  (* It's not possible to set both --only and --only-changed *)
  (if truthy_string (only o) then emit (TransitionTo runOnly false) else ret tt) ;;
  (match onlyStoryFiles c with
   | Some _ => emit (TransitionTo runOnlyFiles false)
   | None => ret tt
   end) ;;
  b <- call (CallRunQuery (createBuildInput_of c) (isolatorUrl c))
            (runQuery ext (createBuildInput_of c) (isolatorUrl c)) ;;
  modify_ctx (set_build b) ;;
  modify_ctx (set_isPublishOnly (publishOnly b)) ;;
  modify_ctx (set_isOnboarding
    ((build_number b =? 1)%Z || (build_autoAcceptChanges b && negb accept))) ;;
  (if options_list o then emit (LogInfo (listingStories (build_tests b))) else ret tt) ;;
  (if build_wasLimited b then
     let a := build_account b in
     if exceededThreshold a then
       emit (LogWarn (snapshotQuotaReached a)) ;;
       assign_exitCode 101
     else if paymentRequired a then
       emit (LogWarn (paymentRequiredWarning a)) ;;
       assign_exitCode 102
     else
       (* Future proofing for reasons we aren't aware of *)
       emit (LogWarn (buildLimited a)) ;;
       assign_exitCode 100
   else ret tt) ;;
  emit (TransitionTo success true) ;;
  (* [ctx.isPublishOnly] was assigned above and is read back here *)
  (if exitsOnceUploaded c b then
     assign_exitCode 0 ;;
     modify_ctx (set_skipSnapshots true) ;;
     emit (LogInfo storybookPublished)
   else ret tt).
End Task.

(** The values assigned to [ctx.exitCode], in order. *)
Definition exitCode_writes (tr : list event) : list Z :=
  List.flat_map (fun e => match e with AssignExitCode z => [z] | _ => [] end) tr.

End Verify.

(* ================================================================== *)
(** ** node-src/tasks/upload.ts *)
(* ================================================================== *)

(** The module under test in [node-src/tasks/upload.test.ts].  Its own
    source is not among the files of the repository at hand, so its three
    tasks are modelled from sections 3, 4.3, 4.4 and 5 of the
    specification, with the collaborators, the context fields and the
    expected requests taken from the test file. *)
Module Upload.
Import Task.
Local Open Scope task_scope.

(** *** Data *)

Record fileLength : Type := FileLength {
  pathname : string;
  knownAs : string;
  contentLength : N
}.

(** The FileManifest of the specification. *)
Record fileInfo : Type := FileInfo {
  paths : list string;
  lengths : list fileLength;
  total : N
}.

(** One commit of the range that touched manifest or lock files. *)
Record manifestChange : Type := ManifestChange {
  commit : string;
  mc_changedFiles : list string
}.

Record git : Type := Git {
  changedFiles : list string;
  packageManifestChanges : list manifestChange
}.

Record options : Type := Options {
  zip : bool;
  untraced : list string;
  externals : list string
}.

(** The structured causes of a bail. *)
Inductive bailReason : Type :=
| changedPackageFiles (files : list string)
| invalidStats.

Record ctx : Type := Ctx {
  ctx_options : options;
  ctx_git : git;
  env_retries : nat;   (* env.CHROMATIC_RETRIES *)
  buildLogFile : option string;
  statsPath : string;
  announcedBuild_id : string;
  sourceDir : string;
  ctx_fileInfo : option fileInfo;
  turboSnap_bailReason : option bailReason;
  onlyStoryFiles : option (list string);
  uploadedBytes : option N
}.

Definition set_sourceDir (d : string) (c : ctx) : ctx :=
  Ctx (ctx_options c) (ctx_git c) (env_retries c) (buildLogFile c) (statsPath c) (announcedBuild_id c)
      d (ctx_fileInfo c) (turboSnap_bailReason c) (onlyStoryFiles c) (uploadedBytes c).
Definition set_fileInfo (f : fileInfo) (c : ctx) : ctx :=
  Ctx (ctx_options c) (ctx_git c) (env_retries c) (buildLogFile c) (statsPath c) (announcedBuild_id c)
      (sourceDir c) (Some f) (turboSnap_bailReason c) (onlyStoryFiles c) (uploadedBytes c).
Definition set_bailReason (r : bailReason) (c : ctx) : ctx :=
  Ctx (ctx_options c) (ctx_git c) (env_retries c) (buildLogFile c) (statsPath c) (announcedBuild_id c)
      (sourceDir c) (ctx_fileInfo c) (Some r) (onlyStoryFiles c) (uploadedBytes c).
Definition set_onlyStoryFiles (l : list string) (c : ctx) : ctx :=
  Ctx (ctx_options c) (ctx_git c) (env_retries c) (buildLogFile c) (statsPath c) (announcedBuild_id c)
      (sourceDir c) (ctx_fileInfo c) (turboSnap_bailReason c) (Some l) (uploadedBytes c).
Definition set_uploadedBytes (n : N) (c : ctx) : ctx :=
  Ctx (ctx_options c) (ctx_git c) (env_retries c) (buildLogFile c) (statsPath c) (announcedBuild_id c)
      (sourceDir c) (ctx_fileInfo c) (turboSnap_bailReason c) (onlyStoryFiles c) (Some n).

(** What a directory listing finds: files with their size, and
    directories with what they hold. *)
#[warnings="-register-all"] Inductive entry : Type :=
| File (name : string) (size : N)
| Directory (name : string) (children : list entry).

(** The answers of the service to the two upload mutations. *)
Record uploadUrl : Type := UploadUrl {
  url_path : string;
  url_url : string;
  url_contentType : string
}.
Record uploadUrls : Type := UploadUrls {
  urls_domain : string;
  urls : list uploadUrl
}.
Record zipUploadUrl : Type := ZipUploadUrl {
  zip_domain : string;
  zip_url : string;
  sentinelUrl : string
}.
Record archive : Type := Archive {
  archive_path : string;
  archive_size : N
}.

(** One PUT of the upload transport. *)
Record putRequest : Type := PutRequest {
  put_url : string;
  put_headers : list (string * string);
  put_body : string   (* the local file that is streamed *)
}.

Inductive warning : Type :=
| unexpectedBuildDirectory (dir : string)
| lockfileFallback
| bailFile (files : list string).

Inductive event : Type :=
| ListDirectory (dir : string)
| ReadBuildLog (file : string)
| LogWarn (msg : warning)
| LogDebug (err : exn)
| CallFindChangedDependencies (manifests : list string)
| CallFindChangedPackageFiles (changes : list manifestChange)
| CallGetDependentStoryFiles (stats : string) (changed : list string) (deps : list string)
| CallGetUploadUrls (buildId : string) (ps : list string)
| CallGetZipUploadUrl (buildId : string)
| CallCompress (dir : string) (ps : list string)
| HttpPut (requests : list putRequest)
| WaitForSentinel (url : string)
| OnTaskProgress (progress totalBytes : N).

(** One attempt at one PUT, as far as it is the transport's doing: where
    it cuts the body into chunks, and how it ends, with an ok response
    after the whole body or broken off after so many bytes. *)
Inductive ending : Type :=
| Completed
| BrokenAfter (bytes : N).

Record attempt : Type := Attempt {
  cuts : list N;
  attempt_ending : ending
}.

Definition succeeded (a : attempt) : bool :=
  match attempt_ending a with Completed => true | BrokenAfter _ => false end.

(** The chunks in which a body of [remaining] bytes goes out when it is
    cut after [cuts]: what the cuts leave over is the last chunk. *)
Fixpoint chunks (remaining : N) (cuts : list N) : list N :=
  match cuts with
  | [] => if (remaining =? 0)%N then [] else [remaining]
  | cut :: cuts' =>
      if (cut <? remaining)%N then cut :: chunks (remaining - cut) cuts'
      else if (remaining =? 0)%N then [] else [remaining]
  end.

(** Modelled from the spec: what the progress stream of a PUT of
    upload.ts sees go out in one attempt (section 4.4: the local file is
    streamed as the body, the callbacks fire per chunk; section 6: the
    body is a byte stream of exactly the declared length).  [size] is the
    declared length. *)
Definition sent (size : N) (a : attempt) : list N :=
  chunks (match attempt_ending a with
          | Completed => size
          | BrokenAfter bytes => N.min bytes size
          end)
         (cuts a).

Record collaborators (W : Type) : Type := Collaborators {
  (* fs *)
  listDirectory : string -> W -> list entry;
  readBuildLog : string -> W -> outcome string * W;
  (* glob matching of the untraced and externals options *)
  matchesFile : string -> string -> bool;
  (* ../lib/findChangedDependencies, findChangedPackageFiles,
     getDependentStoryFiles *)
  findChangedDependencies : list string -> W -> outcome (list string) * W;
  findChangedPackageFiles : list manifestChange -> W -> outcome (list string) * W;
  getDependentStoryFiles :
    string -> list string -> list string -> W -> outcome (JsObject.t (list string)) * W;
  (* the GraphQL client, ../lib/compress and the HTTP transport *)
  getUploadUrls : string -> list string -> W -> outcome uploadUrls * W;
  getZipUploadUrl : string -> W -> outcome zipUploadUrl * W;
  compress : string -> list string -> W -> outcome archive * W;
  putFiles : list putRequest -> W -> outcome (list N) * W;   (* the PUT of the archive *)
  waitForSentinel : string -> W -> outcome unit * W;
  (* the direct mode: what the n-th attempt at one PUT does, and which
     of the concurrent transfers sends its next chunk, step by step (the
     position of its request in the list) *)
  putAttempt : putRequest -> nat -> W -> attempt;
  chunkOrder : list putRequest -> W -> list nat
}.

(** *** validateFiles *)

(** Modelled from the spec: the listing of [validateFiles] in upload.ts
    (section 4.4: recurse into subdirectories, leave the directory entries
    themselves out, take the byte length of every file). *)
Fixpoint entry_lengths (prefix : string) (e : entry) : list fileLength :=
  match e with
  | File name size => [FileLength (prefix ++ name) (prefix ++ name) size]
  | Directory name children =>
      List.flat_map (entry_lengths (prefix ++ name ++ "/")) children
  end.

Definition sum_lengths (l : list fileLength) : N :=
  List.fold_right (fun f acc => (contentLength f + acc)%N) 0%N l.

(** The bytes and the number of the files in and below a directory
    entry, read off the listing itself. *)
Fixpoint entry_size (e : entry) : N :=
  match e with
  | File _ size => size
  | Directory _ children =>
      List.fold_right (fun child acc => (entry_size child + acc)%N) 0%N children
  end.

Definition tree_size (root : list entry) : N :=
  List.fold_right (fun child acc => (entry_size child + acc)%N) 0%N root.

Fixpoint entry_files (e : entry) : nat :=
  match e with
  | File _ _ => 1
  | Directory _ children =>
      List.fold_right (fun child acc => entry_files child + acc) 0 children
  end.

Definition tree_files (root : list entry) : nat :=
  List.fold_right (fun child acc => entry_files child + acc) 0 root.

(** Modelled from the spec: the FileManifest built by upload.ts from a
    listing (section 3: paths, lengths and the total of all lengths). *)
Definition getFileInfo (root : list entry) : fileInfo :=
  let ls := List.flat_map (entry_lengths EmptyString) root in
  FileInfo (List.map pathname ls) ls (sum_lengths ls).

Definition has_path (p : string) (f : fileInfo) : bool :=
  List.existsb (String.eqb p) (paths f).

(** Modelled from the spec: the validity test of upload.ts (sections 3
    and 4.4: both [index.html] and [iframe.html] at the listed root). *)
Definition isValidStorybook (f : fileInfo) : bool :=
  has_path "index.html" f && has_path "iframe.html" f.

Definition newline : ascii := ascii_of_N 10.

Fixpoint until_newline (s : string) : string :=
  match s with
  | EmptyString => EmptyString
  | String c s' => if Ascii.eqb c newline then EmptyString else String c (until_newline s')
  end.

Fixpoint find_after (fuel : nat) (marker s : string) : option string :=
  if String.prefix marker s
  then Some (String.substring (String.length marker) (String.length s) s)
  else match fuel, s with
       | S fuel', String _ s' => find_after fuel' marker s'
       | _, _ => None
       end.

(** Modelled from the spec: the scan of the build log by upload.ts
    (section 6: a line matching [Output directory: <path>]). *)
Definition getOutputDir (buildLog : string) : option string :=
  match find_after (String.length buildLog) "Output directory: " buildLog with
  | Some rest =>
      let dir := until_newline rest in
      if String.eqb dir EmptyString then None else Some dir
  | None => None
  end.

Definition invalidStorybook (dir : string) : exn :=
  Error ("Invalid Storybook build at " ++ dir).

(** The next chunk of the transfer at position [i], and the transfers
    without it; nothing when that transfer has no chunk left. *)
Fixpoint take_chunk (i : nat) (streams : list (list N)) : option (N * list (list N)) :=
  match streams, i with
  | [], _ => None
  | [] :: _, O => None
  | (delta :: rest) :: after, O => Some (delta, rest :: after)
  | s :: after, S i' =>
      match take_chunk i' after with
      | Some (delta, after') => Some (delta, s :: after')
      | None => None
      end
  end.

(** Modelled from the spec: the order in which the chunks of the
    concurrent transfers of upload.ts reach the progress callback
    (section 5: the transfers are independent, with no ordering guarantee
    between them).  The schedule names the transfer whose chunk goes out
    next; a step that names a transfer with nothing left is skipped, and
    what the schedule leaves goes out transfer by transfer. *)
Fixpoint merge (order : list nat) (streams : list (list N)) : list N :=
  match order with
  | [] => List.concat streams
  | i :: order' =>
      match take_chunk i streams with
      | Some (delta, streams') => delta :: merge order' streams'
      | None => merge order' streams
      end
  end.

Definition uploadFailed (request : putRequest) : exn :=
  Error ("Failed to upload " ++ put_body request).

Section Tasks.
Variable W : Type.
Variable ext : collaborators W.

(** Modelled from the spec: one listing of upload.ts (section 4.4). *)
Definition list_files (dir : string) : Task.task ctx W event fileInfo :=
  tree <- call (ListDirectory dir) (fun w => (Returned (listDirectory ext dir w), w)) ;;
  ret (getFileInfo tree).

(** Modelled from the spec: [validateFiles] of upload.ts (section 4.4).
    The root is listed; when it is not a Storybook build and a build
    log names another output directory, [sourceDir] is retargeted and
    listed once more; when the manifest is still invalid the task
    throws.  A build log that cannot be read gives no hint. *)
Definition validateFiles : Task.task ctx W event unit :=
  c <- get_ctx ;;
  info <- list_files (sourceDir c) ;;
  modify_ctx (set_fileInfo info) ;;
  (if isValidStorybook info then ret tt
   else match buildLogFile c with
        | None => ret tt
        | Some file =>
            try_catch
              (buildLog <- call (ReadBuildLog file) (readBuildLog ext file) ;;
               match getOutputDir buildLog with
               | Some outputDir =>
                   emit (LogWarn (unexpectedBuildDirectory outputDir)) ;;
                   modify_ctx (set_sourceDir outputDir) ;;
                   info' <- list_files outputDir ;;
                   modify_ctx (set_fileInfo info')
               | None => ret tt
               end)
              (fun err => emit (LogDebug err))
        end) ;;
  c' <- get_ctx ;;
  match ctx_fileInfo c' with
  | Some f =>
      if isValidStorybook f then ret tt else throw (invalidStorybook (sourceDir c'))
  | None => throw (invalidStorybook (sourceDir c'))
  end.

(** *** traceChangedFiles *)

Definition is_untraced (o : options) (file : string) : bool :=
  List.existsb (fun glob => matchesFile ext glob file) (untraced o).
Definition is_external (o : options) (file : string) : bool :=
  List.existsb (fun glob => matchesFile ext glob file) (externals o).

(** Modelled from the spec: the filter upload.ts applies to
    [packageManifestChanges] (section 4.3, step 3: excluded manifest
    paths are filtered out before the decision); a commit that keeps no
    path is dropped, as the last test of [traceChangedFiles] expects. *)
Definition tracedManifestChanges (o : options) (changes : list manifestChange)
    : list manifestChange :=
  List.filter
    (fun ch => negb (Nat.eqb (List.length (mc_changedFiles ch)) 0))
    (List.map
       (fun ch =>
          ManifestChange (commit ch)
            (List.filter (fun f => negb (is_untraced o f)) (mc_changedFiles ch)))
       changes).

(** Modelled from the spec: the changed files upload.ts projects
    (section 4.3, step 5: untraced and external paths are removed from
    the changed-file set before projection). *)
Definition tracedChangedFiles (o : options) (files : list string) : list string :=
  List.filter (fun f => negb (is_untraced o f) && negb (is_external o f)) files.

(** Modelled from the spec: the input of the resolver in upload.ts
    (section 4.3, edge cases: the manifest paths of the range, each
    once). *)
Definition manifestPaths (changes : list manifestChange) : list string :=
  List.nodup string_dec (List.flat_map mc_changedFiles changes).

(** Modelled from the spec: steps 5 and 6 of [traceChangedFiles] in
    upload.ts.  The graph is loaded from the stats artifact and the
    changed files are projected; [onlyStoryFiles] is set to the keys of
    what comes back, as the tests expect.  A stats artifact that is
    absent or malformed forces a bail, not a crash (section 6). *)
Definition projectChangedFiles (c : ctx) (deps : list string)
    : Task.task ctx W event unit :=
  let changed := tracedChangedFiles (ctx_options c) (changedFiles (ctx_git c)) in
  try_catch
    (stories <- call (CallGetDependentStoryFiles (statsPath c) changed deps)
                     (getDependentStoryFiles ext (statsPath c) changed deps) ;;
     modify_ctx (set_onlyStoryFiles (JsObject.keys stories)))
    (fun err =>
       emit (LogDebug err) ;;
       modify_ctx (set_bailReason invalidStats)).

(** Modelled from the spec: the coarse manifest check of
    [traceChangedFiles] in upload.ts (section 4.3, steps 3 and 4), which
    the tests name [findChangedPackageFiles]: it is given the manifest
    changes that are not untraced; when it reports a file the run bails
    and stops, otherwise tracing goes on. *)
Definition coarseManifestCheck (c : ctx) (deps : list string)
    : Task.task ctx W event unit :=
  let traced := tracedManifestChanges (ctx_options c) (packageManifestChanges (ctx_git c)) in
  files <- call (CallFindChangedPackageFiles traced) (findChangedPackageFiles ext traced) ;;
  match files with
  | _ :: _ =>
      modify_ctx (set_bailReason (changedPackageFiles files)) ;;
      emit (LogWarn (bailFile files))
  | [] => projectChangedFiles c deps
  end.

(** Modelled from the spec: the attempt of upload.ts at the exact
    resolver, as a typed result (section 4.3, step 2, and the design
    notes): the changed dependencies, or nothing when it failed for
    whatever reason. *)
Definition resolveDependencies (c : ctx) : Task.task ctx W event (option (list string)) :=
  let manifests := manifestPaths (packageManifestChanges (ctx_git c)) in
  try_catch
    (deps <- call (CallFindChangedDependencies manifests)
                  (findChangedDependencies ext manifests) ;;
     ret (Some deps))
    (fun err => emit (LogDebug err) ;; ret None).

(** Modelled from the spec: [traceChangedFiles] of upload.ts (section
    4.3, steps 1 to 6). *)
Definition traceChangedFiles : Task.task ctx W event unit :=
  c <- get_ctx ;;
  resolved <- resolveDependencies c ;;
  match resolved with
  | Some [] => projectChangedFiles c []
  | Some deps => coarseManifestCheck c deps
  | None =>
      emit (LogWarn lockfileFallback) ;;
      coarseManifestCheck c []
  end.

(** *** uploadStorybook *)

Definition decimal (n : N) : string := NilEmpty.string_of_uint (N.to_uint n).

Definition length_of (f : fileInfo) (path : string) : option fileLength :=
  List.find (fun l => String.eqb (knownAs l) path) (lengths f).

(** Modelled from the spec: the PUT upload.ts issues for one signed URL
    in direct mode (section 4.4: the local file as body, its content
    type, its exact byte count from the manifest and a long-lived cache
    control), with the entry of the manifest it uploads. *)
Definition directUpload (dir : string) (f : fileInfo) (u : uploadUrl)
    : option (fileLength * putRequest) :=
  match length_of f (url_path u) with
  | Some l =>
      Some (l,
            PutRequest (url_url u)
              [("content-type", url_contentType u);
               ("content-length", decimal (contentLength l));
               ("cache-control", "max-age=31536000")]
              (dir ++ pathname l))
  | None => None
  end.

Definition filter_map {A B} (g : A -> option B) (l : list A) : list B :=
  List.flat_map (fun a => match g a with Some b => [b] | None => [] end) l.

(** Modelled from the spec: the uploads of the direct mode of upload.ts,
    one per signed URL the service returned (section 4.4), and their
    PUTs. *)
Definition directUploads (c : ctx) (f : fileInfo) (targets : uploadUrls)
    : list (fileLength * putRequest) :=
  filter_map (directUpload (sourceDir c) f) (urls targets).


(** Modelled from the spec: the progress aggregation of upload.ts
    (sections 4.4 and 5: one cumulative counter, a delta added per
    chunk, a callback per chunk). *)
Fixpoint reportProgress (uploaded totalBytes : N) (deltas : list N)
    : Task.task ctx W event N :=
  match deltas with
  | [] => ret uploaded
  | delta :: rest =>
      let uploaded' := (uploaded + delta)%N in
      emit (OnTaskProgress uploaded' totalBytes) ;;
      reportProgress uploaded' totalBytes rest
  end.

(** Modelled from the spec: one transfer of the direct mode of upload.ts
    with its retries (section 4.4: each transfer is retried independently
    up to the retry budget; a transfer that exhausts its budget fails).
    [size] is the declared length of the body and [n] counts the
    attempts made so far.  The result lists the chunks that went out in
    all the attempts, and tells whether the last attempt succeeded. *)
Fixpoint transfer_from (w : W) (size : N) (request : putRequest) (budget n : nat)
    {struct budget} : list N * bool :=
  let a := putAttempt ext request n w in
  if succeeded a then (sent size a, true)
  else match budget with
       | O => (sent size a, false)
       | S budget' =>
           let later := transfer_from w size request budget' (S n) in
           ((sent size a ++ fst later)%list, snd later)
       end.

Definition transfer (w : W) (budget : nat) (upload : fileLength * putRequest)
    : list N * bool :=
  transfer_from w (contentLength (fst upload)) (snd upload) budget 0.

(** Modelled from the spec: the direct mode of [uploadStorybook] in
    upload.ts (section 4.4).  One PUT per signed URL; the transfers run
    concurrently, each with its own retries, and every chunk that goes
    out, in whatever attempt, adds its delta to the one counter that is
    only ever incremented (section 5).  When a transfer has used up its
    retries the step fails; otherwise [uploadedBytes] is the total of the
    manifest. *)
Definition uploadDirect (c : ctx) (f : fileInfo) : Task.task ctx W event unit :=
  targets <- call (CallGetUploadUrls (announcedBuild_id c) (paths f))
                  (getUploadUrls ext (announcedBuild_id c) (paths f)) ;;
  let uploads := directUploads c f targets in
  let requests := List.map snd uploads in
  emit (HttpPut requests) ;;
  w <- (fun m => (Returned (m_world m), m)) ;;
  let transfers := List.map (transfer w (env_retries c)) uploads in
  reportProgress 0 (total f) (merge (chunkOrder ext requests w) (List.map fst transfers)) ;;
  match List.filter (fun u => negb (snd (transfer w (env_retries c) u))) uploads with
  | [] => modify_ctx (set_uploadedBytes (total f))
  | upload :: _ => throw (uploadFailed (snd upload))
  end.

(** Modelled from the spec: the PUT upload.ts issues for the archive
    (section 4.4: content type [application/zip] and the real byte
    length of the archive). *)
Definition archiveRequest (target : zipUploadUrl) (zipped : archive) : putRequest :=
  PutRequest (zip_url target)
    [("content-type", "application/zip");
     ("content-length", decimal (archive_size zipped))]
    (archive_path zipped).

(** Modelled from the spec: the archive mode of [uploadStorybook] in
    upload.ts (section 4.4): compress, ask for the signed URL and the
    sentinel, PUT the archive with its own length, wait for the
    sentinel. *)
Definition uploadArchive (c : ctx) (f : fileInfo) : Task.task ctx W event unit :=
  zipped <- call (CallCompress (sourceDir c) (paths f))
                 (compress ext (sourceDir c) (paths f)) ;;
  target <- call (CallGetZipUploadUrl (announcedBuild_id c))
                 (getZipUploadUrl ext (announcedBuild_id c)) ;;
  let request := archiveRequest target zipped in
  call (HttpPut [request]) (putFiles ext [request]) ;;
  call (WaitForSentinel (sentinelUrl target)) (waitForSentinel ext (sentinelUrl target)) ;;
  modify_ctx (set_uploadedBytes (archive_size zipped)).

(** Modelled from the spec: [uploadStorybook] of upload.ts (section
    4.4): the two modes exclude each other and the configuration
    chooses. *)
Definition uploadStorybook : Task.task ctx W event unit :=
  c <- get_ctx ;;
  match ctx_fileInfo c with
  | Some f => if zip (ctx_options c) then uploadArchive c f else uploadDirect c f
  | None => throw (Error "Cannot read properties of undefined")
  end.
End Tasks.

(** The progress values handed to the callbacks, in order. *)
Definition progress_reports (tr : list event) : list N :=
  List.flat_map (fun e => match e with OnTaskProgress p _ => [p] | _ => [] end) tr.

Definition put_requests (tr : list event) : list putRequest :=
  List.flat_map (fun e => match e with HttpPut rs => rs | _ => [] end) tr.

Definition is_getDependentStoryFiles (e : event) : bool :=
  match e with CallGetDependentStoryFiles _ _ _ => true | _ => false end.

(** What the coarse manifest check and the dependency graph were asked,
    call by call. *)
Definition coarse_checks (tr : list event) : list (list manifestChange) :=
  List.flat_map
    (fun e => match e with CallFindChangedPackageFiles changes => [changes] | _ => [] end) tr.

Definition graph_calls (tr : list event) : list (string * list string * list string) :=
  List.flat_map
    (fun e => match e with
              | CallGetDependentStoryFiles stats changed deps => [(stats, changed, deps)]
              | _ => []
              end) tr.

Definition listed_directories (tr : list event) : list string :=
  List.flat_map (fun e => match e with ListDirectory d => [d] | _ => [] end) tr.

Definition N_sum (l : list N) : N := List.fold_right N.add 0%N l.

(** The values of a counter that starts at [start] and adds one delta
    after the other. *)
Fixpoint running_sums (start : N) (deltas : list N) : list N :=
  match deltas with
  | [] => []
  | delta :: rest => (start + delta)%N :: running_sums (start + delta) rest
  end.


Definition initial_ctx (o : options) (g : git) (retries : nat) (log : option string)
    (stats buildId dir : string) : ctx :=
  Ctx o g retries log stats buildId dir None None None None.

End Upload.

From Stdlib Require Import Permutation.

(* ================================================================== *)
(** ** JavaScript values of any type, and [String.prototype.split] *)
(* ================================================================== *)

(** The values the flags and the options hold: [undefined], [null],
    booleans, strings and arrays of such values. *)
Module JsValue.

#[warnings="-register-all"] Inductive value : Type :=
| VUndefined
| VNull
| VBool (b : bool)
| VString (s : string)
| VArray (elements : list value).

(** [!!v] *)
Definition truthy (v : value) : bool :=
  match v with
  | VUndefined | VNull => false
  | VBool b => b
  | VString s => negb (String.eqb s EmptyString)
  | VArray _ => true
  end.

(** [typeof v === 'string'] *)
Definition is_string (v : value) : bool :=
  match v with VString _ => true | _ => false end.

(** [v === undefined] *)
Definition is_undefined (v : value) : bool :=
  match v with VUndefined => true | _ => false end.

(** [a === b].  Two arrays are equal when they are the same object; the
    values here carry no identity and two arrays are taken to be two
    objects. *)
Definition strict_eq (a b : value) : bool :=
  match a, b with
  | VUndefined, VUndefined => true
  | VNull, VNull => true
  | VBool x, VBool y => Bool.eqb x y
  | VString x, VString y => String.eqb x y
  | _, _ => false
  end.

(** [a || b] *)
Definition or_else (a b : value) : value := if truthy a then a else b.

(** A string that may be [undefined], as a value. *)
Definition of_option (s : option string) : value :=
  match s with Some x => VString x | None => VUndefined end.

(** [String(v)]: an array is the join of its elements with commas, where
    [undefined] and [null] give nothing. *)
Fixpoint to_string (v : value) : string :=
  match v with
  | VUndefined => "undefined"
  | VNull => "null"
  | VBool true => "true"
  | VBool false => "false"
  | VString s => s
  | VArray l =>
      let element e :=
        match e with VUndefined | VNull => EmptyString | _ => to_string e end in
      String.concat "," (List.map element l)
  end.

(** [s.split(separator)] for a separator that is not empty.  [skip]
    counts the characters of a separator just found that are still to be
    passed over, [current] holds the piece being read, backwards. *)
Fixpoint split_from (separator : string) (skip : nat) (current : list ascii)
    (s : string) : list string :=
  match s with
  | EmptyString => [string_of_list_ascii (List.rev current)]
  | String c rest =>
      match skip with
      | S skip' => split_from separator skip' current rest
      | O =>
          if String.prefix separator s
          then string_of_list_ascii (List.rev current)
               :: split_from separator (String.length separator - 1) [] rest
          else split_from separator 0 (c :: current) rest
      end
  end.

Definition split (separator s : string) : list string :=
  split_from separator 0 [] s.

(** [array.filter(Boolean)] on strings *)
Definition nonempty_strings (l : list string) : list string :=
  List.filter (fun s => negb (String.eqb s EmptyString)) l.

End JsValue.

(* ================================================================== *)
(** ** node-src/lib/getOptions.ts *)
(* ================================================================== *)

Module GetOptions.
Import JsValue.

(** The options are an object, put together by spreading. *)
Definition object : Type := JsObject.t value.

(** [o.key]: the value of the property, [undefined] without it.  Every
    key read below is a key of [defaultOptions], so it is an own property
    of the options. *)
Definition read (key : string) (o : object) : value :=
  match JsObject.get key o with Some v => v | None => VUndefined end.

(** [{ ...target, ...source }]: the properties of the source are assigned
    in their order; spreading [undefined] assigns nothing. *)
Definition spread (target : object) (source : option object) : object :=
  match source with
  | Some src => List.fold_left (fun acc kv => JsObject.set (fst kv) (snd kv) acc) src target
  | None => target
  end.

(** [Object.fromEntries(entries)] *)
Definition fromEntries (entries : list (string * value)) : object :=
  spread (JsObject.empty value) (Some entries).

Definition takeLast (input : value) : value :=
  match input with
  | VArray l => List.last l VUndefined
  | _ => input
  end.

Definition ensureArray (input : value) : list value :=
  match input with
  | VArray l => l
  | _ => [input]
  end.

Definition trueIfSet (v : value) : value :=
  match v with
  | VString s => if String.eqb s EmptyString then VBool true else v
  | _ => v
  end.

Definition undefinedIfEmpty (array : list value) : value :=
  let filtered := List.filter truthy array in
  match filtered with
  | [] => VUndefined
  | _ :: _ => VArray filtered
  end.

Definition stripUndefined (o : object) : object :=
  fromEntries (List.filter (fun kv => negb (is_undefined (snd kv))) (JsObject.entries o)).

(** The flags the function reads.  [patchBuild], [branchName] and
    [repositorySlug] are split, so they are strings when they are given;
    the others are values of whatever type the command line parser
    produced. *)
Record Flags : Type := {
  projectToken : value;
  appCode : value;
  onlyChanged : value;
  onlyStoryFiles : value;
  onlyStoryNames : value;
  only : value;
  untraced : value;
  externals : value;
  traceChanged : value;
  flag_list : value;            (* [flags.list] *)
  ci : value;
  skip : value;
  dryRun : value;
  forceRebuild : value;
  debug : value;
  diagnostics : value;
  junitReport : value;
  zip : value;
  autoAcceptChanges : value;
  exitZeroOnChanges : value;
  exitOnceUploaded : value;
  ignoreLastBuildOnBranch : value;
  preserveMissing : value;
  buildScriptName : value;
  outputDir : value;
  allowConsoleErrors : value;
  storybookBuildDir : value;
  storybookBaseDir : value;
  storybookConfigDir : value;
  repositorySlug : option string;
  branchName : option string;
  patchBuild : option string;
  uploadMetadata : value;
  interactive : value
}.

(** What [getOptions] is given, with what it reads of [process]. *)
Record InitialContext : Type := {
  argv : list string;
  env_CHROMATIC_PROJECT_TOKEN : value;
  flags : Flags;
  extraOptions : option object;
  configuration : option object;
  packageJson_scripts : option (JsObject.t string);
  process_env_CI : option string;
  process_env_NODE_ENV : option string;
  process_stdout_isTTY : bool
}.

(** The messages of [../ui/messages], by name, and the [TypeError] of a
    call on something that is not a function. *)
Inductive failure : Type :=
| missingProjectToken
| invalidRepositorySlug
| invalidOwnerName (branchOwner repositoryOwner : string)
| invalidPatchBuild
| duplicatePatchBuild
| invalidOnlyStoryNames
| invalidSingularOptions (names : list string)
| dependentOption (flag dependency : string)
| incompatibleOptions (names : list string)
| invalidReportPath
| missingBuildScriptName (name : string)
| typeError (what : string).

Inductive infoMessage : Type :=
| blank
| deprecatedOption (flag : string) (replacement : option string).

Inductive logCall : Type :=
| setLevel (level : string)
| setInteractive (on : bool)
| info (msg : infoMessage).

Inductive result (A : Type) : Type :=
| Returns (a : A)
| Throws (f : failure).
Arguments Returns {A} a.
Arguments Throws {A} f.

(** A computation that writes to the log and returns or throws. *)
Definition M (A : Type) : Type := list logCall * result A.

Definition ret {A} (a : A) : M A := ([], Returns a).
Definition throw {A} (f : failure) : M A := ([], Throws f).
Definition log (c : logCall) : M unit := ([c], Returns tt).
Definition bind {A B} (m : M A) (k : A -> M B) : M B :=
  match m with
  | (l, Returns a) => let (l', r) := k a in ((l ++ l')%list, r)
  | (l, Throws f) => (l, Throws f)
  end.

(** [if (cond) throw new Error(message)] *)
Definition guard (cond : bool) (f : failure) : M unit :=
  if cond then throw f else ret tt.

(** [when (cond) { ... }] *)
Definition when (cond : bool) (m : M unit) : M unit :=
  if cond then m else ret tt.

Declare Scope options_scope.
Delimit Scope options_scope with options.
Notation "x <- m ;; k" := (bind m (fun x => k))
  (at level 100, m at next level, right associativity) : options_scope.
Notation "m ;; k" := (bind m (fun _ => k))
  (at level 100, right associativity) : options_scope.
Local Open Scope options_scope.

(** The [n]-th variable of an array destructuring. *)
Definition item (n : nat) (l : list string) : option string := List.nth_error l n.

(** [(flags.patchBuild || '').split('...').filter(Boolean)] *)
Definition patchRefs (f : Flags) : list string :=
  nonempty_strings
    (split "..." (match patchBuild f with Some s => s | None => EmptyString end)).

(** [(flags.branchName || '').split(':').reverse()] *)
Definition branchParts (f : Flags) : list string :=
  List.rev (split ":" (match branchName f with Some s => s | None => EmptyString end)).

(** [flags.repositorySlug?.split('/') || []] *)
Definition slugParts (f : Flags) : list string :=
  match repositorySlug f with
  | Some s => split "/" s
  | None => []
  end.

Definition defaultOptions (c : InitialContext) : object :=
  [("projectToken", env_CHROMATIC_PROJECT_TOKEN c);
   ("fromCI", VBool (truthy_string (process_env_CI c)));
   ("dryRun", VBool false);
   ("debug", VBool false);
   ("autoAcceptChanges", VBool false);
   ("exitZeroOnChanges", VBool false);
   ("exitOnceUploaded", VBool false);
   ("diagnostics", VBool false);
   ("isLocalBuild", VBool false);
   ("originalArgv", VArray (List.map VString (argv c)));
   (* We set these to undefined just so TS doesn't complain *)
   ("onlyChanged", VUndefined);
   ("onlyStoryFiles", VUndefined);
   ("onlyStoryNames", VUndefined);
   ("untraced", VUndefined);
   ("externals", VUndefined);
   ("traceChanged", VUndefined);
   ("list", VUndefined);
   ("skip", VUndefined);
   ("forceRebuild", VUndefined);
   ("junitReport", VUndefined);
   ("zip", VUndefined);
   ("ignoreLastBuildOnBranch", VUndefined);
   ("preserveMissingSpecs", VUndefined);
   ("buildScriptName", VUndefined);
   ("outputDir", VUndefined);
   ("allowConsoleErrors", VUndefined);
   ("storybookBuildDir", VUndefined);
   ("storybookBaseDir", VUndefined);
   ("storybookConfigDir", VUndefined);
   ("ownerName", VUndefined);
   ("repositorySlug", VUndefined);
   ("branchName", VUndefined);
   ("patchHeadRef", VUndefined);
   ("patchBaseRef", VUndefined);
   ("uploadMetadata", VUndefined)].

(** The object literal that is handed to [stripUndefined]. *)
Definition flagOptions (f : Flags) : object :=
  let branchOwner := item 1 (branchParts f) in
  let repositoryOwner := item 0 (slugParts f) in
  [("projectToken", takeLast (or_else (projectToken f) (appCode f)));
   ("onlyChanged", trueIfSet (onlyChanged f));
   ("onlyStoryFiles", undefinedIfEmpty (ensureArray (onlyStoryFiles f)));
   ("onlyStoryNames", undefinedIfEmpty (ensureArray (or_else (onlyStoryNames f) (only f))));
   ("untraced", undefinedIfEmpty (ensureArray (untraced f)));
   ("externals", undefinedIfEmpty (ensureArray (externals f)));
   ("traceChanged", trueIfSet (traceChanged f));
   ("list", flag_list f);
   ("fromCI", ci f);
   ("skip", trueIfSet (skip f));
   ("dryRun", dryRun f);
   ("forceRebuild", trueIfSet (forceRebuild f));
   ("debug", debug f);
   ("diagnostics", diagnostics f);
   ("junitReport", trueIfSet (junitReport f));
   ("zip", zip f);
   ("autoAcceptChanges", trueIfSet (autoAcceptChanges f));
   ("exitZeroOnChanges", trueIfSet (exitZeroOnChanges f));
   ("exitOnceUploaded", trueIfSet (exitOnceUploaded f));
   ("ignoreLastBuildOnBranch", ignoreLastBuildOnBranch f);
   (* deprecated *)
   ("preserveMissingSpecs",
    if truthy (preserveMissing f) || is_string (only f) then VBool true else VUndefined);
   ("buildScriptName", buildScriptName f);
   ("outputDir", takeLast (outputDir f));
   ("allowConsoleErrors", allowConsoleErrors f);
   ("storybookBuildDir", takeLast (storybookBuildDir f));
   ("storybookBaseDir", storybookBaseDir f);
   ("storybookConfigDir", storybookConfigDir f);
   ("ownerName", or_else (of_option branchOwner) (of_option repositoryOwner));
   ("repositorySlug", of_option (repositorySlug f));
   ("branchName", of_option (item 0 (branchParts f)));
   ("patchHeadRef", of_option (item 0 (patchRefs f)));
   ("patchBaseRef", of_option (item 1 (patchRefs f)));
   ("uploadMetadata", uploadMetadata f)].

(** We need to strip out undefined because they otherwise they override
    anyway *)
Definition optionsFromFlags (f : Flags) : object := stripUndefined (flagOptions f).

(** This option is sort of weird *)
Definition interactiveOption (c : InitialContext) : bool :=
  negb (truthy_string (process_env_CI c))
  && negb (truthy (ci (flags c)))
  && negb (truthy (debug (flags c)))
  && truthy (interactive (flags c))
  && process_stdout_isTTY c
  && negb (match process_env_NODE_ENV c with
           | Some e => String.eqb e "test"
           | None => false
           end).

(** [const options = { ...defaultOptions, ...configuration,
    ...optionsFromFlags, ...extraOptions, interactive: ... }] *)
Definition mergedOptions (c : InitialContext) : object :=
  JsObject.set "interactive" (VBool (interactiveOption c))
    (spread
       (spread
          (spread (spread (JsObject.empty value) (Some (defaultOptions c)))
                  (configuration c))
          (Some (optionsFromFlags (flags c))))
       (extraOptions c)).

(** [/[\w*]\/[\w*]/.test(glob)]: somewhere in the glob a slash stands
    between two characters that are a letter, a digit, an underscore or a
    star. *)
Definition is_word_or_star (c : ascii) : bool :=
  let n := N_of_ascii c in
  ((48 <=? n) && (n <=? 57) || (65 <=? n) && (n <=? 90)
   || (97 <=? n) && (n <=? 122) || (n =? 95) || (n =? 42))%N.

Fixpoint storyNamePattern (glob : string) : bool :=
  match glob with
  | String a ((String b (String c _)) as rest) =>
      (is_word_or_star a && (N_of_ascii b =? 47)%N && is_word_or_star c)
      || storyNamePattern rest
  | _ => false
  end.

(** [options.onlyStoryNames?.some((glob) => !pattern.test(glob))] *)
Definition checkOnlyStoryNames (options : object) : M unit :=
  match read "onlyStoryNames" options with
  | VUndefined | VNull => ret tt
  | VArray globs =>
      guard (List.existsb (fun glob => negb (storyNamePattern (to_string glob))) globs)
            invalidOnlyStoryNames
  | VBool _ | VString _ => throw (typeError "options.onlyStoryNames?.some is not a function")
  end.

(** The names [Object.prototype] gives to every object: a lookup of one
    of them in [scripts] finds a function or the prototype itself, which
    is truthy, also when the scripts do not define it. *)
Definition inherited (key : string) : bool :=
  List.existsb (String.eqb key)
    ["constructor"; "__defineGetter__"; "__defineSetter__"; "hasOwnProperty";
     "__lookupGetter__"; "__lookupSetter__"; "isPrototypeOf"; "propertyIsEnumerable";
     "toString"; "valueOf"; "__proto__"; "toLocaleString"].

(** [!!scripts[name]] *)
Definition hasScript (scripts : JsObject.t string) (name : string) : bool :=
  match JsObject.get name scripts with
  | Some script => negb (String.eqb script EmptyString)
  | None => inherited name
  end.

(** The name the build script is looked up under when the options give
    none that is a string: [build-storybook], or else the first script
    that starts with it. *)
Definition defaultBuildScriptName (scripts : JsObject.t string) : string :=
  if hasScript scripts "build-storybook" then "build-storybook"
  else match List.find (fun kv => String.prefix "build-storybook" (snd kv))
                       (JsObject.entries scripts) with
       | Some (key, _) => if String.eqb key EmptyString then "build-storybook" else key
       | None => "build-storybook"
       end.

(** What a spread of [source] assigns to [key]: the value of the last
    entry with that key (an object has one entry per key), nothing when
    the source is [undefined] or lacks the key. *)
Definition assigned (key : string) (source : option object) : option value :=
  match source with
  | Some src => JsObject.get key (List.rev src)
  | None => None
  end.

(** An object has one entry per key. *)
Definition distinct_keys {V} (o : JsObject.t V) : Prop := NoDup (JsObject.keys o).

(** A decision of [distinct_keys] for the keys of an object literal. *)
Fixpoint distinctb (keys : list string) : bool :=
  match keys with
  | [] => true
  | k :: rest => negb (List.existsb (String.eqb k) rest) && distinctb rest
  end.

(** The layers of the options, from the strongest: [extraOptions], the
    flags that are not [undefined], [configuration], the defaults. *)
Definition layered (key : string) (c : InitialContext) : value :=
  match assigned key (extraOptions c) with
  | Some v => v
  | None =>
      match JsObject.get key (flagOptions (flags c)) with
      | Some VUndefined | None =>
          match assigned key (configuration c) with
          | Some v => v
          | None => read key (defaultOptions c)
          end
      | Some v => v
      end
  end.

(** [{ ...options, buildScriptName }] *)
Definition withBuildScript (name : string) (options : object) : object :=
  JsObject.set "buildScriptName" (VString name)
    (spread (JsObject.empty value) (Some options)).

Section WithPath.
(** [path.extname] of Node *)
Variable extname : string -> string.

Definition getOptions (c : InitialContext) : M object :=
  let f := flags c in
  let branchOwner := item 1 (branchParts f) in
  let repositoryOwner := item 0 (slugParts f) in
  let repositoryName := item 1 (slugParts f) in
  let rest := List.skipn 2 (slugParts f) in
  let options := mergedOptions c in
  let on key := truthy (read key options) in
  when (on "debug")
    (log (setLevel "debug") ;;
     log (setInteractive false)) ;;
  guard (negb (on "projectToken")) missingProjectToken ;;
  guard (truthy_string repositoryOwner
         && (negb (truthy_string repositoryName) || negb (Nat.eqb (List.length rest) 0)))
        invalidRepositorySlug ;;
  match branchOwner, repositoryOwner with
  | Some bo, Some ro =>
      guard (truthy_string branchOwner && truthy_string repositoryOwner
             && negb (String.eqb bo ro))
            (invalidOwnerName bo ro)
  | _, _ => ret tt
  end ;;
  when (truthy_string (patchBuild f))
    (guard (negb (on "patchHeadRef") || negb (on "patchBaseRef")) invalidPatchBuild ;;
     guard (strict_eq (read "patchHeadRef" options) (read "patchBaseRef" options))
           duplicatePatchBuild) ;;
  checkOnlyStoryNames options ;;
  (* We can only have one of these arguments *)
  let foundSingularOpts :=
    List.filter (fun name => on name) ["buildScriptName"; "storybookBuildDir"] in
  guard (Nat.ltb 1 (List.length foundSingularOpts))
        (invalidSingularOptions
           (List.map (fun name => if String.eqb name "buildScriptName"
                                  then "--build-script-name" else "--storybook-build-dir")
                     foundSingularOpts)) ;;
  guard (on "onlyChanged" && on "onlyStoryFiles")
        (invalidSingularOptions ["--only-changed"; "--only-story-files"]) ;;
  guard (on "onlyChanged" && on "onlyStoryNames")
        (invalidSingularOptions ["--only-changed"; "--only-story-names"]) ;;
  guard (on "onlyStoryNames" && on "onlyStoryFiles")
        (invalidSingularOptions ["--only-story-files"; "--only-story-names"]) ;;
  guard (on "untraced" && negb (on "onlyChanged"))
        (dependentOption "--untraced" "--only-changed") ;;
  guard (on "externals" && negb (on "onlyChanged"))
        (dependentOption "--externals" "--only-changed") ;;
  guard (on "traceChanged" && negb (on "onlyChanged"))
        (dependentOption "--trace-changed" "--only-changed") ;;
  guard (on "junitReport" && on "exitOnceUploaded")
        (incompatibleOptions ["--junit-report"; "--exit-once-uploaded"]) ;;
  guard (match read "junitReport" options with
         | VString report => negb (String.eqb (extname report) ".xml")
         | _ => false
         end)
        invalidReportPath ;;
  when (truthy (only f))
    (log (info blank) ;;
     log (info (deprecatedOption "only" (Some "onlyStoryNames")))) ;;
  when (truthy (preserveMissing f))
    (log (info blank) ;;
     log (info (deprecatedOption "preserveMissing" None))) ;;
  (* Build Storybook *)
  if on "storybookBuildDir" then ret options
  else
    let scripts := packageJson_scripts c in
    name <- match read "buildScriptName" options with
            | VString given => ret given
            | _ =>
                match scripts with
                | Some defined => ret (defaultBuildScriptName defined)
                | None => throw (typeError "Cannot read properties of undefined")
                end
            end ;;
    match scripts with
    | Some defined =>
        if negb (String.eqb name EmptyString) && hasScript defined name
        then ret (withBuildScript name options)
        else throw (missingBuildScriptName name)
    | None => throw (missingBuildScriptName name)
    end.
End WithPath.

End GetOptions.

(** *** Scenarios for getOptions *)

Module OptionsScenario.
Import JsValue GetOptions.

(** No flag is given. *)
Definition no_flags : Flags :=
  {| projectToken := VUndefined; appCode := VUndefined; onlyChanged := VUndefined;
     onlyStoryFiles := VUndefined; onlyStoryNames := VUndefined; only := VUndefined;
     untraced := VUndefined; externals := VUndefined; traceChanged := VUndefined;
     flag_list := VUndefined; ci := VUndefined; skip := VUndefined;
     dryRun := VUndefined; forceRebuild := VUndefined; debug := VUndefined;
     diagnostics := VUndefined; junitReport := VUndefined; zip := VUndefined;
     autoAcceptChanges := VUndefined; exitZeroOnChanges := VUndefined;
     exitOnceUploaded := VUndefined; ignoreLastBuildOnBranch := VUndefined;
     preserveMissing := VUndefined; buildScriptName := VUndefined;
     outputDir := VUndefined; allowConsoleErrors := VUndefined;
     storybookBuildDir := VUndefined; storybookBaseDir := VUndefined;
     storybookConfigDir := VUndefined; repositorySlug := None; branchName := None;
     patchBuild := None; uploadMetadata := VUndefined; interactive := VUndefined |}.

(** The flags [--project-token cli-code] with a patch build, a branch and
    a repository. *)
Definition patch_flags (patch branch slug : option string) : Flags :=
  {| projectToken := VArray [VString "cli-code"]; appCode := VUndefined;
     onlyChanged := VUndefined;
     onlyStoryFiles := VUndefined; onlyStoryNames := VUndefined; only := VUndefined;
     untraced := VUndefined; externals := VUndefined; traceChanged := VUndefined;
     flag_list := VUndefined; ci := VUndefined; skip := VUndefined;
     dryRun := VUndefined; forceRebuild := VUndefined; debug := VUndefined;
     diagnostics := VUndefined; junitReport := VUndefined; zip := VUndefined;
     autoAcceptChanges := VUndefined; exitZeroOnChanges := VUndefined;
     exitOnceUploaded := VUndefined; ignoreLastBuildOnBranch := VUndefined;
     preserveMissing := VUndefined; buildScriptName := VUndefined;
     outputDir := VUndefined; allowConsoleErrors := VUndefined;
     storybookBuildDir := VUndefined; storybookBaseDir := VUndefined;
     storybookConfigDir := VUndefined; repositorySlug := slug; branchName := branch;
     patchBuild := patch; uploadMetadata := VUndefined; interactive := VBool true |}.

(** TurboSnap flags: [--only-changed --untraced package.json
    --junit-report report.xml --only-story-names ...] *)
Definition turbo_flags (onlyChanged untraced junitReport onlyStoryNames : value) : Flags :=
  {| projectToken := VArray [VString "first"; VString "cli-code"]; appCode := VUndefined;
     onlyChanged := onlyChanged;
     onlyStoryFiles := VArray []; onlyStoryNames := onlyStoryNames; only := VUndefined;
     untraced := untraced; externals := VArray [VString EmptyString];
     traceChanged := VUndefined;
     flag_list := VUndefined; ci := VUndefined; skip := VUndefined;
     dryRun := VUndefined; forceRebuild := VUndefined; debug := VBool true;
     diagnostics := VUndefined; junitReport := junitReport; zip := VUndefined;
     autoAcceptChanges := VUndefined; exitZeroOnChanges := VUndefined;
     exitOnceUploaded := VUndefined; ignoreLastBuildOnBranch := VUndefined;
     preserveMissing := VUndefined; buildScriptName := VUndefined;
     outputDir := VUndefined; allowConsoleErrors := VUndefined;
     storybookBuildDir := VArray [VString "storybook-static"];
     storybookBaseDir := VUndefined;
     storybookConfigDir := VUndefined; repositorySlug := None; branchName := None;
     patchBuild := None; uploadMetadata := VUndefined; interactive := VBool true |}.

Definition scripts : JsObject.t string :=
  [("storybook", "start-storybook");
   ("otherBuildStorybook", "build-storybook -o out");
   ("test", "jest")].

(** A context on a terminal, outside CI, with a token in the
    environment. *)
Definition context (f : Flags) (configuration extra : option object) : InitialContext :=
  {| argv := ["--project-token"; "cli-code"];
     env_CHROMATIC_PROJECT_TOKEN := VString "env-code";
     flags := f;
     extraOptions := extra;
     configuration := configuration;
     packageJson_scripts := Some scripts;
     process_env_CI := None;
     process_env_NODE_ENV := None;
     process_stdout_isTTY := true |}.

(** The same context in CI. *)
Definition ci_context (f : Flags) (extra : option object) : InitialContext :=
  {| argv := [];
     env_CHROMATIC_PROJECT_TOKEN := VString "env-code";
     flags := f;
     extraOptions := extra;
     configuration := None;
     packageJson_scripts := Some scripts;
     process_env_CI := Some "true";
     process_env_NODE_ENV := None;
     process_stdout_isTTY := true |}.

(** [path.extname] for a file name without directories and with at most
    one dot, which is all the scenarios use. *)
Fixpoint extname (file : string) : string :=
  match file with
  | EmptyString => EmptyString
  | String c rest =>
      if Ascii.eqb c "." then file else extname rest
  end.

End OptionsScenario.

(* ================================================================== *)
(** ** src/main.ts *)
(* ================================================================== *)

(** The entry point of the GitHub action. *)
Module Main.
Import Task.
Local Open Scope task_scope.

(** [context.repo] *)
Record repo : Type := Repo {
  owner : string;
  repo_name : string
}.

(** The parameters of [repos.createDeployment] and of
    [repos.createDeploymentStatus]. *)
Record deployment : Type := Deployment {
  d_repo : repo;
  d_ref : string;
  d_environment : string;
  d_required_contexts : list string
}.

Record deploymentStatus : Type := DeploymentStatus {
  s_repo : repo;
  s_deployment_id : N;
  s_state : string;
  s_environment_url : option string;
  s_log_url : option string
}.

Inductive event : Type :=
| NewGitHub (token : string)
| CreateDeployment (d : deployment)
| CreateDeploymentStatus (s : deploymentStatus)
| LogInfo (message : string)
| SetOutput (name value : string)
| SetFailed (message : string).

(** [@actions/core] and [@actions/github].  [getInput] reads the inputs of
    the action; the constructor of the client and the getter
    [context.repo] may throw; [createDeployment] resolves to the id of
    the deployment or rejects. *)
Record collaborators (W : Type) : Type := Collaborators {
  getInput : string -> W -> string;
  newGitHub : string -> W -> outcome unit * W;
  context_repo : W -> outcome repo * W;
  context_sha : W -> string;
  createDeployment : deployment -> W -> outcome N * W
}.

(** The inputs that are written to the output, in the order of the
    object literal. *)
Definition outputInputs : list string :=
  ["appCode"; "buildScriptName"; "scriptName"; "exec"; "doNotStart";
   "storybookPort"; "storybookUrl"; "storybookBuildDir"; "storybookHttps";
   "storybookCert"; "storybookKey"; "storybookCa"].

Definition decimal (n : N) : string := NilEmpty.string_of_uint (N.to_uint n).

Section Run.
Variable W : Type.
Variable ext : collaborators W.

(** Reading something of the world that a call cannot change. *)
Definition peek {A} (f : W -> A) : Task.task unit W event A :=
  fun m => (Returned (f (m_world m)), m).

(** Evaluating [context.repo]: no call of a collaborator, but a getter
    that may throw. *)
Definition get_repo : Task.task unit W event repo :=
  fun m =>
    let (r, w') := context_repo ext (m_world m) in
    (r, Machine (m_ctx m) w' (m_trace m)).

(** [github.repos.createDeploymentStatus({ ...context.repo, ... })]: the
    getter is evaluated, the request goes out and nobody waits for the
    promise, so what becomes of it is not seen here. *)
Definition createDeploymentStatus (id : N) (state : string)
    (environment_url log_url : option string) : Task.task unit W event unit :=
  r <- get_repo ;;
  emit (CreateDeploymentStatus (DeploymentStatus r id state environment_url log_url)).

Definition run : Task.task unit W event unit :=
  try_catch
    (token <- peek (getInput ext "token") ;;
     call (NewGitHub token) (newGitHub ext token) ;;
     values <- peek (fun w => List.map (fun name => (name, getInput ext name w)) outputInputs) ;;
     r <- get_repo ;;
     sha <- peek (context_sha ext) ;;
     let d := Deployment r sha "staging" [] in
     id <- call (CreateDeployment d) (createDeployment ext d) ;;
     emit (LogInfo ("deployment_id: " ++ decimal id)) ;;
     createDeploymentStatus id "inactive" None None ;;
     (* let's do some chromatic-cli stuff! *)
     createDeploymentStatus id "success"
       (Some "https://example.com?real") (Some "https://example.com?log") ;;
     emit (SetOutput "time" (Json.stringify values)))
    (fun error => emit (SetFailed (exn_message error))).
End Run.

Definition is_setFailed (e : event) : bool :=
  match e with SetFailed _ => true | _ => false end.
Definition is_setOutput (e : event) : bool :=
  match e with SetOutput _ _ => true | _ => false end.
Definition is_status (e : event) : bool :=
  match e with CreateDeploymentStatus _ => true | _ => false end.

End Main.

(* ================================================================== *)
(** ** More to observe in the traces of the tasks *)
(* ================================================================== *)

Module Observed.

Definition is_install (e : PrepareWorkspace.event) : bool :=
  match e with PrepareWorkspace.CallInstallDependencies => true | _ => false end.

(** The mutations that were sent, with their [isolatorUrl]. *)
Definition requests (tr : list Verify.event) : list (Verify.createBuildInput * string) :=
  List.flat_map
    (fun e => match e with Verify.CallRunQuery input isolator => [(input, isolator)] | _ => [] end)
    tr.

(** The steps of the verify task after the transition to pending:
    [setEnvironment], then [createBuild]. *)
Definition verifySteps {W} (ext : Verify.collaborators W)
    : Task.task Verify.ctx W Verify.event unit :=
  Task.bind (Verify.setEnvironment ext) (fun _ => Verify.createBuild ext).

End Observed.

(* ================================================================== *)
(** ** Scenarios *)
(* ================================================================== *)

(** Worlds with scripted answers, for running the tasks on concrete
    inputs.  The world is a counter of the calls made so far. *)
Module Scenario.

Definition answer {R} (r : outcome R) : nat -> outcome R * nat :=
  fun calls => (r, S calls).

Definition workspace (clean current : outcome bool) (mergeBase : outcome (option string))
    (install restore : outcome unit) : PrepareWorkspace.collaborators nat :=
  PrepareWorkspace.Collaborators
    (answer clean) (answer current) (answer (Returned "git pull"))
    (fun _ _ => answer mergeBase) (fun _ => answer (Returned tt))
    (answer install) (answer restore).

Definition patch_options : PrepareWorkspace.options :=
  PrepareWorkspace.Options (Some "feature") (Some "main").

Definition patch_ctx : PrepareWorkspace.ctx :=
  PrepareWorkspace.initial_ctx patch_options.


(** *** verify *)

Definition registrar (env : list (string * string)) (created : outcome Verify.build)
    : Verify.collaborators nat :=
  Verify.Collaborators (fun _ => env) (fun _ _ => answer created).

(** The whitelist of the CLI: [/^GERRIT/] and [/^TRAVIS/]. *)
Definition whitelist : list Verify.regex :=
  [String.prefix "GERRIT"; String.prefix "TRAVIS"].

(** No branch matches a glob here; a boolean option decides by itself. *)
Definition matchesBranch (f : Verify.flag) : bool :=
  match f with
  | Verify.FlagBool b => b
  | _ => false
  end.

Definition verify_ctx (listOnly : bool) (exitOnceUploaded : Verify.flag) : Verify.ctx :=
  Verify.Ctx
    (Verify.Options listOnly None None None None Verify.FlagUnset exitOnceUploaded)
    (Verify.Git matchesBranch [("commit", "4f2a9c1"); ("branch", "feature")])
    whitelist "https://asdqwe.chromatic.com/iframe.html" None None
    "6.0.0" (Some "7.0.0") (Some "react")
    None None false false None false.

Definition created_build (wasLimited exceeded payment uiTests uiReview : bool)
    : Verify.build :=
  Verify.Build "1" 7 (Verify.Features uiTests uiReview) wasLimited false
    (Verify.Account exceeded payment None) [].

(** A world that is the environment of the process. *)
Definition process : Verify.collaborators (list (string * string)) :=
  Verify.Collaborators (fun env => env)
    (fun _ _ env => (Threw (Error "network error"), env)).

(** *** upload *)

(** [picomatch] is not modelled; here a glob matches the file of that
    name, with or without a leading [./]. *)
Definition matchesFile (glob file : string) : bool :=
  String.eqb file glob || String.eqb file ("./" ++ glob).

Definition storage_with (listing : string -> list Upload.entry) (buildLog : outcome string)
    (resolver : outcome (list string))
    (coarse : list Upload.manifestChange -> list string)
    (stories : outcome (JsObject.t (list string)))
    (zipped : outcome Upload.archive) (chunks : outcome (list N))
    (attempts : Upload.putRequest -> nat -> Upload.attempt) (order : list nat)
    : Upload.collaborators nat :=
  Upload.Collaborators
    (fun dir _ => listing dir) (fun _ => answer buildLog) matchesFile
    (fun _ => answer resolver) (fun changes => answer (Returned (coarse changes)))
    (fun _ _ _ => answer stories)
    (fun _ ps => answer (Returned (Upload.UploadUrls "https://asdqwe.chromatic.com"
       (List.map (fun p => Upload.UploadUrl p ("https://asdqwe.chromatic.com/" ++ p) "text/html")
                 ps))))
    (fun _ => answer (Returned (Upload.ZipUploadUrl "https://asdqwe.chromatic.com"
       "https://asdqwe.chromatic.com/storybook.zip" "https://asdqwe.chromatic.com/upload.txt")))
    (fun _ _ => answer zipped) (fun _ => answer chunks) (fun _ => answer (Returned tt))
    (fun request n _ => attempts request n) (fun _ _ => order).

(** A transport whose every attempt cuts the body in the same places
    and succeeds. *)
Definition steady (cuts : list N) (request : Upload.putRequest) (n : nat)
    : Upload.attempt :=
  Upload.Attempt cuts Upload.Completed.

(** A transport that sends chunks of 21 bytes and breaks off the first
    attempt at one URL after the first of them. *)
Definition flaky (url : string) (request : Upload.putRequest) (n : nat)
    : Upload.attempt :=
  if String.eqb (Upload.put_url request) url && Nat.eqb n 0
  then Upload.Attempt [21%N; 21%N] (Upload.BrokenAfter 21)
  else Upload.Attempt [21%N; 21%N] Upload.Completed.

Definition storage (listing : string -> list Upload.entry) (buildLog : outcome string)
    (resolver : outcome (list string))
    (coarse : list Upload.manifestChange -> list string)
    (stories : outcome (JsObject.t (list string)))
    (zipped : outcome Upload.archive) (chunks : outcome (list N))
    : Upload.collaborators nat :=
  storage_with listing buildLog resolver coarse stories zipped chunks (steady []) [].

Definition storybook : list Upload.entry :=
  [Upload.File "iframe.html" 42; Upload.File "index.html" 42].

(** The build is in [/var/storybook-static], not in [/static/]. *)
Definition relocated (dir : string) : list Upload.entry :=
  if String.eqb dir "/var/storybook-static" then storybook else [].

Definition manifest : Upload.fileInfo := Upload.getFileInfo storybook.

Definition package_json_commit : Upload.manifestChange :=
  Upload.ManifestChange "abcdef" ["./package.json"].

Definition upload_ctx (zip : bool) (untraced : list string) (buildLog : option string)
    : Upload.ctx :=
  Upload.Ctx (Upload.Options zip untraced [])
    (Upload.Git ["./example.js"; "./package.json"] [package_json_commit])
    2 buildLog "/static/preview-stats.json" "1" "/static/"
    (Some manifest) None None None.

(** The coarse check of the tests: every manifest file it is given. *)
Definition every_manifest (changes : list Upload.manifestChange) : list string :=
  List.flat_map Upload.mc_changedFiles changes.

Definition dependents : JsObject.t (list string) := [("123", ["./example.stories.js"])].

(** The collaborators of the three groups of tests in upload.test.ts. *)
Definition build_log : outcome string :=
  Returned "info => Output directory: /var/storybook-static".
Definition zipped : outcome Upload.archive :=
  Returned (Upload.Archive "storybook.zip" 80).

Definition fs (listing : string -> list Upload.entry) : Upload.collaborators nat :=
  storage listing build_log (Returned []) every_manifest (Returned dependents)
    zipped (Returned []).

Definition tracer (resolver : outcome (list string))
    (coarse : list Upload.manifestChange -> list string) : Upload.collaborators nat :=
  storage (fun _ => storybook) build_log resolver coarse (Returned dependents)
    zipped (Returned []).

Definition uploader (chunks : list N) : Upload.collaborators nat :=
  storage_with (fun _ => storybook) build_log (Returned []) every_manifest
    (Returned dependents) zipped (Returned []) (steady chunks) [].

Definition static_ctx (buildLog : option string) : Upload.ctx :=
  Upload.initial_ctx (Upload.Options false [] []) (Upload.Git [] []) 2 buildLog
    "/static/preview-stats.json" "1" "/static/".

End Scenario.

(** *** More scenarios *)

Module MoreScenarios.

(** A workspace whose gates pass and whose checkout fails. *)
Definition broken_checkout : PrepareWorkspace.collaborators nat :=
  PrepareWorkspace.Collaborators
    (Scenario.answer (Returned true)) (Scenario.answer (Returned true))
    (Scenario.answer (Returned "git pull"))
    (fun _ _ => Scenario.answer (Returned (Some "4f2a9c1")))
    (fun _ => Scenario.answer (Threw (Error "error: pathspec did not match")))
    (Scenario.answer (Returned tt)) (Scenario.answer (Returned tt)).

(** A repository with a package of its own, documentation and vendored
    code, whose range changed both manifests. *)
Definition monorepo_ctx (untraced externals : list string) : Upload.ctx :=
  Upload.Ctx (Upload.Options false untraced externals)
    (Upload.Git
       ["./example.js"; "./package.json"; "./packages/ui/package.json";
        "./docs/intro.mdx"; "./vendor/lib.js"]
       [Upload.ManifestChange "abcdef" ["./package.json"; "./packages/ui/package.json"]])
    2 None "/static/preview-stats.json" "1" "/static/"
    (Some Scenario.manifest) None None None.

(** A build log of several lines that names the output directory on
    its second line. *)
Definition long_build_log : string :=
  "info => Loading presets"
  ++ String Upload.newline "info => Output directory: /var/storybook-static"
  ++ String Upload.newline "info => Preview built (4.2 s)".

(** The action with its inputs, a repository and a service that answers
    as scripted. *)
Definition inputs (name : string) : string :=
  if String.eqb name "token" then "ghp_secret"
  else if String.eqb name "appCode" then "abc123"
  else if String.eqb name "storybookPort" then "6006"
  else EmptyString.

Definition action (client : outcome unit) (repository : outcome Main.repo)
    (deployed : outcome N) : Main.collaborators nat :=
  Main.Collaborators
    (fun name _ => inputs name) (fun _ => Scenario.answer client)
    (Scenario.answer repository) (fun _ => "4f2a9c1")
    (fun _ => Scenario.answer deployed).

End MoreScenarios.

(* ================================================================== *)
(** ** Theorems: prepareWorkspace *)
(* ================================================================== *)

Local Open Scope list_scope.

Section PrepareWorkspaceFacts.
Import Task PrepareWorkspace.
Variable W : Type.
Variable ext : collaborators W.

Ltac step_task :=
  unfold run, result, final_ctx, trace, prepareWorkspace,
    bind, call, get_ctx, modify_ctx, emit, throw, try_catch, ret;
  cbn [m_ctx m_world m_trace fst snd].

(** A dirty tree stops the task at the first gate. *)
Lemma prepareWorkspace_dirty (c : ctx) (w0 w1 : W) :
  isClean ext w0 = (Returned false, w1) ->
  run (prepareWorkspace ext) c w0 =
    (Threw (Error "Working directory is not clean"),
     Machine (set_userError true (set_exitCode 101 c)) w1
             [CallIsClean; LogError workspaceNotClean]).
Proof.
  intros H. step_task. rewrite H. reflexivity.
Qed.

(** A clean tree that is behind its remote stops at the second gate,
    whatever becomes of the update hint. *)
Lemma prepareWorkspace_stale (c : ctx) (w0 w1 w2 : W) :
  isClean ext w0 = (Returned true, w1) ->
  isUpToDate ext w1 = (Returned false, w2) ->
  let x := run (prepareWorkspace ext) c w0 in
  threw (result x) = true /\
  final_ctx x = set_userError true (set_exitCode 102 c) /\
  occurrences is_findMergeBase (trace x) = 0 /\
  (forall hint w3, getUpdateMessage ext w2 = (Returned hint, w3) ->
     result x = Threw (Error "Workspace not up-to-date with remote")).
Proof.
  intros H1 H2. step_task. rewrite H1. cbn. rewrite H2. cbn.
  destruct (getUpdateMessage ext w2) as [[hint | e] w3]; cbn.
  - repeat split; intros; try reflexivity; discriminate.
  - repeat split; intros; try reflexivity; discriminate.
Qed.

(** Without a merge base the third gate stops the task before any
    checkout. *)
Lemma prepareWorkspace_no_merge_base (c : ctx) (w0 w1 w2 w3 : W) (mb : option string) :
  isClean ext w0 = (Returned true, w1) ->
  isUpToDate ext w1 = (Returned true, w2) ->
  findMergeBase ext (patchHeadRef (ctx_options c)) (patchBaseRef (ctx_options c)) w2
    = (Returned mb, w3) ->
  truthy_string mb = false ->
  run (prepareWorkspace ext) c w0 =
    (Threw (Error "Could not find a merge base"),
     Machine (set_userError true (set_exitCode 103 (set_mergeBase mb c))) w3
             [CallIsClean; CallIsUpToDate; TransitionTo lookupMergeBase;
              CallFindMergeBase (patchHeadRef (ctx_options c)) (patchBaseRef (ctx_options c));
              LogError (mergeBaseNotFound (ctx_options c))]).
Proof.
  intros H1 H2 H3 H4. step_task. rewrite H1. cbn. rewrite H2. cbn.
  rewrite H3. cbn. rewrite H4. reflexivity.
Qed.

(** The whole run when the installation fails, with the answer of the
    restoration left open. *)
Lemma prepareWorkspace_install_fails (c : ctx) (w0 w4 w5 : W) (mb : option string) (e : exn) :
  reaches_install ext c w0 w4 mb ->
  installDependencies ext w4 = (Threw e, w5) ->
  run (prepareWorkspace ext) c w0 =
    (match fst (runRestoreWorkspace ext w5) with
     | Returned _ => Threw (Error "Failed to install dependencies")
     | Threw e' => Threw e'
     end,
     Machine (set_exitCode 104 (set_mergeBase mb c))
             (snd (runRestoreWorkspace ext w5))
             (before_install c mb ++ [LogError (thrownError e); CallRunRestoreWorkspace])).
Proof.
  intros (w1 & w2 & w3 & H1 & H2 & H3 & H4 & H5) H6.
  step_task. rewrite H1. cbn. rewrite H2. cbn. rewrite H3. cbn. rewrite H4. cbn.
  rewrite H5. cbn. rewrite H6. cbn.
  destruct (runRestoreWorkspace ext w5) as [[[] | e'] w6]; reflexivity.
Qed.
End PrepareWorkspaceFacts.

(** C3. [prepareWorkspace] checks its gates in order, and every gate that
    fails sets its own exit code, marks the failure as a user error and
    throws: a dirty working tree gives exit code 101 and [findMergeBase]
    is never called; a clean tree that is not up to date gives 102; a
    clean, up-to-date tree for which [findMergeBase] finds no merge base
    of [patchHeadRef] and [patchBaseRef] gives 103. *)
Theorem prepareWorkspace_gates
    (W : Type) (ext : PrepareWorkspace.collaborators W)
    (c : PrepareWorkspace.ctx) (w0 : W) :
  let x := Task.run (PrepareWorkspace.prepareWorkspace ext) c w0 in
  let head := PrepareWorkspace.patchHeadRef (PrepareWorkspace.ctx_options c) in
  let base := PrepareWorkspace.patchBaseRef (PrepareWorkspace.ctx_options c) in
  (forall w1,
      PrepareWorkspace.isClean ext w0 = (Returned false, w1) ->
      Task.result x = Threw (Error "Working directory is not clean") /\
      PrepareWorkspace.exitCode (Task.final_ctx x) = Some 101%Z /\
      PrepareWorkspace.userError (Task.final_ctx x) = true /\
      occurrences PrepareWorkspace.is_findMergeBase (Task.trace x) = 0)
  /\
  (forall w1 w2,
      PrepareWorkspace.isClean ext w0 = (Returned true, w1) ->
      PrepareWorkspace.isUpToDate ext w1 = (Returned false, w2) ->
      threw (Task.result x) = true /\
      PrepareWorkspace.exitCode (Task.final_ctx x) = Some 102%Z /\
      PrepareWorkspace.userError (Task.final_ctx x) = true /\
      occurrences PrepareWorkspace.is_findMergeBase (Task.trace x) = 0)
  /\
  (forall w1 w2 w3 mb,
      PrepareWorkspace.isClean ext w0 = (Returned true, w1) ->
      PrepareWorkspace.isUpToDate ext w1 = (Returned true, w2) ->
      PrepareWorkspace.findMergeBase ext head base w2 = (Returned mb, w3) ->
      truthy_string mb = false ->
      Task.result x = Threw (Error "Could not find a merge base") /\
      PrepareWorkspace.exitCode (Task.final_ctx x) = Some 103%Z /\
      PrepareWorkspace.userError (Task.final_ctx x) = true /\
      occurrences PrepareWorkspace.is_checkout (Task.trace x) = 0).
Proof.
  intros x head base. subst x head base. split; [| split].
  - intros w1 H. rewrite (prepareWorkspace_dirty ext c w0 H).
    repeat split; reflexivity.
  - intros w1 w2 H1 H2.
    destruct (prepareWorkspace_stale ext c w0 H1 H2) as (A & B & C & _).
    cbv zeta in A, B, C. rewrite B. repeat split; [exact A | exact C].
  - intros w1 w2 w3 mb H1 H2 H3 H4.
    rewrite (prepareWorkspace_no_merge_base ext c w0 H1 H2 H3 H4).
    repeat split; reflexivity.
Qed.

Lemma prepareWorkspace_gates_witness :
  let dirty := Scenario.workspace (Returned false) (Returned false) (Returned None)
                 (Returned tt) (Returned tt) in
  let stale := Scenario.workspace (Returned true) (Returned false) (Returned None)
                 (Returned tt) (Returned tt) in
  let unrelated := Scenario.workspace (Returned true) (Returned true) (Returned None)
                 (Returned tt) (Returned tt) in
  let run_in ext := Task.run (PrepareWorkspace.prepareWorkspace ext) Scenario.patch_ctx 0 in
  PrepareWorkspace.exitCode (Task.final_ctx (run_in dirty)) = Some 101%Z /\
  PrepareWorkspace.exitCode (Task.final_ctx (run_in stale)) = Some 102%Z /\
  PrepareWorkspace.exitCode (Task.final_ctx (run_in unrelated)) = Some 103%Z.
Proof.
  intros dirty stale unrelated run_in. split; [| split].
  - destruct (prepareWorkspace_gates dirty Scenario.patch_ctx 0) as [G _].
    apply (G 1). reflexivity.
  - destruct (prepareWorkspace_gates stale Scenario.patch_ctx 0) as (_ & G & _).
    apply (G 1 2); reflexivity.
  - destruct (prepareWorkspace_gates unrelated Scenario.patch_ctx 0) as (_ & _ & G).
    apply (G 1 2 3 None); reflexivity.
Defined.

(** C4, as the code has it.  When the installation of the dependencies
    fails after the checkout of the merge base, [prepareWorkspace] sets
    exit code 104, logs the error of the installation, calls
    [runRestoreWorkspace] exactly once and throws; when the restoration
    returns, what it throws is a new
    [Error('Failed to install dependencies')]. *)
Theorem prepareWorkspace_install_failure
    (W : Type) (ext : PrepareWorkspace.collaborators W)
    (c : PrepareWorkspace.ctx) (w0 w4 w5 : W) (mb : option string) (e : exn) :
  PrepareWorkspace.reaches_install ext c w0 w4 mb ->
  PrepareWorkspace.installDependencies ext w4 = (Threw e, w5) ->
  let x := Task.run (PrepareWorkspace.prepareWorkspace ext) c w0 in
  PrepareWorkspace.exitCode (Task.final_ctx x) = Some 104%Z /\
  occurrences PrepareWorkspace.is_restore (Task.trace x) = 1 /\
  In (PrepareWorkspace.LogError (PrepareWorkspace.thrownError e)) (Task.trace x) /\
  threw (Task.result x) = true /\
  (forall w6,
      PrepareWorkspace.runRestoreWorkspace ext w5 = (Returned tt, w6) ->
      Task.result x = Threw (Error "Failed to install dependencies")).
Proof.
  intros Hgates Hinstall x. subst x.
  rewrite (prepareWorkspace_install_fails Hgates Hinstall).
  unfold Task.result, Task.final_ctx, Task.trace. cbn [fst snd Task.m_ctx Task.m_trace].
  split; [reflexivity | split; [reflexivity | split; [| split]]].
  - apply in_or_app. right. left. reflexivity.
  - destruct (fst (PrepareWorkspace.runRestoreWorkspace ext w5)); reflexivity.
  - intros w6 H. rewrite H. reflexivity.
Qed.

Lemma prepareWorkspace_install_failure_witness :
  let ext := Scenario.workspace (Returned true) (Returned true) (Returned (Some "4f2a9c1"))
               (Threw (Error "npm ERR! code ENOENT")) (Returned tt) in
  let x := Task.run (PrepareWorkspace.prepareWorkspace ext) Scenario.patch_ctx 0 in
  PrepareWorkspace.exitCode (Task.final_ctx x) = Some 104%Z /\
  occurrences PrepareWorkspace.is_restore (Task.trace x) = 1 /\
  Task.result x = Threw (Error "Failed to install dependencies").
Proof.
  intros ext x.
  assert (Hgates : PrepareWorkspace.reaches_install ext Scenario.patch_ctx 0 4 (Some "4f2a9c1")).
  { exists 1, 2, 3. repeat split. }
  destruct (prepareWorkspace_install_failure (ext := ext) (w5 := 5)
              (e := Error "npm ERR! code ENOENT") Hgates eq_refl)
    as (A & B & _ & _ & D).
  split; [exact A | split; [exact B | exact (D 6 eq_refl)]].
Defined.

(** C4, as it is stated, does not hold: the installation fails with one
    error, the restoration fails with another, and the error that leaves
    [prepareWorkspace] is the one of the restoration. *)
Lemma prepareWorkspace_restore_failure_masks_install_error :
  ~ (forall (W : Type) (ext : PrepareWorkspace.collaborators W)
            (c : PrepareWorkspace.ctx) (w0 w4 w5 : W) (mb : option string) (e : exn),
        PrepareWorkspace.reaches_install ext c w0 w4 mb ->
        PrepareWorkspace.installDependencies ext w4 = (Threw e, w5) ->
        let x := Task.run (PrepareWorkspace.prepareWorkspace ext) c w0 in
        PrepareWorkspace.exitCode (Task.final_ctx x) = Some 104%Z /\
        occurrences PrepareWorkspace.is_restore (Task.trace x) = 1 /\
        (Task.result x = Threw e \/
         Task.result x = Threw (Error "Failed to install dependencies"))).
Proof.
  intros claim.
  pose (ext := Scenario.workspace (Returned true) (Returned true) (Returned (Some "4f2a9c1"))
                 (Threw (Error "npm ERR! code ENOENT"))
                 (Threw (Error "error: pathspec '-' did not match"))).
  assert (Hgates : PrepareWorkspace.reaches_install ext Scenario.patch_ctx 0 4 (Some "4f2a9c1")).
  { exists 1, 2, 3. repeat split. }
  destruct (claim nat ext Scenario.patch_ctx 0 4 5 (Some "4f2a9c1")
              (Error "npm ERR! code ENOENT") Hgates eq_refl) as (_ & _ & [H | H]);
    vm_compute in H; discriminate H.
Qed.

(* ================================================================== *)
(** ** Theorems: createBuild *)
(* ================================================================== *)

Section CreateBuildFacts.
Import Task Verify.
Variable W : Type.
Variable ext : collaborators W.

(** The exit code the limiting block assigns, if any. *)
Lemma createBuild_effects (c : ctx) (w0 w1 : W) (b : build) :
  runQuery ext (createBuildInput_of c) (isolatorUrl c) w0 = (Returned b, w1) ->
  let x := run (createBuild ext) c w0 in
  let limited :=
    if build_wasLimited b then
      if exceededThreshold (build_account b) then [101%Z]
      else if paymentRequired (build_account b) then [102%Z] else [100%Z]
    else [] in
  let uploaded := if exitsOnceUploaded c b then [0%Z] else [] in
  result x = Returned tt /\
  exitCode_writes (trace x) = limited ++ uploaded /\
  exitCode (final_ctx x) =
    match List.rev (limited ++ uploaded) with
    | z :: _ => Some z
    | [] => exitCode c
    end /\
  skipSnapshots (final_ctx x) = (exitsOnceUploaded c b || skipSnapshots c) /\
  isPublishOnly (final_ctx x) = publishOnly b /\
  ctx_build (final_ctx x) = Some b.
Proof.
  intros H.
  unfold run, result, final_ctx, trace, createBuild, assign_exitCode,
    bind, call, get_ctx, modify_ctx, emit, throw, try_catch, ret.
  cbn [m_ctx m_world m_trace fst snd].
  destruct (truthy_string (only (ctx_options c)));
    destruct (onlyStoryFiles c) as [files |];
    cbn [m_ctx m_world m_trace fst snd]; rewrite H;
    cbn [m_ctx m_world m_trace fst snd];
    unfold exitsOnceUploaded;
    destruct (options_list (ctx_options c));
    destruct (build_wasLimited b);
    destruct (exceededThreshold (build_account b));
    destruct (paymentRequired (build_account b));
    destruct (publishOnly b);
    destruct (matchesBranch (ctx_git c) (exitOnceUploaded (ctx_options c)));
    cbn; repeat split; reflexivity.
Qed.
End CreateBuildFacts.

(** C8. When the created build was limited, [createBuild] assigns exit
    code 101 if the account exceeded its threshold, else 102 if a payment
    is required, else 100; when the build was not limited it assigns none
    of the three.  The only other assignment is the 0 of a run that exits
    once uploaded, which comes last; so without it the code assigned here
    is the final one. *)
Theorem createBuild_limited_exit_code
    (W : Type) (ext : Verify.collaborators W) (c : Verify.ctx) (w0 w1 : W)
    (b : Verify.build) :
  Verify.runQuery ext (Verify.createBuildInput_of c) (Verify.isolatorUrl c) w0
    = (Returned b, w1) ->
  let x := Task.run (Verify.createBuild ext) c w0 in
  let writes := Verify.exitCode_writes (Task.trace x) in
  let uploaded := if Verify.exitsOnceUploaded c b then [0%Z] else [] in
  let a := Verify.build_account b in
  (Verify.build_wasLimited b = true ->
     (Verify.exceededThreshold a = true -> writes = 101%Z :: uploaded) /\
     (Verify.exceededThreshold a = false -> Verify.paymentRequired a = true ->
        writes = 102%Z :: uploaded) /\
     (Verify.exceededThreshold a = false -> Verify.paymentRequired a = false ->
        writes = 100%Z :: uploaded) /\
     (Verify.exitsOnceUploaded c b = false ->
        exists z, writes = [z] /\ Verify.exitCode (Task.final_ctx x) = Some z))
  /\
  (Verify.build_wasLimited b = false ->
     writes = uploaded /\
     ~ In 100%Z writes /\ ~ In 101%Z writes /\ ~ In 102%Z writes).
Proof.
  intros H x writes uploaded a.
  destruct (createBuild_effects ext c w0 H) as (_ & Hw & Hc & _).
  fold x in Hw, Hc. fold writes in Hw. subst a uploaded.
  split.
  - intros L. rewrite L in Hw, Hc.
    split; [| split; [| split]].
    + intros E. rewrite E in Hw. exact Hw.
    + intros E P. rewrite E, P in Hw. exact Hw.
    + intros E P. rewrite E, P in Hw. exact Hw.
    + intros U. rewrite U in Hw, Hc. rewrite Hw.
      destruct (Verify.exceededThreshold (Verify.build_account b));
        [| destruct (Verify.paymentRequired (Verify.build_account b))];
        eexists; split; try reflexivity; exact Hc.
  - intros L. rewrite L in Hw. cbn [app] in Hw. split; [exact Hw |].
    rewrite Hw. destruct (Verify.exitsOnceUploaded c b); cbn;
      repeat split; intros F; try contradiction;
      destruct F as [F | F]; try discriminate F; contradiction.
Qed.

Lemma createBuild_limited_exit_code_witness :
  let c := Scenario.verify_ctx false Verify.FlagUnset in
  let exits b := Verify.exitCode (Task.final_ctx
                   (Task.run (Verify.createBuild (Scenario.registrar [] (Returned b))) c 0)) in
  exits (Scenario.created_build true true false true true) = Some 101%Z /\
  exits (Scenario.created_build true false true true true) = Some 102%Z /\
  exits (Scenario.created_build true false false true true) = Some 100%Z /\
  exits (Scenario.created_build false false false true true) = None.
Proof.
  intros c exits.
  pose (run_with b := createBuild_limited_exit_code
                        (Scenario.registrar [] (Returned b)) c 0 (w1 := 1) (b := b) eq_refl).
  split; [| split; [| split]].
  - destruct (run_with (Scenario.created_build true true false true true)) as [L _].
    destruct (L eq_refl) as (_ & _ & _ & F).
    destruct (F eq_refl) as (z & Hz & Hx). unfold exits. rewrite Hx.
    vm_compute in Hz. injection Hz as <-. reflexivity.
  - destruct (run_with (Scenario.created_build true false true true true)) as [L _].
    destruct (L eq_refl) as (_ & _ & _ & F).
    destruct (F eq_refl) as (z & Hz & Hx). unfold exits. rewrite Hx.
    vm_compute in Hz. injection Hz as <-. reflexivity.
  - destruct (run_with (Scenario.created_build true false false true true)) as [L _].
    destruct (L eq_refl) as (_ & _ & _ & F).
    destruct (F eq_refl) as (z & Hz & Hx). unfold exits. rewrite Hx.
    vm_compute in Hz. injection Hz as <-. reflexivity.
  - reflexivity.
Defined.

(** C9. Once the build is created, a run that only lists, a build that is
    publish-only (neither [uiReview] nor [uiTests] among its features) or
    a branch that matches [exitOnceUploaded] makes [createBuild] return
    with [ctx.exitCode] 0 and [ctx.skipSnapshots] true, whatever the
    limiting block assigned before. *)
Theorem createBuild_exits_once_uploaded
    (W : Type) (ext : Verify.collaborators W) (c : Verify.ctx) (w0 w1 : W)
    (b : Verify.build) :
  Verify.runQuery ext (Verify.createBuildInput_of c) (Verify.isolatorUrl c) w0
    = (Returned b, w1) ->
  Verify.options_list (Verify.ctx_options c) = true \/
  (Verify.uiReview (Verify.build_features b) = false /\
   Verify.uiTests (Verify.build_features b) = false) \/
  Verify.matchesBranch (Verify.ctx_git c)
    (Verify.exitOnceUploaded (Verify.ctx_options c)) = true ->
  let x := Task.run (Verify.createBuild ext) c w0 in
  Task.result x = Returned tt /\
  Verify.exitCode (Task.final_ctx x) = Some 0%Z /\
  Verify.skipSnapshots (Task.final_ctx x) = true /\
  In (Verify.LogInfo Verify.storybookPublished) (Task.trace x).
Proof.
  intros H Hcond x.
  assert (U : Verify.exitsOnceUploaded c b = true).
  { unfold Verify.exitsOnceUploaded, Verify.publishOnly.
    destruct Hcond as [L | [[R T] | M]].
    - rewrite L. reflexivity.
    - rewrite R, T. apply orb_true_iff. left. apply orb_true_r.
    - rewrite M. apply orb_true_r. }
  destruct (createBuild_effects ext c w0 H) as (Hr & Hw & Hc & Hs & _).
  fold x in Hr, Hw, Hc, Hs. rewrite U in Hw, Hc, Hs.
  split; [exact Hr | split; [| split; [exact Hs |]]].
  - rewrite Hc, rev_app_distr. reflexivity.
  - clear Hr Hw Hc Hs. subst x.
    unfold Task.run, Task.trace, Verify.createBuild, Verify.assign_exitCode,
      Task.bind, Task.call, Task.get_ctx, Task.modify_ctx, Task.emit, Task.ret.
    cbn [Task.m_ctx Task.m_world Task.m_trace fst snd].
    destruct (truthy_string (Verify.only (Verify.ctx_options c)));
      destruct (Verify.onlyStoryFiles c);
      cbn [Task.m_ctx Task.m_world Task.m_trace fst snd]; rewrite H;
      cbn [Task.m_ctx Task.m_world Task.m_trace fst snd]; rewrite U;
      destruct (Verify.options_list (Verify.ctx_options c));
      destruct (Verify.build_wasLimited b);
      destruct (Verify.exceededThreshold (Verify.build_account b));
      destruct (Verify.paymentRequired (Verify.build_account b));
      cbn; repeat (first [left; reflexivity | right]).
Qed.

Lemma createBuild_exits_once_uploaded_witness :
  let limited_publish_only := Scenario.created_build true true false false false in
  let x := Task.run (Verify.createBuild (Scenario.registrar [] (Returned limited_publish_only)))
             (Scenario.verify_ctx false Verify.FlagUnset) 0 in
  Verify.exitCode (Task.final_ctx x) = Some 0%Z /\
  Verify.skipSnapshots (Task.final_ctx x) = true.
Proof.
  intros b x.
  destruct (createBuild_exits_once_uploaded
              (Scenario.registrar [] (Returned b))
              (Scenario.verify_ctx false Verify.FlagUnset) 0 (w1 := 1) (b := b)
              eq_refl (or_intror (or_introl (conj eq_refl eq_refl))))
    as (_ & E & S & _).
  split; [exact E | exact S].
Defined.

(* ================================================================== *)
(** ** Theorems: objects and setEnvironment *)
(* ================================================================== *)

Section JsObjectFacts.
Import JsObject.
Variable V : Type.
Implicit Types (o : t V) (k : string) (v : V).

Lemma get_app k o o' :
  get k (o ++ o') = match get k o with Some v => Some v | None => get k o' end.
Proof.
  induction o as [| [k' v'] o IH]; cbn; [reflexivity |].
  destruct (String.eqb k k'); [reflexivity | exact IH].
Qed.

Lemma get_replace k k' v o :
  has k' o = true ->
  get k (replace k' v o) = if String.eqb k k' then Some v else get k o.
Proof.
  unfold has. induction o as [| [k0 v0] o IH]; cbn; [discriminate |].
  destruct (String.eqb k' k0) eqn:E0.
  - apply String.eqb_eq in E0. subst k0. intros _. cbn.
    destruct (String.eqb k k'); reflexivity.
  - intros H. cbn. destruct (String.eqb k k0) eqn:E1.
    + apply String.eqb_eq in E1. subst k0.
      rewrite String.eqb_sym, E0. reflexivity.
    + exact (IH H).
Qed.

Lemma get_insert_index n k k' v o :
  has k' o = false ->
  get k (insert_index n k' v o) = if String.eqb k k' then Some v else get k o.
Proof.
  unfold has. induction o as [| [k0 v0] o IH]; cbn; [reflexivity |].
  destruct (String.eqb k' k0) eqn:E0; [discriminate |].
  intros H.
  destruct (array_index k0) as [n0 |]; [destruct (n0 <? n)%N |]; cbn;
    try reflexivity.
  destruct (String.eqb k k0) eqn:E1.
  - apply String.eqb_eq in E1. subst k0.
    rewrite String.eqb_sym, E0. reflexivity.
  - exact (IH H).
Qed.

(** Reading after writing: the written key has the new value, every
    other key keeps its own. *)
Lemma get_set k k' v o :
  get k (set k' v o) = if String.eqb k k' then Some v else get k o.
Proof.
  unfold set. destruct (has k' o) eqn:H.
  - apply get_replace. exact H.
  - destruct (array_index k') as [n |].
    + apply get_insert_index. exact H.
    + rewrite get_app. cbn. unfold has in H.
      destruct (String.eqb k k') eqn:E.
      * apply String.eqb_eq in E. subst k'.
        destruct (get k o); [discriminate | reflexivity].
      * destruct (get k o); reflexivity.
Qed.
End JsObjectFacts.

Section SetEnvironmentFacts.
Import Task Verify.
Variable whitelist : list regex.

Lemma fold_pick_visible env acc :
  List.fold_left (pick_whitelisted whitelist) (visible whitelist env) acc =
  List.fold_left (pick_whitelisted whitelist) env acc.
Proof.
  revert acc. induction env as [| [k v] env IH]; intros acc; [reflexivity |].
  cbn. destruct (whitelisted whitelist k) eqn:E; cbn; rewrite ?E; apply IH.
Qed.

(** The object depends on the whitelisted entries only. *)
Lemma whitelisted_environment_visible env :
  whitelisted_environment whitelist (visible whitelist env) = whitelisted_environment whitelist env.
Proof. apply fold_pick_visible. Qed.

Lemma get_assign k k' v o :
  JsObject.get k (assign k' v o) =
  if String.eqb k k' && negb (String.eqb k' "__proto__") then Some v else JsObject.get k o.
Proof.
  unfold assign. destruct (String.eqb k' "__proto__") eqn:P; cbn.
  - rewrite andb_false_r. reflexivity.
  - rewrite andb_true_r. apply get_set.
Qed.

Lemma fold_pick_get env acc k :
  JsObject.get k (List.fold_left (pick_whitelisted whitelist) env acc) =
  match (if stored whitelist k then JsObject.get k (List.rev env) else None) with
  | Some v => Some v
  | None => JsObject.get k acc
  end.
Proof.
  revert acc. induction env as [| [k' v'] env IH]; intros acc.
  - cbn. destruct (stored whitelist k); reflexivity.
  - cbn [List.fold_left List.rev]. rewrite IH, get_app. cbn.
    unfold stored.
    destruct (whitelisted whitelist k) eqn:Ek; cbn [andb].
    + destruct (String.eqb k "__proto__") eqn:Pk; cbn [negb].
      * destruct (whitelisted whitelist k'); [| reflexivity].
        rewrite get_assign.
        destruct (String.eqb k k') eqn:E; [| reflexivity].
        apply String.eqb_eq in E. subst k'. rewrite Pk. reflexivity.
      * destruct (JsObject.get k (List.rev env)); [reflexivity |].
        destruct (String.eqb k k') eqn:E.
        -- apply String.eqb_eq in E. subst k'.
           rewrite Ek, get_assign, String.eqb_refl, Pk. reflexivity.
        -- destruct (whitelisted whitelist k'); [rewrite get_assign, E |]; reflexivity.
    + destruct (whitelisted whitelist k') eqn:Ek'; [| reflexivity].
      rewrite get_assign. destruct (String.eqb k k') eqn:E; [| reflexivity].
      apply String.eqb_eq in E. subst k'. congruence.
Qed.

(** A key of the object is a stored key of the environment, with the
    value of its last entry there. *)
Lemma whitelisted_environment_get env k :
  JsObject.get k (whitelisted_environment whitelist env) =
  if stored whitelist k then JsObject.get k (List.rev env) else None.
Proof.
  unfold whitelisted_environment. rewrite fold_pick_get. cbn.
  destruct (stored whitelist k); [destruct (JsObject.get k (List.rev env)) |];
    reflexivity.
Qed.
End SetEnvironmentFacts.

(** C10, as the code has it.  [setEnvironment] stores in
    [ctx.environment] the JSON text of an object that holds exactly the
    environment variables whose key matches a regular expression of
    [ENVIRONMENT_WHITELIST] and is not [__proto__] (the assignment
    [acc[key] = value] stores nothing under that key), each with the
    value of its last entry.  Two environments with the same whitelisted
    entries, in the order in which they are enumerated, give the same
    context and the same log: a variable that is not whitelisted neither
    appears in nor changes what is sent. *)
Theorem setEnvironment_whitelist
    (W : Type) (ext : Verify.collaborators W) (c : Verify.ctx) :
  let whitelist := Verify.ENVIRONMENT_WHITELIST c in
  let run_in w := Task.run (Verify.setEnvironment ext) c w in
  (forall w,
      Task.result (run_in w) = Returned tt /\
      Verify.environment (Task.final_ctx (run_in w)) =
        Some (Json.stringify
                (Verify.whitelisted_environment whitelist (Verify.process_env ext w))) /\
      forall k,
        JsObject.get k (Verify.whitelisted_environment whitelist (Verify.process_env ext w)) =
        if Verify.whitelisted whitelist k && negb (String.eqb k "__proto__")
        then JsObject.get k (List.rev (Verify.process_env ext w))
        else None)
  /\
  (forall w1 w2,
      Verify.visible whitelist (Verify.process_env ext w1) =
      Verify.visible whitelist (Verify.process_env ext w2) ->
      Task.final_ctx (run_in w1) = Task.final_ctx (run_in w2) /\
      Task.trace (run_in w1) = Task.trace (run_in w2)).
Proof.
  intros whitelist run_in. split.
  - intros w. split; [reflexivity | split; [reflexivity |]].
    intros k. apply whitelisted_environment_get.
  - intros w1 w2 H.
    assert (E : Verify.whitelisted_environment whitelist (Verify.process_env ext w1) =
                Verify.whitelisted_environment whitelist (Verify.process_env ext w2)).
    { rewrite <- (whitelisted_environment_visible whitelist (Verify.process_env ext w1)),
              <- (whitelisted_environment_visible whitelist (Verify.process_env ext w2)).
      rewrite H. reflexivity. }
    subst run_in.
    unfold Task.run, Task.final_ctx, Task.trace, Verify.setEnvironment,
      Task.bind, Task.get_ctx, Task.modify_ctx, Task.emit.
    cbn [Task.m_ctx Task.m_world Task.m_trace fst snd].
    fold whitelist. rewrite E. split; reflexivity.
Qed.

(** A variable named [__proto__] is not sent, whatever the whitelist. *)
Example setEnvironment_skips_proto :
  Verify.whitelisted_environment [fun _ => true]
    [("CI", "1"); ("__proto__", "x"); ("HOME", "/root")] = [("CI", "1"); ("HOME", "/root")].
Proof. reflexivity. Qed.

Lemma setEnvironment_whitelist_witness :
  let c := Scenario.verify_ctx false Verify.FlagUnset in
  let ci := [("TRAVIS", "true"); ("HOME", "/home/ci"); ("NPM_TOKEN", "s3cr3t")] in
  let laptop := [("PATH", "/usr/bin"); ("TRAVIS", "true")] in
  Verify.environment (Task.final_ctx (Task.run (Verify.setEnvironment Scenario.process) c ci)) =
  Verify.environment (Task.final_ctx (Task.run (Verify.setEnvironment Scenario.process) c laptop)).
Proof.
  intros c ci laptop.
  destruct (setEnvironment_whitelist Scenario.process c) as [_ H].
  destruct (H ci laptop eq_refl) as [E _].
  cbv zeta in E. rewrite E. reflexivity.
Defined.

(** C10, as it is stated, does not hold: two environments that give every
    key the same value, and list two whitelisted variables in a different
    order, are serialized differently. *)
Lemma setEnvironment_depends_on_enumeration_order :
  ~ (forall (W : Type) (ext : Verify.collaborators W) (c : Verify.ctx) (w1 w2 : W),
        (forall k, Verify.whitelisted (Verify.ENVIRONMENT_WHITELIST c) k = true ->
                   JsObject.get k (Verify.process_env ext w1) =
                   JsObject.get k (Verify.process_env ext w2)) ->
        Verify.environment (Task.final_ctx (Task.run (Verify.setEnvironment ext) c w1)) =
        Verify.environment (Task.final_ctx (Task.run (Verify.setEnvironment ext) c w2))).
Proof.
  intros claim.
  specialize (claim _ Scenario.process (Scenario.verify_ctx false Verify.FlagUnset)
                [("TRAVIS", "true"); ("TRAVIS_BRANCH", "main")]
                [("TRAVIS_BRANCH", "main"); ("TRAVIS", "true")]).
  assert (agree : forall k,
    Verify.whitelisted Scenario.whitelist k = true ->
    JsObject.get k [("TRAVIS", "true"); ("TRAVIS_BRANCH", "main")] =
    JsObject.get k [("TRAVIS_BRANCH", "main"); ("TRAVIS", "true")]).
  { intros k _. cbn.
    destruct (String.eqb k "TRAVIS") eqn:E1; destruct (String.eqb k "TRAVIS_BRANCH") eqn:E2;
      try reflexivity.
    apply String.eqb_eq in E1, E2. congruence. }
  specialize (claim agree). vm_compute in claim. discriminate claim.
Qed.

(* ================================================================== *)
(** ** Theorems: validateFiles *)
(* ================================================================== *)

Section ManifestFacts.
Import Upload.

(** Induction on a listing, through the directories. *)
Lemma entry_nested_ind (P : entry -> Prop) :
  (forall name size, P (File name size)) ->
  (forall name children, Forall P children -> P (Directory name children)) ->
  forall e, P e.
Proof.
  intros HF HD. fix IH 1. intros [name size | name children]; [apply HF | apply HD].
  induction children as [| child children IHc]; constructor; [apply IH | exact IHc].
Qed.

Lemma sum_lengths_app (l l' : list fileLength) :
  sum_lengths (l ++ l') = (sum_lengths l + sum_lengths l')%N.
Proof.
  induction l as [| a l IH]; [reflexivity |].
  change (sum_lengths ((a :: l) ++ l')) with (contentLength a + sum_lengths (l ++ l'))%N.
  change (sum_lengths (a :: l)) with (contentLength a + sum_lengths l)%N.
  rewrite IH. lia.
Qed.

Lemma sum_lengths_N_sum (l : list fileLength) :
  sum_lengths l = N_sum (List.map contentLength l).
Proof.
  induction l as [| a l IH]; [reflexivity |].
  change (sum_lengths (a :: l)) with (contentLength a + sum_lengths l)%N.
  rewrite IH. reflexivity.
Qed.

(** What is listed below an entry weighs what the entry holds, and has a
    line for each of its files. *)
Lemma entry_lengths_size (e : entry) :
  forall prefix,
    sum_lengths (entry_lengths prefix e) = entry_size e /\
    List.length (entry_lengths prefix e) = entry_files e.
Proof.
  induction e as [name size | name children IH] using entry_nested_ind; intros prefix.
  - split; [apply N.add_0_r | reflexivity].
  - change (entry_lengths prefix (Directory name children))
      with (List.flat_map (entry_lengths (prefix ++ name ++ "/")) children).
    change (entry_size (Directory name children)) with (tree_size children).
    change (entry_files (Directory name children)) with (tree_files children).
    generalize (prefix ++ name ++ "/")%string. intros p.
    induction IH as [| child children H _ IHc]; [split; reflexivity |].
    destruct (H p) as [H1 H2]. destruct IHc as [I1 I2].
    change (List.flat_map (entry_lengths p) (child :: children))
      with (entry_lengths p child ++ List.flat_map (entry_lengths p) children).
    change (tree_size (child :: children)) with (entry_size child + tree_size children)%N.
    change (tree_files (child :: children)) with (entry_files child + tree_files children).
    rewrite sum_lengths_app, List.length_app, H1, H2, I1, I2. split; reflexivity.
Qed.

Lemma listing_size (root : list entry) (prefix : string) :
  sum_lengths (List.flat_map (entry_lengths prefix) root) = tree_size root /\
  List.length (List.flat_map (entry_lengths prefix) root) = tree_files root.
Proof.
  induction root as [| child children [I1 I2]]; [split; reflexivity |].
  destruct (entry_lengths_size child prefix) as [H1 H2].
  change (List.flat_map (entry_lengths prefix) (child :: children))
    with (entry_lengths prefix child ++ List.flat_map (entry_lengths prefix) children).
  change (tree_size (child :: children)) with (entry_size child + tree_size children)%N.
  change (tree_files (child :: children)) with (entry_files child + tree_files children).
  rewrite sum_lengths_app, List.length_app, H1, H2, I1, I2. split; reflexivity.
Qed.

(** The manifest of a listing: its total is the sum of its lengths and
    the weight of the files of the listing, and it has a path and a
    length for each of these files. *)
Lemma getFileInfo_invariant (root : list entry) :
  let f := getFileInfo root in
  total f = N_sum (List.map contentLength (lengths f)) /\
  total f = tree_size root /\
  paths f = List.map pathname (lengths f) /\
  List.length (paths f) = List.length (lengths f) /\
  List.length (lengths f) = tree_files root.
Proof.
  destruct (listing_size root EmptyString) as [S L].
  cbn. split; [apply sum_lengths_N_sum |].
  split; [exact S |]. split; [reflexivity |].
  split; [apply List.length_map | exact L].
Qed.

Lemma chars_app (a b : string) :
  list_ascii_of_string (a ++ b) = list_ascii_of_string a ++ list_ascii_of_string b.
Proof.
  induction a as [| ch a IH]; cbn; [reflexivity | rewrite IH; reflexivity].
Qed.

Lemma append_nothing (a : string) : (a ++ EmptyString)%string = a.
Proof. induction a as [| ch a IH]; cbn; [reflexivity | rewrite IH; reflexivity]. Qed.

Lemma append_append (a b d : string) : ((a ++ b) ++ d = a ++ b ++ d)%string.
Proof. induction a as [| ch a IH]; cbn; [reflexivity | rewrite IH; reflexivity]. Qed.

(** A path that is listed below an entry starts with where the entry
    is. *)
Lemma entry_lengths_prefix (e : entry) :
  forall prefix l, In l (entry_lengths prefix e) ->
    exists name rest, pathname l = (prefix ++ name ++ rest)%string /\
      match e with
      | File n _ => name = n /\ rest = EmptyString
      | Directory n _ => name = n /\ exists rest', rest = String "/" rest'
      end.
Proof.
  induction e as [name size | name children IH] using entry_nested_ind; intros prefix l I.
  - destruct I as [<- | []]. exists name, EmptyString. cbn [pathname].
    split; [| split; reflexivity].
    rewrite append_nothing. reflexivity.
  - change (entry_lengths prefix (Directory name children))
      with (List.flat_map (entry_lengths (prefix ++ name ++ "/")) children) in I.
    apply List.in_flat_map in I. destruct I as (child & Ic & Il).
    rewrite Forall_forall in IH.
    destruct (IH child Ic _ l Il) as (n & rest & E & _).
    exists name, ("/" ++ n ++ rest)%string. split; [| split; [reflexivity |]].
    + rewrite E, !append_append. reflexivity.
    + exists (n ++ rest)%string. reflexivity.
Qed.

(** A name without a slash is a path of the manifest exactly when the
    listing has a file of that name at its root. *)
Lemma has_path_root (name : string) (root : list entry) :
  ~ In "/"%char (list_ascii_of_string name) ->
  has_path name (getFileInfo root) = true <-> exists size, In (File name size) root.
Proof.
  intros Slash. unfold has_path. cbn [paths getFileInfo]. rewrite List.existsb_exists.
  split.
  - intros (x & I & E). apply String.eqb_eq in E. subst x.
    apply List.in_map_iff in I. destruct I as (l & P & I).
    apply List.in_flat_map in I. destruct I as (e & Ie & Il).
    destruct (entry_lengths_prefix e EmptyString l Il) as (n & rest & Q & K).
    rewrite P in Q. cbn in Q. destruct e as [n' size | n' children].
    + destruct K as [-> ->]. exists size.
      rewrite append_nothing in Q. rewrite Q. exact Ie.
    + destruct K as [-> (rest' & ->)]. exfalso. apply Slash. rewrite Q.
      rewrite chars_app. apply List.in_or_app. right. left. reflexivity.
  - intros (size & I). exists name. split; [| apply String.eqb_refl].
    apply List.in_map_iff. exists (FileLength name name size). split; [reflexivity |].
    apply List.in_flat_map. exists (File name size). split; [exact I |].
    left. reflexivity.
Qed.

Lemma invalid_iff (f : fileInfo) :
  isValidStorybook f = false <->
  has_path "index.html" f = false \/ has_path "iframe.html" f = false.
Proof. unfold isValidStorybook. apply andb_false_iff. Qed.

(** The manifest of a listing is a Storybook build exactly when the
    listing has both files at its root. *)
Lemma isValidStorybook_root (root : list entry) :
  isValidStorybook (getFileInfo root) = true <->
  (exists size, In (File "index.html" size) root) /\
  (exists size, In (File "iframe.html" size) root).
Proof.
  unfold isValidStorybook. rewrite andb_true_iff.
  rewrite !has_path_root; [tauto | |]; cbn; intuition discriminate.
Qed.
End ManifestFacts.

Section BuildLogFacts.
Import Upload.

Lemma length_app_string (a b : string) :
  String.length (a ++ b) = String.length a + String.length b.
Proof. induction a as [| ch a IH]; cbn; [reflexivity | rewrite IH; reflexivity]. Qed.

Lemma prefix_app (m t : string) : String.prefix m (m ++ t) = true.
Proof.
  induction m as [| ch m IH]; cbn; [destruct t; reflexivity |].
  destruct (ascii_dec ch ch) as [_ | N]; [exact IH | contradiction N; reflexivity].
Qed.

Lemma substring_all (t : string) (k : nat) :
  String.length t <= k -> String.substring 0 k t = t.
Proof.
  revert k. induction t as [| ch t IH]; intros k L.
  - destruct k; reflexivity.
  - destruct k as [| k]; [cbn in L; lia |]. cbn. rewrite IH; [reflexivity | cbn in L; lia].
Qed.

Lemma substring_skip (m t : string) (k : nat) :
  String.substring (String.length m) k (m ++ t) = String.substring 0 k t.
Proof. induction m as [| ch m IH]; cbn; [reflexivity | exact IH]. Qed.

Lemma find_after_found (fuel : nat) (marker s : string) :
  String.prefix marker s = true ->
  find_after fuel marker s =
  Some (String.substring (String.length marker) (String.length s) s).
Proof. intros H. destruct fuel; cbn [find_after]; rewrite H; reflexivity. Qed.

(** The scan stops at the first place where the marker is. *)
Lemma find_after_first (marker before tail : string) :
  forall fuel,
    (forall b1 b2, before = (b1 ++ b2)%string -> b2 <> EmptyString ->
                   String.prefix marker (b2 ++ tail) = false) ->
    String.prefix marker tail = true ->
    String.length before <= fuel ->
    find_after fuel marker (before ++ tail) =
    Some (String.substring (String.length marker) (String.length tail) tail).
Proof.
  induction before as [| ch before IH]; intros fuel First Here L.
  - apply find_after_found. exact Here.
  - destruct fuel as [| fuel]; [cbn in L; lia |].
    cbn [append find_after].
    change (String ch (before ++ tail)) with (String ch before ++ tail)%string.
    rewrite (First EmptyString (String ch before) eq_refl) by (intros F; discriminate F).
    apply IH; [| exact Here | cbn in L; lia].
    intros b1 b2 E N. apply (First (String ch b1) b2); [| exact N].
    cbn. rewrite E. reflexivity.
Qed.

Lemma find_after_none (marker s : string) :
  forall fuel,
    (forall b1 b2, s = (b1 ++ b2)%string -> String.prefix marker b2 = false) ->
    find_after fuel marker s = None.
Proof.
  induction s as [| ch s IH]; intros fuel Nowhere.
  - assert (H : String.prefix marker EmptyString = false)
      by exact (Nowhere EmptyString EmptyString eq_refl).
    destruct fuel; cbn [find_after]; rewrite H; reflexivity.
  - assert (H : String.prefix marker (String ch s) = false)
      by exact (Nowhere EmptyString (String ch s) eq_refl).
    destruct fuel as [| fuel]; cbn [find_after]; rewrite H; [reflexivity |].
    apply IH. intros b1 b2 E. apply (Nowhere (String ch b1) b2). cbn. rewrite E. reflexivity.
Qed.

Lemma until_newline_line (dir rest : string) :
  ~ In newline (list_ascii_of_string dir) ->
  rest = EmptyString \/ (exists rest', rest = String newline rest') ->
  until_newline (dir ++ rest) = dir.
Proof.
  intros N R. induction dir as [| ch dir IH].
  - destruct R as [-> | (rest' & ->)]; reflexivity.
  - cbn [append until_newline]. destruct (Ascii.eqb ch newline) eqn:E.
    + apply Ascii.eqb_eq in E. exfalso. apply N. left. exact E.
    + rewrite IH; [reflexivity |]. intros I. apply N. right. exact I.
Qed.

(** The hint of a build log: what the first [Output directory: ] is
    followed by, up to the end of its line. *)
Lemma getOutputDir_found (before dir rest : string) :
  let marker := "Output directory: " in
  (forall b1 b2, before = (b1 ++ b2)%string -> b2 <> EmptyString ->
                 String.prefix marker (b2 ++ marker ++ dir ++ rest) = false) ->
  dir <> EmptyString ->
  ~ In newline (list_ascii_of_string dir) ->
  rest = EmptyString \/ (exists rest', rest = String newline rest') ->
  getOutputDir (before ++ marker ++ dir ++ rest) = Some dir.
Proof.
  intros marker First D N R. unfold getOutputDir. fold marker.
  rewrite (@find_after_first marker before (marker ++ dir ++ rest)%string);
    [| exact First | apply prefix_app | rewrite length_app_string; lia].
  rewrite substring_skip, substring_all
    by (rewrite (length_app_string marker); lia).
  cbv zeta. rewrite (@until_newline_line dir rest N R).
  destruct (String.eqb dir EmptyString) eqn:E; [| reflexivity].
  apply String.eqb_eq in E. contradiction.
Qed.

(** A build log that nowhere says [Output directory: ] gives no hint. *)
Lemma getOutputDir_none (buildLog : string) :
  (forall b1 b2, buildLog = (b1 ++ b2)%string ->
                 String.prefix "Output directory: " b2 = false) ->
  getOutputDir buildLog = None.
Proof.
  intros Nowhere. unfold getOutputDir. rewrite find_after_none by exact Nowhere.
  reflexivity.
Qed.

(** Where the first character of the marker is not, the marker is not. *)
Lemma marker_not_before (m : ascii) (marker before tail : string) :
  List.existsb (Ascii.eqb m) (list_ascii_of_string before) = false ->
  forall b1 b2, before = (b1 ++ b2)%string -> b2 <> EmptyString ->
                String.prefix (String m marker) (b2 ++ tail) = false.
Proof.
  intros A b1 b2 E N. destruct b2 as [| ch b2]; [contradiction N; reflexivity |].
  cbn. destruct (ascii_dec m ch) as [<- | _]; [| reflexivity].
  exfalso. subst before. rewrite chars_app, List.existsb_app in A.
  apply orb_false_iff in A. destruct A as [_ A]. cbn in A.
  rewrite Ascii.eqb_refl in A. discriminate A.
Qed.
End BuildLogFacts.

Section ValidateFilesFacts.
Import Task Upload.
Variable W : Type.
Variable ext : collaborators W.

Ltac step_validate :=
  unfold run, result, final_ctx, trace, validateFiles, list_files,
    bind, call, get_ctx, modify_ctx, emit, throw, try_catch, ret;
  cbn [m_ctx m_world m_trace fst snd sourceDir buildLogFile ctx_fileInfo set_fileInfo
       set_sourceDir app].

(** The run of [validateFiles], case by case. *)
Lemma validateFiles_valid_root (c : ctx) (w : W) :
  isValidStorybook (getFileInfo (listDirectory ext (sourceDir c) w)) = true ->
  run (validateFiles ext) c w =
    (Returned tt,
     Machine (set_fileInfo (getFileInfo (listDirectory ext (sourceDir c) w)) c) w
             [ListDirectory (sourceDir c)]).
Proof.
  intros H. step_validate. rewrite H. cbn. rewrite H. reflexivity.
Qed.

Lemma validateFiles_no_log (c : ctx) (w : W) :
  isValidStorybook (getFileInfo (listDirectory ext (sourceDir c) w)) = false ->
  buildLogFile c = None ->
  run (validateFiles ext) c w =
    (Threw (invalidStorybook (sourceDir c)),
     Machine (set_fileInfo (getFileInfo (listDirectory ext (sourceDir c) w)) c) w
             [ListDirectory (sourceDir c)]).
Proof.
  intros H L. step_validate. rewrite H, L. cbn. rewrite H. reflexivity.
Qed.

Lemma validateFiles_no_hint (c : ctx) (w : W) (file : string) :
  isValidStorybook (getFileInfo (listDirectory ext (sourceDir c) w)) = false ->
  buildLogFile c = Some file ->
  (forall buildLog w', readBuildLog ext file w = (Returned buildLog, w') ->
                       getOutputDir buildLog = None) ->
  let x := run (validateFiles ext) c w in
  result x = Threw (invalidStorybook (sourceDir c)) /\
  listed_directories (trace x) = [sourceDir c] /\
  final_ctx x = set_fileInfo (getFileInfo (listDirectory ext (sourceDir c) w)) c.
Proof.
  intros H L N. step_validate. rewrite H, L. cbn.
  destruct (readBuildLog ext file w) as [[buildLog | e] w'] eqn:R; cbn.
  - rewrite (N buildLog w' eq_refl). cbn. rewrite H. repeat split.
  - rewrite H. repeat split.
Qed.

Lemma validateFiles_retargeted (c : ctx) (w w' : W) (file buildLog dir : string) :
  isValidStorybook (getFileInfo (listDirectory ext (sourceDir c) w)) = false ->
  buildLogFile c = Some file ->
  readBuildLog ext file w = (Returned buildLog, w') ->
  getOutputDir buildLog = Some dir ->
  let retry := getFileInfo (listDirectory ext dir w') in
  run (validateFiles ext) c w =
    (if isValidStorybook retry then Returned tt else Threw (invalidStorybook dir),
     Machine (set_fileInfo retry
                (set_sourceDir dir
                   (set_fileInfo (getFileInfo (listDirectory ext (sourceDir c) w)) c)))
             w'
             [ListDirectory (sourceDir c); ReadBuildLog file;
              LogWarn (unexpectedBuildDirectory dir); ListDirectory dir]).
Proof.
  intros H L R O. step_validate. rewrite H, L. cbn. rewrite R. cbn. rewrite O. cbn.
  destruct (isValidStorybook (getFileInfo (listDirectory ext dir w'))); reflexivity.
Qed.

(** Whatever the run, the manifest it leaves is the manifest of the
    directory listed last, which is the final [sourceDir], and the task
    returns exactly when that manifest is a Storybook build. *)
Lemma validateFiles_leaves_manifest (c : ctx) (w : W) :
  let x := run (validateFiles ext) c w in
  exists tree w',
    tree = listDirectory ext (sourceDir (final_ctx x)) w' /\
    ctx_fileInfo (final_ctx x) = Some (getFileInfo tree) /\
    (result x = Returned tt <-> isValidStorybook (getFileInfo tree) = true).
Proof.
  intros x.
  destruct (isValidStorybook (getFileInfo (listDirectory ext (sourceDir c) w))) eqn:V.
  { exists (listDirectory ext (sourceDir c) w), w. subst x.
    rewrite (validateFiles_valid_root c w V).
    split; [reflexivity | split; [reflexivity |]]. rewrite V. split; reflexivity. }
  destruct (buildLogFile c) as [file |] eqn:B.
  2:{ exists (listDirectory ext (sourceDir c) w), w. subst x.
      rewrite (validateFiles_no_log c w V B).
      split; [reflexivity | split; [reflexivity |]]. rewrite V.
      split; intros F; discriminate F. }
  assert (Unhinted :
    (forall buildLog w', readBuildLog ext file w = (Returned buildLog, w') ->
                         getOutputDir buildLog = None) ->
    exists tree w',
      tree = listDirectory ext (sourceDir (final_ctx x)) w' /\
      ctx_fileInfo (final_ctx x) = Some (getFileInfo tree) /\
      (result x = Returned tt <-> isValidStorybook (getFileInfo tree) = true)).
  { intros N. destruct (validateFiles_no_hint c w V B N) as (Hr & _ & Hc).
    fold x in Hr, Hc. exists (listDirectory ext (sourceDir c) w), w.
    rewrite Hc, Hr. split; [reflexivity | split; [reflexivity |]]. rewrite V.
    split; intros F; discriminate F. }
  destruct (readBuildLog ext file w) as [[buildLog | e] w'] eqn:R.
  - destruct (getOutputDir buildLog) as [dir |] eqn:O.
    + exists (listDirectory ext dir w'), w'. subst x.
      rewrite (validateFiles_retargeted c w V B R O).
      split; [reflexivity | split; [reflexivity |]].
      unfold result. cbn [fst].
      destruct (isValidStorybook (getFileInfo (listDirectory ext dir w')));
        split; intros F; try reflexivity; discriminate F.
    + apply Unhinted. intros l w1 [= <- <-]. exact O.
  - apply Unhinted. intros l w1 F. discriminate F.
Qed.
End ValidateFilesFacts.

(** C5.  Whatever the listing, [validateFiles] leaves the manifest of the
    directory it listed last, which is the final [sourceDir]: its
    [total] is the sum of the [contentLength] of its [lengths] and the
    weight of all the files in and below that directory, it has as many
    [paths] as [lengths], one for each of these files, and the task
    returns exactly when both [index.html] and [iframe.html] are files at
    the root of that directory.  When both are at the root of the first
    listing, that listing is the only one.  When one of them is absent from the
    listed root, the task throws [Invalid Storybook build at <sourceDir>]
    after that single listing if there is no build log, the log cannot
    be read or it nowhere says [Output directory: ].  When the log does
    say it, and what follows the first one on its line is [dir], then
    [sourceDir] is retargeted to [dir], that directory is listed, once,
    and the task returns, or throws
    [Invalid Storybook build at <dir>]. *)
Theorem validateFiles_manifest
    (W : Type) (ext : Upload.collaborators W) (c : Upload.ctx) (w : W) :
  let x := Task.run (Upload.validateFiles ext) c w in
  let marker := "Output directory: "%string in
  let at_root name tree := exists size, In (Upload.File name size) tree in
  let missing tree := ~ at_root "index.html"%string tree \/ ~ at_root "iframe.html"%string tree in
  let root := Upload.listDirectory ext (Upload.sourceDir c) w in
  (exists f tree w',
      tree = Upload.listDirectory ext (Upload.sourceDir (Task.final_ctx x)) w' /\
      Upload.ctx_fileInfo (Task.final_ctx x) = Some f /\
      Upload.total f = Upload.N_sum (List.map Upload.contentLength (Upload.lengths f)) /\
      Upload.total f = Upload.tree_size tree /\
      Upload.paths f = List.map Upload.pathname (Upload.lengths f) /\
      List.length (Upload.paths f) = List.length (Upload.lengths f) /\
      List.length (Upload.lengths f) = Upload.tree_files tree /\
      (Task.result x = Returned tt <->
       at_root "index.html"%string tree /\ at_root "iframe.html"%string tree))
  /\
  (at_root "index.html"%string root /\ at_root "iframe.html"%string root ->
     Task.result x = Returned tt /\
     Upload.listed_directories (Task.trace x) = [Upload.sourceDir c] /\
     Upload.sourceDir (Task.final_ctx x) = Upload.sourceDir c)
  /\
  (missing root ->
     (Upload.buildLogFile c = None \/
      exists file, Upload.buildLogFile c = Some file /\
        forall buildLog w', Upload.readBuildLog ext file w = (Returned buildLog, w') ->
          forall b1 b2, buildLog = (b1 ++ b2)%string -> String.prefix marker b2 = false) ->
     Task.result x = Threw (Error ("Invalid Storybook build at " ++ Upload.sourceDir c)%string) /\
     Upload.listed_directories (Task.trace x) = [Upload.sourceDir c])
  /\
  (forall file before dir rest w',
     missing root ->
     Upload.buildLogFile c = Some file ->
     Upload.readBuildLog ext file w = (Returned (before ++ marker ++ dir ++ rest)%string, w') ->
     (forall b1 b2, before = (b1 ++ b2)%string -> b2 <> EmptyString ->
                    String.prefix marker (b2 ++ marker ++ dir ++ rest) = false) ->
     dir <> EmptyString ->
     ~ In Upload.newline (list_ascii_of_string dir) ->
     rest = EmptyString \/ (exists rest', rest = String Upload.newline rest') ->
     let retry := Upload.listDirectory ext dir w' in
     Upload.sourceDir (Task.final_ctx x) = dir /\
     Upload.listed_directories (Task.trace x) = [Upload.sourceDir c; dir] /\
     Upload.ctx_fileInfo (Task.final_ctx x) = Some (Upload.getFileInfo retry) /\
     (missing retry ->
        Task.result x = Threw (Error ("Invalid Storybook build at " ++ dir)%string)) /\
     (at_root "index.html"%string retry /\ at_root "iframe.html"%string retry ->
        Task.result x = Returned tt)).
Proof.
  intros x marker at_root missing root.
  assert (Hmissing : forall tree,
    missing tree -> Upload.isValidStorybook (Upload.getFileInfo tree) = false).
  { intros tree M.
    destruct (Upload.isValidStorybook (Upload.getFileInfo tree)) eqn:V; [| reflexivity].
    apply isValidStorybook_root in V. destruct V as [V1 V2].
    destruct M as [M | M]; contradiction. }
  split; [| split; [| split]].
  - destruct (validateFiles_leaves_manifest ext c w) as (tree & w' & T & F & R).
    fold x in T, F, R.
    exists (Upload.getFileInfo tree), tree, w'.
    destruct (getFileInfo_invariant tree) as (I1 & I2 & I3 & I4 & I5).
    split; [exact T |]. split; [exact F |]. split; [exact I1 |]. split; [exact I2 |].
    split; [exact I3 |]. split; [exact I4 |]. split; [exact I5 |].
    rewrite R. apply isValidStorybook_root.
  - intros V. apply isValidStorybook_root in V. subst x.
    rewrite (validateFiles_valid_root ext c w V). repeat split.
  - intros M [B | (file & B & N)]; apply Hmissing in M.
    + subst x. rewrite (validateFiles_no_log ext c w M B). split; reflexivity.
    + destruct (validateFiles_no_hint ext c w M B) as (Hr & Hl & _).
      { intros buildLog w' R. apply getOutputDir_none. exact (N buildLog w' R). }
      split; [exact Hr | exact Hl].
  - intros file before dir rest w' M B R First D NL Line retry. apply Hmissing in M.
    assert (O : Upload.getOutputDir (before ++ marker ++ dir ++ rest) = Some dir)
      by exact (@getOutputDir_found before dir rest First D NL Line).
    subst x. rewrite (validateFiles_retargeted ext c w M B R O).
    fold retry. unfold Task.result, Task.final_ctx, Task.trace.
    cbn [fst snd Task.m_ctx Task.m_trace].
    split; [reflexivity | split; [reflexivity | split; [reflexivity | split]]].
    + intros M'. apply Hmissing in M'. rewrite M'. reflexivity.
    + intros V'. apply isValidStorybook_root in V'. rewrite V'. reflexivity.
Qed.

Lemma validateFiles_manifest_witness :
  let ext := Scenario.storage Scenario.relocated (Returned MoreScenarios.long_build_log)
               (Returned []) Scenario.every_manifest (Returned Scenario.dependents)
               (Returned (Upload.Archive "storybook.zip" 80)) (Returned []) in
  let c := Upload.initial_ctx (Upload.Options false [] []) (Upload.Git [] []) 2
             (Some "build-storybook.log") "/static/preview-stats.json" "1" "/static/" in
  let x := Task.run (Upload.validateFiles ext) c 0 in
  Task.result x = Returned tt /\
  Upload.sourceDir (Task.final_ctx x) = "/var/storybook-static"%string /\
  Upload.listed_directories (Task.trace x) = ["/static/"; "/var/storybook-static"]%string /\
  option_map Upload.total (Upload.ctx_fileInfo (Task.final_ctx x)) = Some 84%N.
Proof.
  intros ext c x.
  destruct (validateFiles_manifest ext c 0) as (_ & _ & _ & H).
  assert (M : ~ (exists size, In (Upload.File "index.html" size) (Scenario.relocated "/static/"))
              \/ ~ (exists size, In (Upload.File "iframe.html" size)
                                    (Scenario.relocated "/static/"))).
  { left. intros (size & []). }
  assert (First : forall b1 b2,
    ("info => Loading presets" ++ String Upload.newline "info => ")%string = (b1 ++ b2)%string ->
    b2 <> EmptyString ->
    String.prefix "Output directory: "
      (b2 ++ "Output directory: " ++ "/var/storybook-static"
          ++ String Upload.newline "info => Preview built (4.2 s)") = false).
  { apply marker_not_before. reflexivity. }
  assert (Named : "/var/storybook-static"%string <> EmptyString).
  { intros F. discriminate F. }
  assert (OneLine : ~ In Upload.newline (list_ascii_of_string "/var/storybook-static")).
  { vm_compute. intuition discriminate. }
  destruct (H "build-storybook.log"%string
              ("info => Loading presets" ++ String Upload.newline "info => ")%string
              "/var/storybook-static"%string
              (String Upload.newline "info => Preview built (4.2 s)") 1
              M eq_refl eq_refl First Named OneLine
              (or_intror (ex_intro _ _ eq_refl)))
    as (D & L & F & _ & V).
  split; [| split; [exact D | split; [exact L |]]].
  - apply V. split; [exists 42%N; right; left | exists 42%N; left]; reflexivity.
  - fold x in F. rewrite F. reflexivity.
Defined.

(* ================================================================== *)
(** ** Theorems: traceChangedFiles *)
(* ================================================================== *)

Section TraceChangedFilesFacts.
Import Task Upload.
Variable W : Type.
Variable ext : collaborators W.

Ltac step_trace :=
  unfold run, result, final_ctx, trace, traceChangedFiles, resolveDependencies,
    coarseManifestCheck, projectChangedFiles,
    bind, call, get_ctx, modify_ctx, emit, throw, try_catch, ret;
  cbn [m_ctx m_world m_trace fst snd app].

(** What the coarse check is asked about: commit by commit, the manifest
    paths of the range that no untraced glob matches. *)
Lemma tracedManifestChanges_spec (o : options) (changes : list manifestChange)
    (id path : string) :
  (exists ch, In ch (tracedManifestChanges ext o changes) /\
              commit ch = id /\ In path (mc_changedFiles ch)) <->
  (exists ch, In ch changes /\ commit ch = id /\ In path (mc_changedFiles ch) /\
              List.existsb (fun glob => matchesFile ext glob path) (untraced o) = false).
Proof.
  unfold tracedManifestChanges. split.
  - intros (ch' & I & C & P). apply List.filter_In in I. destruct I as [I _].
    apply List.in_map_iff in I. destruct I as (ch & <- & I).
    cbn [commit mc_changedFiles] in C, P. apply List.filter_In in P. destruct P as [P U].
    exists ch. split; [exact I | split; [exact C | split; [exact P |]]].
    apply negb_true_iff in U. exact U.
  - intros (ch & I & C & P & U).
    exists (ManifestChange (commit ch)
              (List.filter (fun f => negb (is_untraced ext o f)) (mc_changedFiles ch))).
    assert (K : In path (List.filter (fun f => negb (is_untraced ext o f))
                                     (mc_changedFiles ch))).
    { apply List.filter_In. split; [exact P |]. unfold is_untraced. rewrite U. reflexivity. }
    split; [| split; [exact C | exact K]].
    apply List.filter_In. split.
    + apply List.in_map_iff. exists ch. split; [reflexivity | exact I].
    + cbn [mc_changedFiles].
      destruct (List.filter (fun f => negb (is_untraced ext o f)) (mc_changedFiles ch));
        [destruct K | reflexivity].
Qed.

(** A commit that keeps no path is not passed on. *)
Lemma tracedManifestChanges_nonempty (o : options) (changes : list manifestChange) :
  Forall (fun ch => mc_changedFiles ch <> []) (tracedManifestChanges ext o changes).
Proof.
  apply Forall_forall. intros ch I. unfold tracedManifestChanges in I.
  apply List.filter_In in I. destruct I as [_ N].
  intros E. rewrite E in N. discriminate N.
Qed.

(** What is projected: the changed files that neither an untraced nor an
    externals glob matches. *)
Lemma tracedChangedFiles_spec (o : options) (files : list string) (path : string) :
  In path (tracedChangedFiles ext o files) <->
  In path files /\
  List.existsb (fun glob => matchesFile ext glob path) (untraced o) = false /\
  List.existsb (fun glob => matchesFile ext glob path) (externals o) = false.
Proof.
  unfold tracedChangedFiles. rewrite List.filter_In, andb_true_iff, !negb_true_iff.
  reflexivity.
Qed.

(** The resolver fails and the coarse check reports files: the run
    bails on them and stops. *)
Lemma traceChangedFiles_fallback_bail (c : ctx) (w0 w1 w2 : W) (e : exn)
    (file : string) (files : list string) :
  let changes := packageManifestChanges (ctx_git c) in
  let traced := tracedManifestChanges ext (ctx_options c) changes in
  findChangedDependencies ext (manifestPaths changes) w0 = (Threw e, w1) ->
  findChangedPackageFiles ext traced w1 = (Returned (file :: files), w2) ->
  run (traceChangedFiles ext) c w0 =
    (Returned tt,
     Machine (set_bailReason (changedPackageFiles (file :: files)) c) w2
             [CallFindChangedDependencies (manifestPaths changes); LogDebug e;
              LogWarn lockfileFallback; CallFindChangedPackageFiles traced;
              LogWarn (bailFile (file :: files))]).
Proof.
  intros changes traced H1 H2. step_trace. fold changes. rewrite H1. cbn.
  fold changes. fold traced. rewrite H2. reflexivity.
Qed.

(** The resolver fails and the coarse check reports nothing: the
    changed files are projected through the graph. *)
Lemma traceChangedFiles_fallback_continue (c : ctx) (w0 w1 w2 : W) (e : exn) :
  let changes := packageManifestChanges (ctx_git c) in
  let traced := tracedManifestChanges ext (ctx_options c) changes in
  let changed := tracedChangedFiles ext (ctx_options c) (changedFiles (ctx_git c)) in
  findChangedDependencies ext (manifestPaths changes) w0 = (Threw e, w1) ->
  findChangedPackageFiles ext traced w1 = (Returned [], w2) ->
  run (traceChangedFiles ext) c w0 =
    (Returned tt,
     match getDependentStoryFiles ext (statsPath c) changed [] w2 with
     | (Returned stories, w3) =>
         Machine (set_onlyStoryFiles (JsObject.keys stories) c) w3
           [CallFindChangedDependencies (manifestPaths changes); LogDebug e;
            LogWarn lockfileFallback; CallFindChangedPackageFiles traced;
            CallGetDependentStoryFiles (statsPath c) changed []]
     | (Threw e', w3) =>
         Machine (set_bailReason invalidStats c) w3
           [CallFindChangedDependencies (manifestPaths changes); LogDebug e;
            LogWarn lockfileFallback; CallFindChangedPackageFiles traced;
            CallGetDependentStoryFiles (statsPath c) changed []; LogDebug e']
     end).
Proof.
  intros changes traced changed H1 H2. step_trace. fold changes. rewrite H1. cbn.
  fold changes. fold traced. rewrite H2. cbn. fold changed.
  destruct (getDependentStoryFiles ext (statsPath c) changed [] w2) as [[stories | e'] w3];
    reflexivity.
Qed.
End TraceChangedFilesFacts.

(** C1, as the model has it.  When the exact dependency resolver fails,
    for whatever reason, the coarse manifest check is asked, once, about
    the manifest changes of the range without the paths that an untraced
    glob matches (commit by commit, a commit that keeps no path left
    out).  When it reports at least one file, [traceChangedFiles]
    returns with [turboSnap.bailReason] set to [changedPackageFiles] of
    exactly the reported files, leaves [onlyStoryFiles] alone and never
    calls [getDependentStoryFiles]; when the check reports only files of
    the changes it was asked about, every file of the bail reason is a
    manifest path of the range that no untraced glob matches. *)
Theorem traceChangedFiles_bails_on_manifest_change
    (W : Type) (ext : Upload.collaborators W) (c : Upload.ctx) (w0 w1 w2 : W)
    (e : exn) (file : string) (files : list string) :
  let o := Upload.ctx_options c in
  let changes := Upload.packageManifestChanges (Upload.ctx_git c) in
  let asked := Upload.tracedManifestChanges ext o changes in
  let excluded path :=
    List.existsb (fun glob => Upload.matchesFile ext glob path) (Upload.untraced o) in
  Upload.findChangedDependencies ext (Upload.manifestPaths changes) w0 = (Threw e, w1) ->
  Upload.findChangedPackageFiles ext asked w1 = (Returned (file :: files), w2) ->
  let x := Task.run (Upload.traceChangedFiles ext) c w0 in
  Task.result x = Returned tt /\
  Upload.turboSnap_bailReason (Task.final_ctx x)
    = Some (Upload.changedPackageFiles (file :: files)) /\
  Upload.onlyStoryFiles (Task.final_ctx x) = Upload.onlyStoryFiles c /\
  occurrences Upload.is_getDependentStoryFiles (Task.trace x) = 0 /\
  Upload.coarse_checks (Task.trace x) = [asked] /\
  (forall id path,
      (exists ch, In ch asked /\ Upload.commit ch = id /\
                  In path (Upload.mc_changedFiles ch)) <->
      (exists ch, In ch changes /\ Upload.commit ch = id /\
                  In path (Upload.mc_changedFiles ch) /\ excluded path = false)) /\
  Forall (fun ch => Upload.mc_changedFiles ch <> []) asked /\
  ((forall path, In path (file :: files) ->
      exists ch, In ch asked /\ In path (Upload.mc_changedFiles ch)) ->
   forall path, In path (file :: files) ->
     excluded path = false /\
     exists ch, In ch changes /\ In path (Upload.mc_changedFiles ch)).
Proof.
  intros o changes asked excluded H1 H2 x. subst x.
  rewrite (traceChangedFiles_fallback_bail ext c w0 H1 H2).
  split; [reflexivity |]. split; [reflexivity |]. split; [reflexivity |].
  split; [reflexivity |]. split; [reflexivity |].
  split; [intros id path; apply tracedManifestChanges_spec |].
  split; [apply tracedManifestChanges_nonempty |].
  intros Given path I. destruct (Given path I) as (ch' & Ia & Ip).
  destruct (proj1 (tracedManifestChanges_spec ext o changes (Upload.commit ch') path))
    as (ch & Ic & _ & P & U).
  { exists ch'. split; [exact Ia | split; [reflexivity | exact Ip]]. }
  split; [exact U |]. exists ch. split; assumption.
Qed.

Lemma traceChangedFiles_bails_on_manifest_change_witness :
  let ext := Scenario.storage (fun _ => Scenario.storybook) (Threw (Error "ENOENT"))
               (Threw (Error "no lockfile")) Scenario.every_manifest
               (Returned Scenario.dependents)
               (Returned (Upload.Archive "storybook.zip" 80)) (Returned []) in
  let x := Task.run (Upload.traceChangedFiles ext)
             (MoreScenarios.monorepo_ctx ["package.json"]%string []) 0 in
  Upload.turboSnap_bailReason (Task.final_ctx x)
    = Some (Upload.changedPackageFiles ["./packages/ui/package.json"]%string) /\
  Upload.coarse_checks (Task.trace x)
    = [[Upload.ManifestChange "abcdef" ["./packages/ui/package.json"]%string]] /\
  occurrences Upload.is_getDependentStoryFiles (Task.trace x) = 0.
Proof.
  intros ext x.
  destruct (traceChangedFiles_bails_on_manifest_change ext
              (MoreScenarios.monorepo_ctx ["package.json"]%string []) 0 (w1 := 1) (w2 := 2)
              (e := Error "no lockfile") (file := "./packages/ui/package.json"%string)
              (files := []) eq_refl eq_refl) as (_ & B & _ & G & A & _).
  split; [exact B | split; [exact A | exact G]].
Defined.

(** C1, as it is stated, does not hold: the resolver fails, no path is
    untraced and the range changed [./package.json], so that a changed
    manifest file remains after the filter; the coarse check finds no
    dependency change in it and reports nothing, and the run does not
    bail but goes on to the graph.  This is the fourth test of
    [traceChangedFiles] in upload.test.ts. *)
Lemma traceChangedFiles_manifest_change_without_bail :
  ~ (forall (W : Type) (ext : Upload.collaborators W) (c : Upload.ctx) (w0 w1 : W) (e : exn),
        let changes := Upload.packageManifestChanges (Upload.ctx_git c) in
        let remaining :=
          Upload.manifestPaths
            (Upload.tracedManifestChanges ext (Upload.ctx_options c) changes) in
        Upload.findChangedDependencies ext (Upload.manifestPaths changes) w0 = (Threw e, w1) ->
        remaining <> [] ->
        let x := Task.run (Upload.traceChangedFiles ext) c w0 in
        Upload.turboSnap_bailReason (Task.final_ctx x)
          = Some (Upload.changedPackageFiles remaining) /\
        occurrences Upload.is_getDependentStoryFiles (Task.trace x) = 0).
Proof.
  intros claim.
  specialize (claim nat (Scenario.tracer (Threw (Error "no lockfile")) (fun _ => []))
                (Scenario.upload_ctx false [] None) 0 1 (Error "no lockfile") eq_refl).
  cbv zeta in claim.
  assert (Remains :
    Upload.manifestPaths
      (Upload.tracedManifestChanges
         (Scenario.tracer (Threw (Error "no lockfile")) (fun _ => []))
         (Upload.ctx_options (Scenario.upload_ctx false [] None))
         (Upload.packageManifestChanges (Upload.ctx_git (Scenario.upload_ctx false [] None))))
    <> []).
  { vm_compute. intros F. discriminate F. }
  destruct (claim Remains) as [B _]. vm_compute in B. discriminate B.
Qed.

(** C2, as the model has it.  When the exact dependency resolver fails
    and the coarse check finds no changed manifest file among those that
    are not untraced, [traceChangedFiles] does not bail on the manifests
    and does not throw: it calls [getDependentStoryFiles] once, on the
    changed files that neither an untraced nor an externals glob
    matches.  When the graph answers, [onlyStoryFiles] is set to the keys
    of the answer and [turboSnap.bailReason] is left as it was; when the
    stats cannot be read, the run bails with that reason and leaves
    [onlyStoryFiles] alone. *)
Theorem traceChangedFiles_continues_without_manifest_change
    (W : Type) (ext : Upload.collaborators W) (c : Upload.ctx) (w0 w1 w2 : W) (e : exn) :
  let o := Upload.ctx_options c in
  let changes := Upload.packageManifestChanges (Upload.ctx_git c) in
  let projected :=
    Upload.tracedChangedFiles ext o (Upload.changedFiles (Upload.ctx_git c)) in
  let excluded globs path :=
    List.existsb (fun glob => Upload.matchesFile ext glob path) globs in
  Upload.findChangedDependencies ext (Upload.manifestPaths changes) w0 = (Threw e, w1) ->
  Upload.findChangedPackageFiles ext (Upload.tracedManifestChanges ext o changes) w1
    = (Returned [], w2) ->
  let x := Task.run (Upload.traceChangedFiles ext) c w0 in
  Task.result x = Returned tt /\
  Upload.graph_calls (Task.trace x) = [(Upload.statsPath c, projected, [])] /\
  (forall path,
      In path projected <->
      In path (Upload.changedFiles (Upload.ctx_git c)) /\
      excluded (Upload.untraced o) path = false /\
      excluded (Upload.externals o) path = false) /\
  (forall files,
      Upload.turboSnap_bailReason (Task.final_ctx x)
        = Some (Upload.changedPackageFiles files) ->
      Upload.turboSnap_bailReason c = Some (Upload.changedPackageFiles files)) /\
  match Upload.getDependentStoryFiles ext (Upload.statsPath c) projected [] w2 with
  | (Returned stories, _) =>
      Upload.turboSnap_bailReason (Task.final_ctx x) = Upload.turboSnap_bailReason c /\
      Upload.onlyStoryFiles (Task.final_ctx x) = Some (JsObject.keys stories)
  | (Threw _, _) =>
      Upload.turboSnap_bailReason (Task.final_ctx x) = Some Upload.invalidStats /\
      Upload.onlyStoryFiles (Task.final_ctx x) = Upload.onlyStoryFiles c
  end.
Proof.
  intros o changes projected excluded H1 H2 x. subst x.
  rewrite (traceChangedFiles_fallback_continue ext c w0 H1 H2).
  fold o. fold changes. fold projected.
  unfold Task.result, Task.final_ctx, Task.trace. cbn [fst snd].
  assert (P : forall path,
    In path projected <->
    In path (Upload.changedFiles (Upload.ctx_git c)) /\
    excluded (Upload.untraced o) path = false /\
    excluded (Upload.externals o) path = false).
  { intros path. apply tracedChangedFiles_spec. }
  destruct (Upload.getDependentStoryFiles ext (Upload.statsPath c) projected [] w2)
    as [[stories | e'] w3]; cbn [Task.m_ctx Task.m_trace].
  - split; [reflexivity | split; [reflexivity | split; [exact P | split]]].
    + intros files F. exact F.
    + split; reflexivity.
  - split; [reflexivity | split; [reflexivity | split; [exact P | split]]].
    + intros files F. discriminate F.
    + split; reflexivity.
Qed.

Lemma traceChangedFiles_continues_without_manifest_change_witness :
  let ext := Scenario.storage (fun _ => Scenario.storybook) (Threw (Error "ENOENT"))
               (Threw (Error "no lockfile")) Scenario.every_manifest
               (Returned Scenario.dependents)
               (Returned (Upload.Archive "storybook.zip" 80)) (Returned []) in
  let c := MoreScenarios.monorepo_ctx
             ["package.json"; "packages/ui/package.json"; "docs/intro.mdx"]%string
             ["vendor/lib.js"]%string in
  let x := Task.run (Upload.traceChangedFiles ext) c 0 in
  Task.result x = Returned tt /\
  Upload.graph_calls (Task.trace x)
    = [("/static/preview-stats.json", ["./example.js"], [])]%string /\
  Upload.turboSnap_bailReason (Task.final_ctx x) = None /\
  Upload.onlyStoryFiles (Task.final_ctx x) = Some ["123"]%string.
Proof.
  intros ext c x.
  destruct (traceChangedFiles_continues_without_manifest_change ext c 0 (w1 := 1) (w2 := 2)
              (e := Error "no lockfile") eq_refl eq_refl) as (R & G & _ & _ & P).
  split; [exact R | split; [exact G |]]. exact P.
Defined.

(** C2, as it is stated, does not hold: the resolver fails, the coarse
    check finds nothing, and the stats artifact cannot be read; the run
    ends with a bail reason and without [onlyStoryFiles]. *)
Lemma traceChangedFiles_bails_on_unreadable_stats :
  ~ (forall (W : Type) (ext : Upload.collaborators W) (c : Upload.ctx) (w0 w1 w2 : W)
            (e : exn),
        let changes := Upload.packageManifestChanges (Upload.ctx_git c) in
        Upload.findChangedDependencies ext (Upload.manifestPaths changes) w0 = (Threw e, w1) ->
        Upload.findChangedPackageFiles ext
          (Upload.tracedManifestChanges ext (Upload.ctx_options c) changes) w1
          = (Returned [], w2) ->
        Upload.turboSnap_bailReason c = None ->
        let x := Task.run (Upload.traceChangedFiles ext) c w0 in
        Upload.turboSnap_bailReason (Task.final_ctx x) = None /\
        Upload.onlyStoryFiles (Task.final_ctx x) <> None).
Proof.
  intros claim.
  destruct (claim nat
              (Scenario.storage (fun _ => Scenario.storybook) (Threw (Error "ENOENT"))
                 (Threw (Error "no lockfile")) Scenario.every_manifest
                 (Threw (Error "ENOENT: /static/preview-stats.json"))
                 (Returned (Upload.Archive "storybook.zip" 80)) (Returned []))
              (Scenario.upload_ctx false ["package.json"]%string None) 0 1 2
              (Error "no lockfile") eq_refl eq_refl eq_refl) as [B _].
  vm_compute in B. discriminate B.
Qed.

(* ================================================================== *)
(** ** Theorems: uploadStorybook *)
(* ================================================================== *)

Section ProgressFacts.
Import Upload.
Local Open Scope N_scope.


Lemma running_sums_length (start : N) (deltas : list N) :
  List.length (running_sums start deltas) = List.length deltas.
Proof.
  revert start. induction deltas as [| d ds IH]; intros start; cbn;
    [reflexivity | rewrite IH; reflexivity].
Qed.








(** The bytes of the streams are the bytes of the manifest. *)
Lemma streams_sum (ls : list fileLength) (streams : list (list N)) :
  Forall2 (fun l s => N_sum s = contentLength l) ls streams ->
  N_sum (List.map N_sum streams) = sum_lengths ls.
Proof.
  induction 1 as [| l s ls streams E _ IH]; cbn; [reflexivity |].
  fold (N_sum (List.map N_sum streams)). fold (sum_lengths ls). rewrite E, IH.
  reflexivity.
Qed.












Lemma progress_reports_app (tr tr' : list event) :
  progress_reports (tr ++ tr') = (progress_reports tr ++ progress_reports tr')%list.
Proof. apply List.flat_map_app. Qed.

End ProgressFacts.

Section UploadFacts.
Import Task Upload.
Variable W : Type.
Variable ext : collaborators W.








(** The whole run of the archive mode. *)
Lemma uploadStorybook_archive_run (c : ctx) (w0 w1 w2 w3 w4 : W) (f : fileInfo)
    (zipped : archive) (target : zipUploadUrl) (deltas : list N) :
  zip (ctx_options c) = true ->
  ctx_fileInfo c = Some f ->
  compress ext (sourceDir c) (paths f) w0 = (Returned zipped, w1) ->
  getZipUploadUrl ext (announcedBuild_id c) w1 = (Returned target, w2) ->
  putFiles ext [archiveRequest target zipped] w2 = (Returned deltas, w3) ->
  waitForSentinel ext (sentinelUrl target) w3 = (Returned tt, w4) ->
  run (uploadStorybook ext) c w0 =
    (Returned tt,
     Machine (set_uploadedBytes (archive_size zipped) c) w4
             [CallCompress (sourceDir c) (paths f);
              CallGetZipUploadUrl (announcedBuild_id c);
              HttpPut [archiveRequest target zipped];
              WaitForSentinel (sentinelUrl target)]).
Proof.
  intros Z F C U P S.
  unfold run, uploadStorybook, bind, get_ctx. cbn [m_ctx]. rewrite F, Z.
  unfold uploadArchive, bind, call, modify_ctx. cbn [m_ctx m_world m_trace].
  rewrite C. cbn [m_ctx m_world m_trace app]. rewrite U.
  cbn [m_ctx m_world m_trace app]. rewrite P. cbn [m_ctx m_world m_trace app].
  rewrite S. reflexivity.
Qed.

End UploadFacts.




(** C7.  In archive mode the archive is PUT, alone, with content type
    [application/zip] and a content length that is the byte size of the
    archive in decimal, and [uploadedBytes] is set to the size of the
    archive whatever the total of the manifest: 80 for a manifest of 84
    bytes that compresses to 80. *)
Theorem uploadStorybook_archive
    (W : Type) (ext : Upload.collaborators W) (c : Upload.ctx) (w0 w1 w2 w3 w4 : W)
    (f : Upload.fileInfo) (zipped : Upload.archive) (target : Upload.zipUploadUrl)
    (deltas : list N) :
  Upload.zip (Upload.ctx_options c) = true ->
  Upload.ctx_fileInfo c = Some f ->
  Upload.compress ext (Upload.sourceDir c) (Upload.paths f) w0 = (Returned zipped, w1) ->
  Upload.getZipUploadUrl ext (Upload.announcedBuild_id c) w1 = (Returned target, w2) ->
  Upload.putFiles ext [Upload.archiveRequest target zipped] w2 = (Returned deltas, w3) ->
  Upload.waitForSentinel ext (Upload.sentinelUrl target) w3 = (Returned tt, w4) ->
  let x := Task.run (Upload.uploadStorybook ext) c w0 in
  Task.result x = Returned tt /\
  Upload.put_requests (Task.trace x) =
    [Upload.PutRequest (Upload.zip_url target)
       [("content-type", "application/zip");
        ("content-length", Upload.decimal (Upload.archive_size zipped))]
       (Upload.archive_path zipped)] /\
  Upload.uploadedBytes (Task.final_ctx x) = Some (Upload.archive_size zipped) /\
  (Upload.total f = 84%N -> Upload.archive_size zipped = 80%N ->
     Upload.uploadedBytes (Task.final_ctx x) = Some 80%N /\
     List.map Upload.put_headers (Upload.put_requests (Task.trace x)) =
       [[("content-type", "application/zip"); ("content-length", "80")]]).
Proof.
  intros Z F C U P S x. subst x.
  rewrite (uploadStorybook_archive_run ext c w0 Z F C U P S).
  unfold Task.result, Task.final_ctx, Task.trace. cbn [fst snd Task.m_ctx Task.m_trace].
  split; [reflexivity | split; [reflexivity | split; [reflexivity |]]].
  intros _ E. cbn. rewrite E. split; reflexivity.
Qed.

Lemma uploadStorybook_archive_witness :
  let ext := Scenario.storage (fun _ => Scenario.storybook) (Threw (Error "ENOENT"))
               (Returned []) Scenario.every_manifest (Returned Scenario.dependents)
               (Returned (Upload.Archive "storybook.zip" 80)) (Returned []) in
  let x := Task.run (Upload.uploadStorybook ext) (Scenario.upload_ctx true [] None) 0 in
  Upload.uploadedBytes (Task.final_ctx x) = Some 80%N /\
  List.map Upload.put_headers (Upload.put_requests (Task.trace x)) =
    [[("content-type", "application/zip"); ("content-length", "80")]].
Proof.
  intros ext x.
  destruct (uploadStorybook_archive ext (Scenario.upload_ctx true [] None)
              0 (w1 := 1) (w2 := 2) (w3 := 3) (w4 := 4) (f := Scenario.manifest)
              (zipped := Upload.Archive "storybook.zip" 80)
              (target := Upload.ZipUploadUrl "https://asdqwe.chromatic.com"
                 "https://asdqwe.chromatic.com/storybook.zip"
                 "https://asdqwe.chromatic.com/upload.txt")
              (deltas := [])
              eq_refl eq_refl eq_refl eq_refl eq_refl eq_refl) as (_ & _ & _ & E).
  exact (E eq_refl eq_refl).
Defined.


(* ================================================================== *)
(** ** The scenarios of node-src/tasks/upload.test.ts *)
(* ================================================================== *)

(** The model of upload.ts, run on the inputs of its tests, gives what
    the tests expect. *)
Section UploadTests.
Import Task Upload.
Local Open Scope string_scope.

Example validateFiles_sets_fileInfo :
  ctx_fileInfo (final_ctx (run (validateFiles (Scenario.fs (fun _ => Scenario.storybook)))
                               (Scenario.static_ctx None) 0)) =
  Some (FileInfo ["iframe.html"; "index.html"]
          [FileLength "iframe.html" "iframe.html" 42;
           FileLength "index.html" "index.html" 42]
          84).
Proof. reflexivity. Qed.

Example validateFiles_throws_without_index :
  result (run (validateFiles (Scenario.fs (fun _ => [File "iframe.html" 42])))
              (Scenario.static_ctx None) 0) =
  Threw (Error "Invalid Storybook build at /static/").
Proof. reflexivity. Qed.

Example validateFiles_throws_without_iframe :
  result (run (validateFiles (Scenario.fs (fun _ => [File "index.html" 42])))
              (Scenario.static_ctx None) 0) =
  Threw (Error "Invalid Storybook build at /static/").
Proof. reflexivity. Qed.

Example validateFiles_retries_with_outputDir :
  let x := run (validateFiles (Scenario.fs Scenario.relocated))
               (Scenario.static_ctx (Some "build-storybook.log")) 0 in
  result x = Returned tt /\
  In (LogWarn (unexpectedBuildDirectory "/var/storybook-static")) (trace x) /\
  sourceDir (final_ctx x) = "/var/storybook-static" /\
  option_map paths (ctx_fileInfo (final_ctx x)) = Some ["iframe.html"; "index.html"].
Proof. vm_compute. intuition. Qed.

Example traceChangedFiles_sets_onlyStoryFiles :
  onlyStoryFiles
    (final_ctx (run (traceChangedFiles (Scenario.tracer (Returned []) (fun _ => [])))
                    (Scenario.upload_ctx false [] None) 0)) =
  Some ["123"].
Proof. reflexivity. Qed.

Example traceChangedFiles_ignores_manifest_without_lockfile_change :
  let x := run (traceChangedFiles
                  (Scenario.tracer (Returned []) (fun _ => ["./package.json"])))
               (Scenario.upload_ctx false [] None) 0 in
  onlyStoryFiles (final_ctx x) = Some ["123"] /\ turboSnap_bailReason (final_ctx x) = None.
Proof. split; reflexivity. Qed.

Example traceChangedFiles_bails_in_fallback :
  let x := run (traceChangedFiles
                  (Scenario.tracer (Threw (Error "no lockfile")) (fun _ => ["./package.json"])))
               (Scenario.upload_ctx false [] None) 0 in
  turboSnap_bailReason (final_ctx x) = Some (changedPackageFiles ["./package.json"]) /\
  In (CallFindChangedPackageFiles [Scenario.package_json_commit]) (trace x) /\
  occurrences is_getDependentStoryFiles (trace x) = 0.
Proof. vm_compute. intuition. Qed.

Example traceChangedFiles_continues_in_fallback :
  let x := run (traceChangedFiles
                  (Scenario.tracer (Threw (Error "no lockfile")) (fun _ => [])))
               (Scenario.upload_ctx false [] None) 0 in
  turboSnap_bailReason (final_ctx x) = None /\
  onlyStoryFiles (final_ctx x) = Some ["123"] /\
  In (CallFindChangedPackageFiles [Scenario.package_json_commit]) (trace x).
Proof. vm_compute. intuition. Qed.

Example traceChangedFiles_ignores_untraced_manifest :
  let x := run (traceChangedFiles
                  (Scenario.tracer (Threw (Error "no lockfile")) Scenario.every_manifest))
               (Scenario.upload_ctx false ["package.json"] None) 0 in
  onlyStoryFiles (final_ctx x) = Some ["123"] /\
  In (CallFindChangedPackageFiles []) (trace x).
Proof. vm_compute. intuition. Qed.

Example uploadStorybook_puts_the_files :
  let x := run (uploadStorybook (Scenario.uploader []))
               (Scenario.upload_ctx false [] None) 0 in
  In (CallGetUploadUrls "1" ["iframe.html"; "index.html"]) (trace x) /\
  List.map (fun r => (put_url r, put_headers r)) (put_requests (trace x)) =
    [("https://asdqwe.chromatic.com/iframe.html",
      [("content-type", "text/html"); ("content-length", "42");
       ("cache-control", "max-age=31536000")]);
     ("https://asdqwe.chromatic.com/index.html",
      [("content-type", "text/html"); ("content-length", "42");
       ("cache-control", "max-age=31536000")])] /\
  uploadedBytes (final_ctx x) = Some 84%N.
Proof. vm_compute. intuition. Qed.

Example uploadStorybook_reports_progress :
  let x := run (uploadStorybook (Scenario.uploader [21; 21]%N))
               (Scenario.upload_ctx false [] None) 0 in
  List.filter (fun e => match e with OnTaskProgress _ _ => true | _ => false end) (trace x) =
    [OnTaskProgress 21 84; OnTaskProgress 42 84; OnTaskProgress 63 84; OnTaskProgress 84 84].
Proof. reflexivity. Qed.

(** A transfer that is retried has its bytes counted again, and one that
    never succeeds fails the step after three attempts. *)
Example uploadStorybook_counts_resent_bytes :
  let ext := Scenario.storage_with (fun _ => Scenario.storybook) Scenario.build_log
               (Returned []) Scenario.every_manifest (Returned Scenario.dependents)
               Scenario.zipped (Returned [])
               (Scenario.flaky "https://asdqwe.chromatic.com/iframe.html") [] in
  let x := run (uploadStorybook ext) (Scenario.upload_ctx false [] None) 0 in
  result x = Returned tt /\
  progress_reports (trace x) = [21; 42; 63; 84; 105]%N /\
  uploadedBytes (final_ctx x) = Some 84%N.
Proof. vm_compute. intuition. Qed.

Example uploadStorybook_fails_without_retries_left :
  let ext := Scenario.storage_with (fun _ => Scenario.storybook) Scenario.build_log
               (Returned []) Scenario.every_manifest (Returned Scenario.dependents)
               Scenario.zipped (Returned [])
               (fun _ _ => Attempt [21%N] (BrokenAfter 21)) [] in
  let x := run (uploadStorybook ext) (Scenario.upload_ctx false [] None) 0 in
  result x = Threw (Error "Failed to upload /static/iframe.html") /\
  progress_reports (trace x) = [21; 42; 63; 84; 105; 126]%N /\
  uploadedBytes (final_ctx x) = None.
Proof. vm_compute. intuition. Qed.

Example uploadStorybook_uploads_the_archive :
  let x := run (uploadStorybook (Scenario.uploader []))
               (Scenario.upload_ctx true [] None) 0 in
  In (CallGetZipUploadUrl "1") (trace x) /\
  List.map (fun r => (put_url r, put_headers r)) (put_requests (trace x)) =
    [("https://asdqwe.chromatic.com/storybook.zip",
      [("content-type", "application/zip"); ("content-length", "80")])] /\
  uploadedBytes (final_ctx x) = Some 80%N.
Proof. vm_compute. intuition. Qed.
End UploadTests.

(* ================================================================== *)
(** ** Theorems: spreading objects *)
(* ================================================================== *)

Section SpreadFacts.
Import JsValue GetOptions.
Variable V : Type.
Implicit Types (o : JsObject.t V) (k : string) (v : V).

Lemma has_false_not_key k o : JsObject.has k o = false -> ~ In k (JsObject.keys o).
Proof.
  unfold JsObject.has. induction o as [| [k' v'] o IH]; cbn; [tauto |].
  destruct (String.eqb k k') eqn:E; [discriminate |].
  intros H [F | F].
  - subst k'. rewrite String.eqb_refl in E. discriminate E.
  - exact (IH H F).
Qed.

Lemma get_none_not_key k o : JsObject.get k o = None -> ~ In k (JsObject.keys o).
Proof.
  intros H. apply has_false_not_key. unfold JsObject.has. rewrite H. reflexivity.
Qed.

Lemma not_key_get_none k o : ~ In k (JsObject.keys o) -> JsObject.get k o = None.
Proof.
  induction o as [| [k' v'] o IH]; cbn; [reflexivity |].
  intros H. destruct (String.eqb k k') eqn:E.
  - apply String.eqb_eq in E. subst k'. exfalso. apply H. left. reflexivity.
  - apply IH. intros F. apply H. right. exact F.
Qed.

Lemma keys_replace k v o : JsObject.keys (JsObject.replace k v o) = JsObject.keys o.
Proof.
  induction o as [| [k' v'] o IH]; cbn; [reflexivity |].
  destruct (String.eqb k k'); cbn; [reflexivity |].
  fold (JsObject.keys (JsObject.replace k v o)). fold (JsObject.keys o).
  rewrite IH. reflexivity.
Qed.

Lemma keys_insert_index n k v o :
  exists before after,
    JsObject.keys o = before ++ after /\
    JsObject.keys (JsObject.insert_index n k v o) = before ++ k :: after.
Proof.
  induction o as [| [k' v'] o IH]; cbn.
  - exists [], []. split; reflexivity.
  - destruct (JsObject.array_index k') as [n' |]; [destruct (n' <? n)%N |].
    + destruct IH as (before & after & E1 & E2).
      exists (k' :: before), after. cbn.
      fold (JsObject.keys o). fold (JsObject.keys (JsObject.insert_index n k v o)).
      rewrite E1, E2. split; reflexivity.
    + exists [], (k' :: JsObject.keys o). split; reflexivity.
    + exists [], (k' :: JsObject.keys o). split; reflexivity.
Qed.

(** An assignment keeps the keys of an object distinct. *)
Lemma distinct_keys_set k v o :
  distinct_keys o -> distinct_keys (JsObject.set k v o).
Proof.
  unfold distinct_keys, JsObject.set. intros D.
  destruct (JsObject.has k o) eqn:H.
  - rewrite keys_replace. exact D.
  - apply has_false_not_key in H.
    destruct (JsObject.array_index k) as [n |].
    + destruct (keys_insert_index n k v o) as (before & after & E1 & E2).
      rewrite E2. rewrite E1 in D, H.
      apply Permutation_NoDup with (l := k :: before ++ after).
      * apply Permutation_middle.
      * constructor; assumption.
    + unfold JsObject.keys. rewrite List.map_app. cbn.
      apply Permutation_NoDup with (l := k :: List.map fst o).
      * apply Permutation_cons_append.
      * constructor; assumption.
Qed.

Lemma get_rev_distinct k o : distinct_keys o -> JsObject.get k (List.rev o) = JsObject.get k o.
Proof.
  unfold distinct_keys. induction o as [| [k' v'] o IH]; [reflexivity |].
  cbn [List.rev JsObject.keys List.map fst]. intros D. inversion D as [| ? ? N D']; subst.
  rewrite get_app, (IH D'). cbn.
  destruct (String.eqb k k') eqn:E.
  - apply String.eqb_eq in E. subst k'.
    assert (G : JsObject.get k o = None) by (apply not_key_get_none; exact N).
    rewrite G. reflexivity.
  - destruct (JsObject.get k o); reflexivity.
Qed.

Lemma get_filter_distinct (keep : string * V -> bool) k o :
  distinct_keys o ->
  JsObject.get k (List.filter keep o) =
  match JsObject.get k o with
  | Some v => if keep (k, v) then Some v else None
  | None => None
  end.
Proof.
  unfold distinct_keys. induction o as [| [k' v'] o IH]; [reflexivity |].
  cbn [JsObject.keys List.map fst]. intros D. inversion D as [| ? ? N D']; subst.
  cbn [List.filter JsObject.get].
  destruct (String.eqb k k') eqn:E.
  - apply String.eqb_eq in E. subst k'.
    destruct (keep (k, v')) eqn:K.
    + cbn. rewrite String.eqb_refl. reflexivity.
    + assert (G : JsObject.get k o = None) by (apply not_key_get_none; exact N).
      rewrite (IH D'), G. reflexivity.
  - destruct (keep (k', v')); cbn; rewrite ?E; exact (IH D').
Qed.

Lemma distinct_keys_filter (keep : string * V -> bool) o :
  distinct_keys o -> distinct_keys (List.filter keep o).
Proof.
  unfold distinct_keys. induction o as [| [k' v'] o IH]; [intros; constructor |].
  cbn [JsObject.keys List.map fst List.filter]. intros D.
  inversion D as [| ? ? N D']; subst.
  destruct (keep (k', v')); [| exact (IH D')].
  cbn. constructor; [| exact (IH D')].
  intros F. apply N. clear - F. induction o as [| [k0 v0] o IHo]; [contradiction |].
  cbn in F |- *. destruct (keep (k0, v0)); [destruct F as [F | F] |].
  - left. exact F.
  - right. exact (IHo F).
  - right. exact (IHo F).
Qed.
End SpreadFacts.

Section SpreadValueFacts.
Import JsValue GetOptions.

(** Reading after spreading: what the source assigns, or else what the
    target had. *)
Lemma get_spread (k : string) (target : object) (source : option object) :
  JsObject.get k (spread target source) =
  match assigned k source with
  | Some v => Some v
  | None => JsObject.get k target
  end.
Proof.
  destruct source as [src |]; [| reflexivity]. cbn [spread assigned].
  revert target. induction src as [| [k' v'] src IH]; intros target; [reflexivity |].
  cbn [List.fold_left List.rev fst snd]. rewrite IH, get_app, get_set. cbn.
  destruct (JsObject.get k (List.rev src)); [reflexivity |].
  destruct (String.eqb k k'); reflexivity.
Qed.

Lemma distinct_keys_spread (target : object) (source : option object) :
  distinct_keys target -> distinct_keys (spread target source).
Proof.
  destruct source as [src |]; [| tauto]. cbn [spread].
  revert target. induction src as [| [k' v'] src IH]; intros target D; [exact D |].
  cbn [List.fold_left]. apply IH. apply distinct_keys_set. exact D.
Qed.

(** [stripUndefined] drops the properties that are [undefined] and keeps
    the others as they are. *)
Lemma get_stripUndefined (k : string) (o : object) :
  distinct_keys o ->
  JsObject.get k (stripUndefined o) =
  match JsObject.get k o with
  | Some VUndefined | None => None
  | Some v => Some v
  end.
Proof.
  intros D. unfold stripUndefined, fromEntries, JsObject.entries.
  rewrite get_spread. cbn [assigned].
  rewrite get_rev_distinct by (apply distinct_keys_filter; exact D).
  rewrite get_filter_distinct by exact D. cbn.
  destruct (JsObject.get k o) as [[| | b | s | l] |]; reflexivity.
Qed.
End SpreadValueFacts.

(* ================================================================== *)
(** ** Theorems: getOptions *)
(* ================================================================== *)

Section GetOptionsFacts.
Import JsValue GetOptions.
Local Open Scope options_scope.

Lemma distinctb_NoDup (keys : list string) : distinctb keys = true -> NoDup keys.
Proof.
  induction keys as [| k keys IH]; cbn; [constructor |].
  intros H. apply andb_true_iff in H. destruct H as [N D].
  constructor; [| exact (IH D)].
  intros F. apply negb_true_iff in N.
  assert (E : List.existsb (String.eqb k) keys = true).
  { apply List.existsb_exists. exists k. split; [exact F | apply String.eqb_refl]. }
  rewrite E in N. discriminate N.
Qed.

Lemma distinct_defaultOptions (c : InitialContext) : distinct_keys (defaultOptions c).
Proof. apply distinctb_NoDup. reflexivity. Qed.

Lemma distinct_flagOptions (f : Flags) : distinct_keys (flagOptions f).
Proof. apply distinctb_NoDup. reflexivity. Qed.

Lemma distinct_stripUndefined (o : object) : distinct_keys (stripUndefined o).
Proof.
  unfold stripUndefined, fromEntries. apply distinct_keys_spread. constructor.
Qed.

Lemma distinct_mergedOptions (c : InitialContext) : distinct_keys (mergedOptions c).
Proof.
  unfold mergedOptions. apply distinct_keys_set.
  do 4 apply distinct_keys_spread. constructor.
Qed.

(** Every option but [interactive] comes from the strongest layer that
    has it. *)
Lemma read_mergedOptions (key : string) (c : InitialContext) :
  String.eqb key "interactive" = false ->
  read key (mergedOptions c) = layered key c.
Proof.
  intros N. unfold read, mergedOptions, layered, optionsFromFlags.
  rewrite get_set, N, !get_spread. cbn [assigned].
  rewrite (get_rev_distinct key (distinct_stripUndefined (flagOptions (flags c)))).
  rewrite get_stripUndefined by apply distinct_flagOptions.
  rewrite (get_rev_distinct key (distinct_defaultOptions c)).
  destruct (assigned key (extraOptions c)); [reflexivity |].
  destruct (JsObject.get key (flagOptions (flags c))) as [[| | b | s | l] |];
    try reflexivity;
    (destruct (assigned key (configuration c)); [reflexivity |]);
    unfold read; destruct (JsObject.get key (defaultOptions c)); reflexivity.
Qed.

Lemma read_interactive (c : InitialContext) :
  read "interactive" (mergedOptions c) = VBool (interactiveOption c).
Proof. unfold read, mergedOptions. rewrite get_set. reflexivity. Qed.

Lemma bind_returns {A B} (m : M A) (k : A -> M B) (b : B) :
  snd (bind m k) = Returns b ->
  exists a, snd m = Returns a /\ snd (k a) = Returns b.
Proof.
  destruct m as [l [a | f]]; cbn; [| discriminate].
  destruct (k a) as [l' r] eqn:E. cbn. intros ->. exists a. rewrite E. split; reflexivity.
Qed.

Lemma guard_returns (cond : bool) (f : failure) (u : unit) :
  snd (guard cond f) = Returns u -> cond = false.
Proof. destruct cond; [discriminate | reflexivity]. Qed.

Lemma when_returns (cond : bool) (m : M unit) (u : unit) :
  snd (when cond m) = Returns u -> cond = true -> snd m = Returns u.
Proof. intros H C. rewrite C in H. exact H. Qed.

Variable extname : string -> string.

(** What a call that returns has checked, and what it returns. *)
Lemma getOptions_returns (c : InitialContext) (o : object) :
  snd (getOptions extname c) = Returns o ->
  let options := mergedOptions c in
  let on key := truthy (read key options) in
  let f := flags c in
  on "projectToken" = true /\
  (truthy_string (item 0 (slugParts f))
   && (negb (truthy_string (item 1 (slugParts f)))
       || negb (Nat.eqb (List.length (List.skipn 2 (slugParts f))) 0)) = false) /\
  (forall bo ro, item 1 (branchParts f) = Some bo -> item 0 (slugParts f) = Some ro ->
     bo <> EmptyString -> ro <> EmptyString -> bo = ro) /\
  (truthy_string (patchBuild f) = true ->
     on "patchHeadRef" = true /\ on "patchBaseRef" = true /\
     strict_eq (read "patchHeadRef" options) (read "patchBaseRef" options) = false) /\
  snd (checkOnlyStoryNames options) = Returns tt /\
  (on "buildScriptName" && on "storybookBuildDir" = false) /\
  (on "onlyChanged" && on "onlyStoryFiles" = false) /\
  (on "onlyChanged" && on "onlyStoryNames" = false) /\
  (on "onlyStoryNames" && on "onlyStoryFiles" = false) /\
  (on "untraced" && negb (on "onlyChanged") = false) /\
  (on "externals" && negb (on "onlyChanged") = false) /\
  (on "traceChanged" && negb (on "onlyChanged") = false) /\
  (on "junitReport" && on "exitOnceUploaded" = false) /\
  (forall report, read "junitReport" options = VString report -> extname report = ".xml") /\
  (if on "storybookBuildDir" then o = options
   else exists scripts name,
       packageJson_scripts c = Some scripts /\
       name = match read "buildScriptName" options with
              | VString given => given
              | _ => defaultBuildScriptName scripts
              end /\
       name <> EmptyString /\
       hasScript scripts name = true /\
       o = withBuildScript name options).
Proof.
  intros H options on f. unfold getOptions in H.
  fold f options in H.
  apply bind_returns in H as (? & _ & H).
  apply bind_returns in H as (? & G1 & H). apply guard_returns in G1.
  apply bind_returns in H as (? & G2 & H). apply guard_returns in G2.
  apply bind_returns in H as (? & G3 & H).
  apply bind_returns in H as (? & G4 & H).
  apply bind_returns in H as (? & G5 & H).
  apply bind_returns in H as (? & G6 & H). apply guard_returns in G6.
  apply bind_returns in H as (? & G7 & H). apply guard_returns in G7.
  apply bind_returns in H as (? & G8 & H). apply guard_returns in G8.
  apply bind_returns in H as (? & G9 & H). apply guard_returns in G9.
  apply bind_returns in H as (? & G10 & H). apply guard_returns in G10.
  apply bind_returns in H as (? & G11 & H). apply guard_returns in G11.
  apply bind_returns in H as (? & G12 & H). apply guard_returns in G12.
  apply bind_returns in H as (? & G13 & H). apply guard_returns in G13.
  apply bind_returns in H as (? & G14 & H). apply guard_returns in G14.
  apply bind_returns in H as (? & _ & H).
  apply bind_returns in H as (? & _ & H).
  fold (on "projectToken") in G1. apply negb_false_iff in G1.
  split; [exact G1 |]. split; [exact G2 |].
  split.
  { intros bo ro Eb Er Nb Nr. rewrite Eb, Er in G3. apply guard_returns in G3.
    cbn [truthy_string] in G3.
    destruct (String.eqb bo EmptyString) eqn:E1;
      [apply String.eqb_eq in E1; contradiction |].
    destruct (String.eqb ro EmptyString) eqn:E2;
      [apply String.eqb_eq in E2; contradiction |].
    cbn in G3. apply negb_false_iff in G3. apply String.eqb_eq. exact G3. }
  split.
  { intros P. pose proof (@when_returns _ _ _ G4 P) as P'.
    apply bind_returns in P' as (? & P1 & P2).
    apply guard_returns in P1. apply guard_returns in P2.
    apply orb_false_iff in P1. destruct P1 as [P1 P1'].
    apply negb_false_iff in P1, P1'. repeat split; assumption. }
  split; [destruct x4; exact G5 |].
  split.
  { unfold on. cbn [List.filter] in G6.
    destruct (truthy (read "buildScriptName" options));
      destruct (truthy (read "storybookBuildDir" options));
      try reflexivity; discriminate G6. }
  split; [exact G7 |]. split; [exact G8 |]. split; [exact G9 |].
  split; [exact G10 |]. split; [exact G11 |]. split; [exact G12 |].
  split; [exact G13 |].
  split.
  { intros report R. fold options in G14. rewrite R in G14.
    apply negb_false_iff in G14. apply String.eqb_eq. exact G14. }
  fold (on "storybookBuildDir") in H.
  destruct (on "storybookBuildDir").
  - cbn in H. injection H as <-. reflexivity.
  - apply bind_returns in H as (name & N & H).
    destruct (packageJson_scripts c) as [scripts |] eqn:S.
    + exists scripts, name. split; [reflexivity |].
      assert (E : name = match read "buildScriptName" options with
                         | VString given => given
                         | _ => defaultBuildScriptName scripts
                         end).
      { fold options in N.
        destruct (read "buildScriptName" options); cbn in N; injection N as <-;
          reflexivity. }
      split; [exact E |].
      destruct (negb (String.eqb name EmptyString) && hasScript scripts name) eqn:C;
        [| discriminate H].
      apply andb_true_iff in C. destruct C as [C1 C2].
      split.
      { intros F. subst name. rewrite F in C1. discriminate C1. }
      split; [exact C2 |]. cbn in H. injection H as <-. reflexivity.
    + discriminate H.
Qed.
End GetOptionsFacts.


Section SplitFacts.
Import JsValue.

Lemma append_empty_r (s : string) : (s ++ EmptyString)%string = s.
Proof. induction s as [| c s IH]; cbn; [reflexivity | rewrite IH; reflexivity]. Qed.

Lemma prefix_other_char (c0 c : ascii) (sep' s : string) :
  c <> c0 -> String.prefix (String c0 sep') (String c s) = false.
Proof.
  intros N. cbn. destruct (ascii_dec c0 c) as [E | _]; [| reflexivity].
  exfalso. apply N. symmetry. exact E.
Qed.

Lemma prefix_append (p s : string) : String.prefix p (p ++ s)%string = true.
Proof.
  induction p as [| a p IH]; cbn; [destruct s; reflexivity |].
  destruct (ascii_dec a a) as [_ | N]; [exact IH | contradiction].
Qed.

(** The characters of a separator that was found are passed over. *)
Lemma split_from_skip (sep p s : string) (current : list ascii) :
  split_from sep (String.length p) current (p ++ s)%string = split_from sep 0 current s.
Proof.
  induction p as [| a p IH]; cbn; [reflexivity | exact IH].
Qed.

(** A piece without the first character of the separator is read whole. *)
Lemma split_from_piece (c0 : ascii) (sep' h s : string) (current : list ascii) :
  ~ In c0 (list_ascii_of_string h) ->
  split_from (String c0 sep') 0 current (h ++ s)%string =
  split_from (String c0 sep') 0 (List.rev (list_ascii_of_string h) ++ current) s.
Proof.
  revert current. induction h as [| c h IH]; intros current N; [reflexivity |].
  cbn [append split_from list_ascii_of_string List.rev].
  rewrite prefix_other_char by (intros E; apply N; left; exact E).
  rewrite IH by (intros F; apply N; right; exact F).
  rewrite <- app_assoc. reflexivity.
Qed.

Lemma rev_rev_string (h : string) :
  string_of_list_ascii (List.rev (List.rev (list_ascii_of_string h) ++ [])) = h.
Proof.
  rewrite app_nil_r, rev_involutive. apply string_of_list_ascii_of_string.
Qed.

(** A string without the first character of the separator is one piece. *)
Lemma split_one_piece (c0 : ascii) (sep' h : string) :
  ~ In c0 (list_ascii_of_string h) ->
  split (String c0 sep') h = [h].
Proof.
  intros N. unfold split.
  rewrite <- (append_empty_r h) at 1.
  rewrite split_from_piece by exact N. cbn [split_from].
  rewrite rev_rev_string. reflexivity.
Qed.

(** The first piece ends at the first separator. *)
Lemma split_first_piece (c0 : ascii) (sep' h s : string) :
  ~ In c0 (list_ascii_of_string h) ->
  split (String c0 sep') (h ++ String c0 sep' ++ s)%string = h :: split (String c0 sep') s.
Proof.
  intros N. unfold split.
  rewrite split_from_piece by exact N.
  cbn [append split_from].
  change (String c0 (sep' ++ s)%string) with (String c0 sep' ++ s)%string.
  rewrite prefix_append.
  change (String.length (String c0 sep') - 1) with (String.length sep' - 0).
  rewrite Nat.sub_0_r, split_from_skip, rev_rev_string. reflexivity.
Qed.

(** [split] always gives at least one piece. *)
Lemma split_from_not_nil (sep s : string) (skip : nat) (current : list ascii) :
  split_from sep skip current s <> [].
Proof.
  revert skip current. induction s as [| c s IH]; intros skip current;
    cbn [split_from].
  - intros F. discriminate F.
  - destruct skip as [| skip']; [| apply IH].
    destruct (String.prefix sep (String c s)); [intros F; discriminate F | apply IH].
Qed.
End SplitFacts.


Section GetOptionsReturned.
Import JsValue GetOptions.
Local Open Scope options_scope.
Variable extname : string -> string.

Lemma bind_snd {A B} (m : M A) (k : A -> M B) :
  snd (bind m k) = match snd m with Returns a => snd (k a) | Throws f => Throws f end.
Proof.
  destruct m as [l [a | f]]; cbn; [| reflexivity].
  destruct (k a) as [l' r]. reflexivity.
Qed.

Lemma bind_fst {A B} (m : M A) (k : A -> M B) :
  fst (bind m k) =
  fst m ++ match snd m with Returns a => fst (k a) | Throws _ => [] end.
Proof.
  destruct m as [l [a | f]]; cbn; [| rewrite app_nil_r; reflexivity].
  destruct (k a) as [l' r]. reflexivity.
Qed.

Lemma when_logs_return (cond : bool) (a b : logCall) :
  snd (when cond (log a ;; log b)) = Returns tt.
Proof. destruct cond; reflexivity. Qed.

Lemma read_withBuildScript (key name : string) (options : object) :
  distinct_keys options ->
  read key (withBuildScript name options) =
  if String.eqb key "buildScriptName" then VString name else read key options.
Proof.
  intros D. unfold read, withBuildScript. rewrite get_set.
  destruct (String.eqb key "buildScriptName"); [reflexivity |].
  rewrite get_spread. cbn [assigned]. rewrite (get_rev_distinct key D).
  destruct (JsObject.get key options); reflexivity.
Qed.

(** The options that are returned are the merged ones, but for the name
    of the build script. *)
Lemma read_returned (c : InitialContext) (o : object) (key : string) :
  snd (getOptions extname c) = Returns o ->
  String.eqb key "buildScriptName" = false ->
  read key o = read key (mergedOptions c).
Proof.
  intros H N. apply getOptions_returns in H.
  cbv zeta in H. destruct H as (_ & _ & _ & _ & _ & _ & _ & _ & _ & _ & _ & _ & _ & _ & H).
  destruct (truthy (read "storybookBuildDir" (mergedOptions c))).
  - subst o. reflexivity.
  - destruct H as (scripts & name & _ & _ & _ & _ & ->).
    rewrite read_withBuildScript by apply distinct_mergedOptions.
    rewrite N. reflexivity.
Qed.

Lemma item_0_rev_split (sep s : string) :
  item 0 (List.rev (split sep s)) = Some (List.last (split sep s) EmptyString).
Proof.
  unfold split. pose proof (split_from_not_nil sep s 0 []) as N.
  destruct (split_from sep 0 [] s) as [| a l] using rev_ind; [contradiction |].
  rewrite rev_unit, last_last. reflexivity.
Qed.
End GetOptionsReturned.

(** X1.  Every option but [interactive] comes from the strongest layer
    that has it: [extraOptions], then the flags, then [configuration],
    then the defaults.  A flag that is [undefined] leaves the weaker
    layers in effect, an entry of [extraOptions] or [configuration]
    overrides them even when its value is [undefined]; and the options
    that are returned are these, but for the name of the build script. *)
Theorem getOptions_layers
    (extname : string -> string) (c : GetOptions.InitialContext) (key : string) :
  String.eqb key "interactive" = false ->
  GetOptions.read key (GetOptions.mergedOptions c) = GetOptions.layered key c /\
  (forall o,
      snd (GetOptions.getOptions extname c) = GetOptions.Returns o ->
      String.eqb key "buildScriptName" = false ->
      GetOptions.read key o = GetOptions.layered key c).
Proof.
  intros N. split; [apply read_mergedOptions; exact N |].
  intros o H B. rewrite (read_returned extname c key H B).
  apply read_mergedOptions. exact N.
Qed.

Lemma getOptions_layers_witness :
  let configured := Some [("zip", JsValue.VBool true); ("projectToken", JsValue.VString "file-code")] in
  let c := OptionsScenario.context
             (OptionsScenario.patch_flags None None None) configured
             (Some [("skip", JsValue.VUndefined)]) in
  GetOptions.read "projectToken" (GetOptions.mergedOptions c) = JsValue.VString "cli-code" /\
  GetOptions.read "zip" (GetOptions.mergedOptions c) = JsValue.VBool true.
Proof.
  intros configured c. split.
  - destruct (getOptions_layers OptionsScenario.extname c "projectToken" eq_refl) as [E _].
    rewrite E. reflexivity.
  - destruct (getOptions_layers OptionsScenario.extname c "zip" eq_refl) as [E _].
    rewrite E. reflexivity.
Defined.

(** X2.  [getOptions] returns only options with a project token, and
    without one, from the flags, the configuration, the environment or
    [extraOptions], the first thing it throws is [missingProjectToken]. *)
Theorem getOptions_projectToken
    (extname : string -> string) (c : GetOptions.InitialContext) :
  (forall o,
      snd (GetOptions.getOptions extname c) = GetOptions.Returns o ->
      JsValue.truthy (GetOptions.read "projectToken" o) = true) /\
  (JsValue.truthy (GetOptions.layered "projectToken" c) = false ->
   snd (GetOptions.getOptions extname c) = GetOptions.Throws GetOptions.missingProjectToken).
Proof.
  split.
  - intros o H. rewrite (read_returned extname c "projectToken" H eq_refl).
    apply getOptions_returns in H. cbv zeta in H. exact (proj1 H).
  - intros T. rewrite <- read_mergedOptions in T by reflexivity.
    unfold GetOptions.getOptions. cbv zeta.
    rewrite bind_snd, when_logs_return, bind_snd, T. reflexivity.
Qed.

Lemma getOptions_projectToken_witness :
  let c := OptionsScenario.context
             (OptionsScenario.patch_flags (Some "feature...main") None None) None None in
  exists o,
    snd (GetOptions.getOptions OptionsScenario.extname c) = GetOptions.Returns o /\
    JsValue.truthy (GetOptions.read "projectToken" o) = true.
Proof.
  intros c.
  destruct (snd (GetOptions.getOptions OptionsScenario.extname c)) as [o | f] eqn:E;
    [| vm_compute in E; discriminate E].
  exists o. split; [reflexivity |].
  exact (proj1 (getOptions_projectToken OptionsScenario.extname c) o E).
Defined.


(** X3.  The options [getOptions] returns are compatible: at most one of
    [onlyChanged], [onlyStoryFiles] and [onlyStoryNames] is set;
    [untraced], [externals] and [traceChanged] are set only together with
    [onlyChanged]; [junitReport] is never set together with
    [exitOnceUploaded], and a report path has the extension [.xml]. *)
Theorem getOptions_compatible_options
    (extname : string -> string) (c : GetOptions.InitialContext) (o : GetOptions.object) :
  snd (GetOptions.getOptions extname c) = GetOptions.Returns o ->
  let on key := JsValue.truthy (GetOptions.read key o) in
  on "onlyChanged" && on "onlyStoryFiles" = false /\
  on "onlyChanged" && on "onlyStoryNames" = false /\
  on "onlyStoryNames" && on "onlyStoryFiles" = false /\
  (on "untraced" || on "externals" || on "traceChanged" = true -> on "onlyChanged" = true) /\
  on "junitReport" && on "exitOnceUploaded" = false /\
  (forall report,
      GetOptions.read "junitReport" o = JsValue.VString report -> extname report = ".xml").
Proof.
  intros H on. subst on. cbv beta.
  rewrite !(read_returned extname c _ H) by reflexivity.
  apply getOptions_returns in H. cbv zeta in H.
  destruct H as (_ & _ & _ & _ & _ & _ & A & B & C & D & E & F & G & J & _).
  split; [exact A |]. split; [exact B |]. split; [exact C |].
  split; [| split; [exact G | exact J]].
  destruct (JsValue.truthy (GetOptions.read "onlyChanged" (GetOptions.mergedOptions c)));
    [reflexivity |].
  rewrite andb_true_r in D, E, F. rewrite D, E, F. intros X. discriminate X.
Qed.

Lemma getOptions_compatible_options_witness :
  let f := OptionsScenario.turbo_flags (JsValue.VString EmptyString)
             (JsValue.VArray [JsValue.VString "package.json"])
             (JsValue.VString "report.xml") JsValue.VUndefined in
  let c := OptionsScenario.context f None None in
  exists o,
    snd (GetOptions.getOptions OptionsScenario.extname c) = GetOptions.Returns o /\
    JsValue.truthy (GetOptions.read "untraced" o) = true /\
    JsValue.truthy (GetOptions.read "onlyChanged" o) = true.
Proof.
  intros f c.
  destruct (snd (GetOptions.getOptions OptionsScenario.extname c)) as [o | e] eqn:E;
    [| vm_compute in E; discriminate E].
  exists o. split; [reflexivity |].
  destruct (getOptions_compatible_options OptionsScenario.extname c E)
    as (_ & _ & _ & D & _).
  assert (U : JsValue.truthy (GetOptions.read "untraced" o) = true).
  { vm_compute in E. injection E as <-. reflexivity. }
  split; [exact U |]. apply D. rewrite U. reflexivity.
Defined.

Section BuildScriptFacts.
Import JsValue GetOptions.

Lemma get_of_entry (V : Type) (k : string) (v : V) (o : JsObject.t V) :
  In (k, v) o -> JsObject.get k o <> None.
Proof.
  induction o as [| [k' v'] o IH]; intros I; [destruct I |].
  cbn. destruct (String.eqb k k') eqn:E; [intros F; discriminate F |].
  destruct I as [I | I]; [| exact (IH I)].
  injection I as -> ->. rewrite String.eqb_refl in E. discriminate E.
Qed.

(** The name the code falls back on is never one that only
    [Object.prototype] answers for. *)
Lemma defaultBuildScriptName_own (scripts : JsObject.t string) :
  hasScript scripts (defaultBuildScriptName scripts) = true ->
  JsObject.get (defaultBuildScriptName scripts) scripts <> None.
Proof.
  unfold defaultBuildScriptName.
  destruct (hasScript scripts "build-storybook") eqn:B.
  - intros _. unfold hasScript in B.
    destruct (JsObject.get "build-storybook" scripts); [intros F; discriminate F |].
    vm_compute in B. discriminate B.
  - destruct (List.find _ (JsObject.entries scripts)) as [[key script] |] eqn:F.
    + destruct (String.eqb key EmptyString).
      * intros H. rewrite B in H. discriminate H.
      * intros _. apply List.find_some in F. destruct F as [I _].
        exact (get_of_entry _ _ _ I).
    + intros H. rewrite B in H. discriminate H.
Qed.
End BuildScriptFacts.

(** X4.  What [getOptions] returns names exactly one source of the build:
    either [storybookBuildDir] is set and [buildScriptName] is not, or
    [storybookBuildDir] is not set and [buildScriptName] is a string that
    is not empty and for which [scripts[buildScriptName]] is truthy.  The
    lookup is truthy in two ways: [package.json] has a script of that
    name that is not empty, or it has no entry of that name and the name
    is one that every object inherits from [Object.prototype]
    ([constructor], [toString], ...); the second happens only for a name
    that the options themselves gave, never for the name the code falls
    back on. *)
Theorem getOptions_build_source
    (extname : string -> string) (c : GetOptions.InitialContext) (o : GetOptions.object) :
  snd (GetOptions.getOptions extname c) = GetOptions.Returns o ->
  (JsValue.truthy (GetOptions.read "storybookBuildDir" o) = true /\
   JsValue.truthy (GetOptions.read "buildScriptName" o) = false)
  \/
  (JsValue.truthy (GetOptions.read "storybookBuildDir" o) = false /\
   exists scripts name,
     GetOptions.packageJson_scripts c = Some scripts /\
     GetOptions.read "buildScriptName" o = JsValue.VString name /\
     name <> EmptyString /\
     ((exists script, JsObject.get name scripts = Some script /\ script <> EmptyString)
      \/
      (JsObject.get name scripts = None /\
       GetOptions.inherited name = true /\
       GetOptions.read "buildScriptName" (GetOptions.mergedOptions c) = JsValue.VString name))).
Proof.
  intros H. rewrite (read_returned extname c "storybookBuildDir" H eq_refl).
  apply getOptions_returns in H. cbv zeta in H.
  destruct H as (_ & _ & _ & _ & _ & S & _ & _ & _ & _ & _ & _ & _ & _ & R).
  destruct (JsValue.truthy (GetOptions.read "storybookBuildDir" (GetOptions.mergedOptions c))).
  - left. subst o. rewrite andb_true_r in S. split; [reflexivity | exact S].
  - right. split; [reflexivity |].
    destruct R as (scripts & name & P & G & N & HS & ->).
    exists scripts, name. rewrite read_withBuildScript by apply distinct_mergedOptions.
    split; [exact P |]. split; [reflexivity |]. split; [exact N |].
    destruct (JsObject.get name scripts) as [script |] eqn:Own.
    + left. exists script. split; [reflexivity |].
      unfold GetOptions.hasScript in HS. rewrite Own in HS.
      intros ->. discriminate HS.
    + right. split; [reflexivity |].
      assert (I : GetOptions.inherited name = true).
      { unfold GetOptions.hasScript in HS. rewrite Own in HS. exact HS. }
      split; [exact I |].
      destruct (GetOptions.read "buildScriptName" (GetOptions.mergedOptions c));
        try (subst name; exfalso; exact (defaultBuildScriptName_own scripts HS Own)).
      subst name. reflexivity.
Qed.

Lemma getOptions_build_source_witness :
  let c := OptionsScenario.context (OptionsScenario.patch_flags None None None) None None in
  exists o,
    snd (GetOptions.getOptions OptionsScenario.extname c) = GetOptions.Returns o /\
    GetOptions.read "buildScriptName" o = JsValue.VString "otherBuildStorybook".
Proof.
  intros c.
  destruct (snd (GetOptions.getOptions OptionsScenario.extname c)) as [o | e] eqn:E;
    [| vm_compute in E; discriminate E].
  exists o. split; [reflexivity |].
  destruct (getOptions_build_source OptionsScenario.extname c E)
    as [[S _] | (_ & s & n & _ & R & _)].
  - vm_compute in E. injection E as <-. discriminate S.
  - vm_compute in E. injection E as <-. reflexivity.
Defined.


(** A build script named [constructor] passes the check although
    [package.json] has no such script. *)
Example getOptions_inherited_build_script :
  let c := OptionsScenario.context (OptionsScenario.patch_flags None None None) None
             (Some [("buildScriptName", JsValue.VString "constructor")]) in
  JsObject.get "constructor" OptionsScenario.scripts = None /\
  exists o,
    snd (GetOptions.getOptions OptionsScenario.extname c) = GetOptions.Returns o /\
    GetOptions.read "buildScriptName" o = JsValue.VString "constructor".
Proof.
  intros c. split; [reflexivity |].
  destruct (snd (GetOptions.getOptions OptionsScenario.extname c)) as [o | e] eqn:E;
    [| vm_compute in E; discriminate E].
  exists o. split; [reflexivity |].
  vm_compute in E. injection E as <-. reflexivity.
Qed.

Section GetOptionsParsing.
Import JsValue GetOptions.

Lemma get_flag_patchHeadRef (f : Flags) :
  JsObject.get "patchHeadRef" (flagOptions f) = Some (of_option (item 0 (patchRefs f))).
Proof. reflexivity. Qed.

Lemma get_flag_patchBaseRef (f : Flags) :
  JsObject.get "patchBaseRef" (flagOptions f) = Some (of_option (item 1 (patchRefs f))).
Proof. reflexivity. Qed.

Lemma get_flag_branchName (f : Flags) :
  JsObject.get "branchName" (flagOptions f) = Some (of_option (item 0 (branchParts f))).
Proof. reflexivity. Qed.

Lemma get_flag_ownerName (f : Flags) :
  JsObject.get "ownerName" (flagOptions f) =
  Some (or_else (of_option (item 1 (branchParts f))) (of_option (item 0 (slugParts f)))).
Proof. reflexivity. Qed.

Lemma nonempty_eqb (s : string) : s <> EmptyString -> String.eqb s EmptyString = false.
Proof.
  intros N. destruct (String.eqb s EmptyString) eqn:E; [| reflexivity].
  apply String.eqb_eq in E. contradiction.
Qed.

(** [head...base] is read as the two refs. *)
Lemma patchRefs_parse (f : Flags) (head base : string) :
  patchBuild f = Some (head ++ "..." ++ base)%string ->
  ~ In "."%char (list_ascii_of_string head) ->
  ~ In "."%char (list_ascii_of_string base) ->
  head <> EmptyString -> base <> EmptyString ->
  patchRefs f = [head; base].
Proof.
  intros P Nh Nb Eh Eb. unfold patchRefs. rewrite P.
  rewrite split_first_piece by exact Nh. rewrite split_one_piece by exact Nb.
  unfold nonempty_strings. cbn [List.filter].
  rewrite (nonempty_eqb Eh), (nonempty_eqb Eb). reflexivity.
Qed.

(** [owner:branch] is read as the branch and its owner. *)
Lemma branchParts_parse (f : Flags) (owner branch : string) :
  branchName f = Some (owner ++ ":" ++ branch)%string ->
  ~ In ":"%char (list_ascii_of_string owner) ->
  ~ In ":"%char (list_ascii_of_string branch) ->
  branchParts f = [branch; owner].
Proof.
  intros B No Nb. unfold branchParts. rewrite B.
  rewrite split_first_piece by exact No. rewrite split_one_piece by exact Nb.
  reflexivity.
Qed.
End GetOptionsParsing.

(** X5.  With [--patch-build], [getOptions] returns only options whose
    two patch refs are set and are not the same string.  A flag
    [head...base], where neither ref is empty or has a dot, sets
    [patchHeadRef] to [head] and [patchBaseRef] to [base] unless
    [extraOptions] says otherwise, and is refused when [head] is
    [base]. *)
Theorem getOptions_patchBuild
    (extname : string -> string) (c : GetOptions.InitialContext) (o : GetOptions.object) :
  snd (GetOptions.getOptions extname c) = GetOptions.Returns o ->
  (truthy_string (GetOptions.patchBuild (GetOptions.flags c)) = true ->
     JsValue.truthy (GetOptions.read "patchHeadRef" o) = true /\
     JsValue.truthy (GetOptions.read "patchBaseRef" o) = true /\
     JsValue.strict_eq (GetOptions.read "patchHeadRef" o)
                       (GetOptions.read "patchBaseRef" o) = false)
  /\
  (forall head base,
     GetOptions.patchBuild (GetOptions.flags c) = Some (head ++ "..." ++ base)%string ->
     ~ In "."%char (list_ascii_of_string head) ->
     ~ In "."%char (list_ascii_of_string base) ->
     head <> EmptyString -> base <> EmptyString ->
     GetOptions.assigned "patchHeadRef" (GetOptions.extraOptions c) = None ->
     GetOptions.assigned "patchBaseRef" (GetOptions.extraOptions c) = None ->
     GetOptions.read "patchHeadRef" o = JsValue.VString head /\
     GetOptions.read "patchBaseRef" o = JsValue.VString base /\
     head <> base).
Proof.
  intros H.
  pose proof (read_returned extname c "patchHeadRef" H eq_refl) as Rh.
  pose proof (read_returned extname c "patchBaseRef" H eq_refl) as Rb.
  apply getOptions_returns in H. cbv zeta in H.
  destruct H as (_ & _ & _ & P & _).
  rewrite Rh, Rb. split; [exact P |].
  intros head base F Nh Nb Eh Eb Xh Xb.
  assert (R : GetOptions.patchRefs (GetOptions.flags c) = [head; base])
    by (eapply patchRefs_parse; eassumption).
  assert (T : truthy_string (GetOptions.patchBuild (GetOptions.flags c)) = true).
  { rewrite F. cbn [truthy_string]. destruct head; [contradiction | reflexivity]. }
  destruct (P T) as (_ & _ & D).
  rewrite !read_mergedOptions in * by reflexivity.
  unfold GetOptions.layered in *.
  rewrite Xh, Xb, get_flag_patchHeadRef, get_flag_patchBaseRef, R in *.
  cbn in D |- *. split; [reflexivity | split; [reflexivity |]].
  intros E. subst base. rewrite String.eqb_refl in D. discriminate D.
Qed.

Lemma getOptions_patchBuild_witness :
  let c := OptionsScenario.context
             (OptionsScenario.patch_flags (Some "feature...main") None None) None None in
  exists o,
    snd (GetOptions.getOptions OptionsScenario.extname c) = GetOptions.Returns o /\
    GetOptions.read "patchHeadRef" o = JsValue.VString "feature" /\
    GetOptions.read "patchBaseRef" o = JsValue.VString "main".
Proof.
  intros c.
  destruct (snd (GetOptions.getOptions OptionsScenario.extname c)) as [o | e] eqn:E;
    [| vm_compute in E; discriminate E].
  exists o. split; [reflexivity |].
  destruct (getOptions_patchBuild OptionsScenario.extname c E) as [_ P].
  assert (Nf : ~ In "."%char (list_ascii_of_string "feature")).
  { cbn. intuition discriminate. }
  assert (Nm : ~ In "."%char (list_ascii_of_string "main")).
  { cbn. intuition discriminate. }
  assert (Ef : "feature" <> EmptyString) by discriminate.
  assert (Em : "main" <> EmptyString) by discriminate.
  destruct (P "feature" "main" eq_refl Nf Nm Ef Em eq_refl eq_refl) as (A & B & _).
  split; [exact A | exact B].
Defined.

(** X6.  When [getOptions] returns, a repository slug that starts with an
    owner is exactly [owner/name] with a name that is not empty, and an
    owner given with the branch, [owner:branch], is the owner of the
    slug. *)
Theorem getOptions_repositorySlug
    (extname : string -> string) (c : GetOptions.InitialContext) (o : GetOptions.object) :
  snd (GetOptions.getOptions extname c) = GetOptions.Returns o ->
  (forall slug,
     GetOptions.repositorySlug (GetOptions.flags c) = Some slug ->
     (exists rest, JsValue.split "/" slug = EmptyString :: rest) \/
     (exists owner name,
        JsValue.split "/" slug = [owner; name] /\
        owner <> EmptyString /\ name <> EmptyString))
  /\
  (forall branchOwner branch owner rest,
     GetOptions.branchName (GetOptions.flags c) = Some (branchOwner ++ ":" ++ branch)%string ->
     ~ In ":"%char (list_ascii_of_string branchOwner) ->
     ~ In ":"%char (list_ascii_of_string branch) ->
     GetOptions.repositorySlug (GetOptions.flags c) = Some (owner ++ "/" ++ rest)%string ->
     ~ In "/"%char (list_ascii_of_string owner) ->
     branchOwner <> EmptyString -> owner <> EmptyString ->
     branchOwner = owner).
Proof.
  intros H. apply getOptions_returns in H. cbv zeta in H.
  destruct H as (_ & S & B & _). split.
  - intros slug E. unfold GetOptions.slugParts in S. rewrite E in S.
    pose proof (split_from_not_nil "/" slug 0 []) as N. fold (JsValue.split "/" slug) in N.
    destruct (JsValue.split "/" slug) as [| owner [| name rest]]; [contradiction | |].
    + cbn in S. destruct (String.eqb owner EmptyString) eqn:Eo.
      * apply String.eqb_eq in Eo. subst owner. left. exists []. reflexivity.
      * discriminate S.
    + cbn in S. destruct (String.eqb owner EmptyString) eqn:Eo.
      * apply String.eqb_eq in Eo. subst owner. left. exists (name :: rest). reflexivity.
      * right. cbn in S. apply orb_false_iff in S. destruct S as [S1 S2].
        apply negb_false_iff in S1, S2. apply negb_true_iff in S1.
        destruct rest; [| discriminate S2].
        exists owner, name. split; [reflexivity |]. split.
        -- intros F. subst owner. discriminate Eo.
        -- intros F. subst name. discriminate S1.
  - intros bo branch owner rest Eb Nbo Nbr Es No Bne One.
    assert (BP : GetOptions.branchParts (GetOptions.flags c) = [branch; bo])
      by (eapply branchParts_parse; eassumption).
    apply (B bo owner).
    + rewrite BP. reflexivity.
    + unfold GetOptions.slugParts. rewrite Es.
      rewrite split_first_piece by exact No. reflexivity.
    + exact Bne.
    + exact One.
Qed.

Lemma getOptions_repositorySlug_witness :
  let c := OptionsScenario.context
             (OptionsScenario.patch_flags None (Some "chromaui:feature")
                (Some "chromaui/chromatic-cli")) None None in
  exists o,
    snd (GetOptions.getOptions OptionsScenario.extname c) = GetOptions.Returns o /\
    JsValue.split "/" "chromaui/chromatic-cli" = ["chromaui"; "chromatic-cli"].
Proof.
  intros c.
  destruct (snd (GetOptions.getOptions OptionsScenario.extname c)) as [o | e] eqn:E;
    [| vm_compute in E; discriminate E].
  exists o. split; [reflexivity |].
  destruct (getOptions_repositorySlug OptionsScenario.extname c E) as [S _].
  destruct (S "chromaui/chromatic-cli" eq_refl) as [[rest F] | (owner & name & F & _)].
  - vm_compute in F. discriminate F.
  - vm_compute in F. injection F as <- <-. reflexivity.
Defined.


(** X7.  A branch flag [owner:branch] sets [branchName] to the branch
    and, when the owner is not empty, [ownerName] to the owner, unless
    [extraOptions] says otherwise. *)
Theorem getOptions_branch_owner
    (extname : string -> string) (c : GetOptions.InitialContext) (o : GetOptions.object)
    (owner branch : string) :
  snd (GetOptions.getOptions extname c) = GetOptions.Returns o ->
  GetOptions.branchName (GetOptions.flags c) = Some (owner ++ ":" ++ branch)%string ->
  ~ In ":"%char (list_ascii_of_string owner) ->
  ~ In ":"%char (list_ascii_of_string branch) ->
  (GetOptions.assigned "branchName" (GetOptions.extraOptions c) = None ->
   GetOptions.read "branchName" o = JsValue.VString branch) /\
  (GetOptions.assigned "ownerName" (GetOptions.extraOptions c) = None ->
   owner <> EmptyString ->
   GetOptions.read "ownerName" o = JsValue.VString owner).
Proof.
  intros H B No Nb.
  assert (BP : GetOptions.branchParts (GetOptions.flags c) = [branch; owner])
    by (eapply branchParts_parse; eassumption).
  rewrite (read_returned extname c "branchName" H eq_refl).
  rewrite (read_returned extname c "ownerName" H eq_refl).
  rewrite !read_mergedOptions by reflexivity. unfold GetOptions.layered.
  rewrite get_flag_branchName, get_flag_ownerName, BP. cbn [GetOptions.item nth_error].
  split.
  - intros X. rewrite X. reflexivity.
  - intros X N. rewrite X. unfold JsValue.or_else. cbn [JsValue.of_option JsValue.truthy].
    rewrite (nonempty_eqb N). reflexivity.
Qed.

Lemma getOptions_branch_owner_witness :
  let c := OptionsScenario.context
             (OptionsScenario.patch_flags None (Some "chromaui:feature") None) None None in
  exists o,
    snd (GetOptions.getOptions OptionsScenario.extname c) = GetOptions.Returns o /\
    GetOptions.read "branchName" o = JsValue.VString "feature" /\
    GetOptions.read "ownerName" o = JsValue.VString "chromaui".
Proof.
  intros c.
  destruct (snd (GetOptions.getOptions OptionsScenario.extname c)) as [o | e] eqn:E;
    [| vm_compute in E; discriminate E].
  exists o. split; [reflexivity |].
  assert (No : ~ In ":"%char (list_ascii_of_string "chromaui")).
  { cbn. intuition discriminate. }
  assert (Nb : ~ In ":"%char (list_ascii_of_string "feature")).
  { cbn. intuition discriminate. }
  destruct (@getOptions_branch_owner OptionsScenario.extname c o "chromaui" "feature"
              E eq_refl No Nb) as [A B].
  split; [exact (A eq_refl) | apply (B eq_refl); discriminate].
Defined.

(** X8.  [branchName] never comes from the configuration: without an
    entry in [extraOptions] it is the last piece, after the last colon,
    of the branch flag, and the empty string when the flag is not
    given. *)
Theorem getOptions_branchName_ignores_configuration (c : GetOptions.InitialContext) :
  GetOptions.assigned "branchName" (GetOptions.extraOptions c) = None ->
  GetOptions.read "branchName" (GetOptions.mergedOptions c) =
  JsValue.VString
    (List.last
       (JsValue.split ":"
          (match GetOptions.branchName (GetOptions.flags c) with
           | Some s => s
           | None => EmptyString
           end))
       EmptyString).
Proof.
  intros X. rewrite read_mergedOptions by reflexivity. unfold GetOptions.layered.
  rewrite X, get_flag_branchName. unfold GetOptions.branchParts.
  rewrite item_0_rev_split. reflexivity.
Qed.

Lemma getOptions_branchName_ignores_configuration_witness :
  let c := OptionsScenario.context OptionsScenario.no_flags
             (Some [("branchName", JsValue.VString "from-the-file")]) None in
  GetOptions.read "branchName" (GetOptions.mergedOptions c) = JsValue.VString EmptyString.
Proof.
  intros c. rewrite (getOptions_branchName_ignores_configuration c eq_refl). reflexivity.
Defined.

(** X9.  [interactive] is computed, not taken from any layer: it is true
    only outside CI, without the [ci] and [debug] flags, with the
    [interactive] flag, on a terminal and outside the tests, whatever
    [extraOptions] or the configuration say. *)
Theorem getOptions_interactive
    (extname : string -> string) (c : GetOptions.InitialContext) (o : GetOptions.object) :
  snd (GetOptions.getOptions extname c) = GetOptions.Returns o ->
  GetOptions.read "interactive" o = JsValue.VBool (GetOptions.interactiveOption c) /\
  (GetOptions.read "interactive" o = JsValue.VBool true ->
     truthy_string (GetOptions.process_env_CI c) = false /\
     JsValue.truthy (GetOptions.ci (GetOptions.flags c)) = false /\
     JsValue.truthy (GetOptions.debug (GetOptions.flags c)) = false /\
     JsValue.truthy (GetOptions.interactive (GetOptions.flags c)) = true /\
     GetOptions.process_stdout_isTTY c = true /\
     GetOptions.process_env_NODE_ENV c <> Some "test").
Proof.
  intros H. rewrite (read_returned extname c "interactive" H eq_refl), read_interactive.
  split; [reflexivity |]. intros E. injection E as E.
  unfold GetOptions.interactiveOption in E.
  repeat (apply andb_true_iff in E; destruct E as [E ?]).
  repeat match goal with
         | X : negb _ = true |- _ => apply negb_true_iff in X
         end.
  repeat split; try assumption.
  intros F. rewrite F in *. discriminate.
Qed.

Lemma getOptions_interactive_witness :
  let c := OptionsScenario.ci_context (OptionsScenario.patch_flags None None None)
             (Some [("interactive", JsValue.VBool true)]) in
  exists o,
    snd (GetOptions.getOptions OptionsScenario.extname c) = GetOptions.Returns o /\
    GetOptions.read "interactive" o = JsValue.VBool false.
Proof.
  intros c.
  destruct (snd (GetOptions.getOptions OptionsScenario.extname c)) as [o | e] eqn:E;
    [| vm_compute in E; discriminate E].
  exists o. split; [reflexivity |].
  destruct (getOptions_interactive OptionsScenario.extname c E) as [I _].
  rewrite I. reflexivity.
Defined.

(** X10.  When [getOptions] returns, [onlyStoryNames] is [undefined],
    [null] or an array, and every glob of the array has a slash between
    two characters that are a letter, a digit, an underscore or a star. *)
Theorem getOptions_onlyStoryNames
    (extname : string -> string) (c : GetOptions.InitialContext) (o : GetOptions.object) :
  snd (GetOptions.getOptions extname c) = GetOptions.Returns o ->
  match GetOptions.read "onlyStoryNames" o with
  | JsValue.VUndefined | JsValue.VNull => True
  | JsValue.VArray globs =>
      Forall (fun glob => GetOptions.storyNamePattern (JsValue.to_string glob) = true) globs
  | _ => False
  end.
Proof.
  intros H. rewrite (read_returned extname c "onlyStoryNames" H eq_refl).
  apply getOptions_returns in H. cbv zeta in H.
  destruct H as (_ & _ & _ & _ & S & _).
  unfold GetOptions.checkOnlyStoryNames in S.
  destruct (GetOptions.read "onlyStoryNames" (GetOptions.mergedOptions c))
    as [| | b | s | globs]; try exact I; try discriminate S.
  apply guard_returns in S. apply Forall_forall. intros glob G.
  destruct (GetOptions.storyNamePattern (JsValue.to_string glob)) eqn:P; [reflexivity |].
  assert (E : List.existsb
                (fun glob => negb (GetOptions.storyNamePattern (JsValue.to_string glob)))
                globs = true).
  { apply List.existsb_exists. exists glob. split; [exact G | rewrite P; reflexivity]. }
  rewrite E in S. discriminate S.
Qed.

Lemma getOptions_onlyStoryNames_witness :
  let f := OptionsScenario.turbo_flags JsValue.VUndefined JsValue.VUndefined
             JsValue.VUndefined (JsValue.VString "Pages/**") in
  let c := OptionsScenario.context f None None in
  exists o,
    snd (GetOptions.getOptions OptionsScenario.extname c) = GetOptions.Returns o /\
    GetOptions.read "onlyStoryNames" o = JsValue.VArray [JsValue.VString "Pages/**"] /\
    GetOptions.storyNamePattern "Pages/**" = true.
Proof.
  intros f c.
  destruct (snd (GetOptions.getOptions OptionsScenario.extname c)) as [o | e] eqn:E;
    [| vm_compute in E; discriminate E].
  exists o. split; [reflexivity |].
  pose proof (getOptions_onlyStoryNames OptionsScenario.extname c E) as S.
  assert (R : GetOptions.read "onlyStoryNames" o = JsValue.VArray [JsValue.VString "Pages/**"]).
  { vm_compute in E. injection E as <-. reflexivity. }
  split; [exact R |]. rewrite R in S.
  inversion S as [| ? ? P _]. exact P.
Defined.


Section ArrayFlags.
Import JsValue GetOptions.

Lemma undefinedIfEmpty_clean (array : list value) :
  match undefinedIfEmpty array with
  | VUndefined => Forall (fun v => truthy v = false) array
  | VArray kept =>
      kept = List.filter truthy array /\ kept <> [] /\
      Forall (fun v => truthy v = true) kept
  | _ => False
  end.
Proof.
  unfold undefinedIfEmpty.
  destruct (List.filter truthy array) as [| v kept] eqn:F.
  - apply Forall_forall. intros v I. destruct (truthy v) eqn:T; [| reflexivity].
    assert (I' : In v (List.filter truthy array)) by (apply filter_In; split; assumption).
    rewrite F in I'. contradiction.
  - split; [reflexivity |]. split; [discriminate |].
    rewrite <- F. apply Forall_forall. intros x I. apply filter_In in I. exact (proj2 I).
Qed.

Lemma get_flag_arrays (f : Flags) :
  JsObject.get "onlyStoryFiles" (flagOptions f)
    = Some (undefinedIfEmpty (ensureArray (onlyStoryFiles f))) /\
  JsObject.get "onlyStoryNames" (flagOptions f)
    = Some (undefinedIfEmpty (ensureArray (or_else (onlyStoryNames f) (only f)))) /\
  JsObject.get "untraced" (flagOptions f)
    = Some (undefinedIfEmpty (ensureArray (untraced f))) /\
  JsObject.get "externals" (flagOptions f)
    = Some (undefinedIfEmpty (ensureArray (externals f))).
Proof. repeat split. Qed.
End ArrayFlags.

(** X11.  The flags that take a list ([onlyStoryFiles],
    [onlyStoryNames], [untraced], [externals]) give the options either
    nothing or an array that is not empty and holds no [undefined], no
    empty string and no other falsy value. *)
Theorem optionsFromFlags_arrays (f : GetOptions.Flags) (key : string) :
  In key ["onlyStoryFiles"; "onlyStoryNames"; "untraced"; "externals"] ->
  match JsObject.get key (GetOptions.optionsFromFlags f) with
  | None => True
  | Some (JsValue.VArray kept) =>
      kept <> [] /\ Forall (fun v => JsValue.truthy v = true) kept
  | Some _ => False
  end.
Proof.
  intros K. unfold GetOptions.optionsFromFlags.
  rewrite get_stripUndefined by apply distinct_flagOptions.
  destruct (get_flag_arrays f) as (A & B & C & D).
  assert (G : exists array,
             JsObject.get key (GetOptions.flagOptions f)
             = Some (GetOptions.undefinedIfEmpty array)).
  { cbn in K. destruct K as [<- | [<- | [<- | [<- | []]]]]; eexists; eassumption. }
  destruct G as (array & ->).
  pose proof (undefinedIfEmpty_clean array) as U.
  destruct (GetOptions.undefinedIfEmpty array) as [| | b | s | kept];
    try exact I; try contradiction.
  destruct U as (_ & N & T). split; assumption.
Qed.

Lemma optionsFromFlags_arrays_witness :
  let f := OptionsScenario.turbo_flags JsValue.VUndefined
             (JsValue.VArray [JsValue.VString EmptyString; JsValue.VString "package.json"])
             JsValue.VUndefined JsValue.VUndefined in
  JsObject.get "untraced" (GetOptions.optionsFromFlags f)
    = Some (JsValue.VArray [JsValue.VString "package.json"]) /\
  JsObject.get "externals" (GetOptions.optionsFromFlags f) = None /\
  JsObject.get "onlyStoryFiles" (GetOptions.optionsFromFlags f) = None.
Proof.
  intros f.
  pose proof (@optionsFromFlags_arrays f "untraced"
                (or_intror (or_intror (or_introl eq_refl)))) as U.
  destruct (JsObject.get "untraced" (GetOptions.optionsFromFlags f)) as [[| | | | kept] |] eqn:E;
    try contradiction; vm_compute in E; try discriminate E.
  injection E as <-. repeat split.
Defined.

Section DefaultScript.
Import JsValue GetOptions.

Lemma find_first {A} (p : A -> bool) (l : list A) (x : A) :
  List.find p l = Some x ->
  exists before after,
    l = before ++ x :: after /\ p x = true /\ Forall (fun y => p y = false) before.
Proof.
  induction l as [| a l IH]; cbn; [discriminate |].
  destruct (p a) eqn:P.
  - intros [= <-]. exists [], l. repeat split; [exact P | constructor].
  - intros F. destruct (IH F) as (before & after & -> & Px & Fb).
    exists (a :: before), after. repeat split; [exact Px |].
    constructor; assumption.
Qed.

(** The default name is [build-storybook], or the key of the first script
    that starts with it when no script has that name. *)
Lemma defaultBuildScriptName_choice (scripts : JsObject.t string) :
  let name := defaultBuildScriptName scripts in
  name = "build-storybook" \/
  (hasScript scripts "build-storybook" = false /\
   name <> EmptyString /\
   exists before script after,
     scripts = before ++ (name, script) :: after /\
     String.prefix "build-storybook" script = true /\
     Forall (fun kv => String.prefix "build-storybook" (snd kv) = false) before).
Proof.
  unfold defaultBuildScriptName.
  destruct (hasScript scripts "build-storybook"); [left; reflexivity |].
  destruct (List.find (fun kv => String.prefix "build-storybook" (snd kv))
                      (JsObject.entries scripts)) as [[key script] |] eqn:F;
    [| left; reflexivity].
  destruct (String.eqb key EmptyString) eqn:E; [left; reflexivity |].
  right. split; [reflexivity |]. split.
  { intros K. subst key. discriminate E. }
  apply find_first in F. destruct F as (before & after & S & P & B).
  exists before, script, after. repeat split; assumption.
Qed.
End DefaultScript.

(** X12.  Without [storybookBuildDir] and without a build script name
    that is a string, [getOptions] returns [build-storybook] as the name,
    or, when [package.json] has no script of that name, the key of its
    first script whose command starts with [build-storybook]. *)
Theorem getOptions_default_build_script
    (extname : string -> string) (c : GetOptions.InitialContext) (o : GetOptions.object) :
  snd (GetOptions.getOptions extname c) = GetOptions.Returns o ->
  JsValue.truthy (GetOptions.layered "storybookBuildDir" c) = false ->
  JsValue.is_string (GetOptions.layered "buildScriptName" c) = false ->
  exists scripts name,
    GetOptions.packageJson_scripts c = Some scripts /\
    GetOptions.read "buildScriptName" o = JsValue.VString name /\
    (name = "build-storybook" \/
     (GetOptions.hasScript scripts "build-storybook" = false /\
      exists before script after,
        scripts = before ++ (name, script) :: after /\
        String.prefix "build-storybook" script = true /\
        Forall (fun kv => String.prefix "build-storybook" (snd kv) = false) before)).
Proof.
  intros H D B. rewrite <- read_mergedOptions in D, B by reflexivity.
  apply getOptions_returns in H. cbv zeta in H.
  destruct H as (_ & _ & _ & _ & _ & _ & _ & _ & _ & _ & _ & _ & _ & _ & R).
  rewrite D in R. destruct R as (scripts & name & S & N & _ & _ & ->).
  exists scripts, name. split; [exact S |].
  rewrite read_withBuildScript by apply distinct_mergedOptions.
  split; [reflexivity |].
  assert (E : name = GetOptions.defaultBuildScriptName scripts).
  { destruct (GetOptions.read "buildScriptName" (GetOptions.mergedOptions c));
      try exact N. discriminate B. }
  rewrite E. destruct (defaultBuildScriptName_choice scripts) as [L | (Hs & _ & X)].
  - left. exact L.
  - right. split; [exact Hs | exact X].
Qed.

Lemma getOptions_default_build_script_witness :
  let c := OptionsScenario.context (OptionsScenario.patch_flags None None None) None None in
  exists o,
    snd (GetOptions.getOptions OptionsScenario.extname c) = GetOptions.Returns o /\
    exists name, GetOptions.read "buildScriptName" o = JsValue.VString name.
Proof.
  intros c.
  destruct (snd (GetOptions.getOptions OptionsScenario.extname c)) as [o | e] eqn:E;
    [| vm_compute in E; discriminate E].
  exists o. split; [reflexivity |].
  destruct (getOptions_default_build_script OptionsScenario.extname c E eq_refl eq_refl)
    as (scripts & name & _ & R & _).
  exists name. exact R.
Defined.


(** X21.  When [--project-token] is given several times the last one is
    taken, and it wins over the configuration and over the token of the
    environment, also when it is the empty string. *)
Theorem getOptions_last_projectToken
    (c : GetOptions.InitialContext) (tokens : list JsValue.value) (token : string) :
  GetOptions.projectToken (GetOptions.flags c) = JsValue.VArray tokens ->
  List.last tokens JsValue.VUndefined = JsValue.VString token ->
  GetOptions.assigned "projectToken" (GetOptions.extraOptions c) = None ->
  GetOptions.read "projectToken" (GetOptions.mergedOptions c) = JsValue.VString token.
Proof.
  intros P L X. rewrite read_mergedOptions by reflexivity. unfold GetOptions.layered.
  rewrite X.
  change (JsObject.get "projectToken" (GetOptions.flagOptions (GetOptions.flags c)))
    with (Some (GetOptions.takeLast
                  (JsValue.or_else (GetOptions.projectToken (GetOptions.flags c))
                                   (GetOptions.appCode (GetOptions.flags c))))).
  rewrite P. cbn [JsValue.or_else JsValue.truthy GetOptions.takeLast]. rewrite L.
  reflexivity.
Qed.

Lemma getOptions_last_projectToken_witness :
  let f := OptionsScenario.turbo_flags JsValue.VUndefined JsValue.VUndefined
             JsValue.VUndefined JsValue.VUndefined in
  let c := OptionsScenario.context f
             (Some [("projectToken", JsValue.VString "file-code")]) None in
  GetOptions.read "projectToken" (GetOptions.mergedOptions c) = JsValue.VString "cli-code".
Proof.
  intros f c.
  exact (@getOptions_last_projectToken c
           [JsValue.VString "first"; JsValue.VString "cli-code"] "cli-code"
           eq_refl eq_refl eq_refl).
Defined.


(* ================================================================== *)
(** ** More theorems: prepareWorkspace *)
(* ================================================================== *)

Section PrepareWorkspaceMore.
Import Task PrepareWorkspace.
Variable W : Type.
Variable ext : collaborators W.

Ltac step_task :=
  unfold run, result, final_ctx, final_world, trace, prepareWorkspace,
    bind, call, get_ctx, modify_ctx, emit, throw, try_catch, ret;
  cbn [m_ctx m_world m_trace fst snd].

Lemma prepareWorkspace_installed (c : ctx) (w0 w4 w5 : W) (mb : option string) :
  reaches_install ext c w0 w4 mb ->
  installDependencies ext w4 = (Returned tt, w5) ->
  run (prepareWorkspace ext) c w0 =
    (Returned tt, Machine (set_mergeBase mb c) w5 (before_install c mb)).
Proof.
  intros (w1 & w2 & w3 & H1 & H2 & H3 & H4 & H5) H6.
  step_task. rewrite H1. cbn. rewrite H2. cbn. rewrite H3. cbn. rewrite H4. cbn.
  rewrite H5. cbn. rewrite H6. reflexivity.
Qed.

Lemma prepareWorkspace_checkout_fails (c : ctx) (w0 w1 w2 w3 w4 : W)
    (mb : option string) (e : exn) :
  isClean ext w0 = (Returned true, w1) ->
  isUpToDate ext w1 = (Returned true, w2) ->
  findMergeBase ext (patchHeadRef (ctx_options c)) (patchBaseRef (ctx_options c)) w2
    = (Returned mb, w3) ->
  truthy_string mb = true ->
  checkout ext mb w3 = (Threw e, w4) ->
  run (prepareWorkspace ext) c w0 =
    (Threw e,
     Machine (set_mergeBase mb c) w4
       [CallIsClean; CallIsUpToDate; TransitionTo lookupMergeBase;
        CallFindMergeBase (patchHeadRef (ctx_options c)) (patchBaseRef (ctx_options c));
        TransitionTo checkoutMergeBase; CallCheckout mb]).
Proof.
  intros H1 H2 H3 H4 H5.
  step_task. rewrite H1. cbn. rewrite H2. cbn. rewrite H3. cbn. rewrite H4. cbn.
  rewrite H5. reflexivity.
Qed.

(** What holds of every run, whatever the collaborators do. *)
Lemma prepareWorkspace_every_run (c : ctx) (w0 : W) :
  let x := run (prepareWorkspace ext) c w0 in
  (result x = Returned tt ->
     exitCode (final_ctx x) = exitCode c /\ userError (final_ctx x) = userError c /\
     occurrences is_restore (trace x) = 0 /\
     occurrences is_checkout (trace x) = 1 /\
     occurrences Observed.is_install (trace x) = 1) /\
  (occurrences is_restore (trace x) = 0 \/
   (occurrences is_restore (trace x) = 1 /\ exitCode (final_ctx x) = Some 104%Z /\
    occurrences Observed.is_install (trace x) = 1 /\ threw (result x) = true)) /\
  (exitCode (final_ctx x) = exitCode c \/
   (threw (result x) = true /\
    In (exitCode (final_ctx x)) [Some 101%Z; Some 102%Z; Some 103%Z; Some 104%Z])) /\
  (userError (final_ctx x) = userError c \/
   (userError (final_ctx x) = true /\
    In (exitCode (final_ctx x)) [Some 101%Z; Some 102%Z; Some 103%Z])).
Proof.
  step_task.
  destruct (isClean ext w0) as [[[] | e0] w1]; cbn;
    [| repeat split; intros; try discriminate; auto 10 |
       repeat split; intros; try discriminate; auto 10].
  destruct (isUpToDate ext w1) as [[[] | e1] w2]; cbn;
    [| destruct (getUpdateMessage ext w2) as [[hint | e2] w3]; cbn;
       repeat split; intros; try discriminate; auto 10 |
       repeat split; intros; try discriminate; auto 10].
  destruct (findMergeBase ext (patchHeadRef (ctx_options c))
              (patchBaseRef (ctx_options c)) w2) as [[mb | e3] w3]; cbn;
    [| repeat split; intros; try discriminate; auto 10].
  destruct (truthy_string mb); cbn;
    [| repeat split; intros; try discriminate; auto 10].
  destruct (checkout ext mb w3) as [[[] | e4] w4]; cbn;
    [| repeat split; intros; try discriminate; auto 10].
  destruct (installDependencies ext w4) as [[[] | e5] w5]; cbn;
    [repeat split; intros; try discriminate; auto 10 |].
  destruct (runRestoreWorkspace ext w5) as [[[] | e6] w6]; cbn;
    repeat split; intros; try discriminate; auto 10.
Qed.
End PrepareWorkspaceMore.

(** X13.  When the three gates pass and both the checkout and the
    installation succeed, [prepareWorkspace] returns with the merge base
    in [ctx.mergeBase], sets neither an exit code nor [userError], checks
    out the merge base and never calls [runRestoreWorkspace]. *)
Theorem prepareWorkspace_success
    (W : Type) (ext : PrepareWorkspace.collaborators W)
    (c : PrepareWorkspace.ctx) (w0 w4 w5 : W) (mb : option string) :
  PrepareWorkspace.reaches_install ext c w0 w4 mb ->
  PrepareWorkspace.installDependencies ext w4 = (Returned tt, w5) ->
  let x := Task.run (PrepareWorkspace.prepareWorkspace ext) c w0 in
  Task.result x = Returned tt /\
  PrepareWorkspace.mergeBase (Task.final_ctx x) = mb /\
  PrepareWorkspace.exitCode (Task.final_ctx x) = PrepareWorkspace.exitCode c /\
  PrepareWorkspace.userError (Task.final_ctx x) = PrepareWorkspace.userError c /\
  In (PrepareWorkspace.CallCheckout mb) (Task.trace x) /\
  occurrences PrepareWorkspace.is_restore (Task.trace x) = 0.
Proof.
  intros G I x. subst x. rewrite (prepareWorkspace_installed G I).
  unfold Task.result, Task.final_ctx, Task.trace. cbn [fst snd Task.m_ctx Task.m_trace].
  repeat split. cbn. auto 10.
Qed.

Lemma prepareWorkspace_success_witness :
  let ext := Scenario.workspace (Returned true) (Returned true) (Returned (Some "4f2a9c1"))
               (Returned tt) (Returned tt) in
  let x := Task.run (PrepareWorkspace.prepareWorkspace ext) Scenario.patch_ctx 0 in
  Task.result x = Returned tt /\
  PrepareWorkspace.exitCode (Task.final_ctx x) = None.
Proof.
  intros ext x.
  assert (G : PrepareWorkspace.reaches_install ext Scenario.patch_ctx 0 4 (Some "4f2a9c1")).
  { exists 1, 2, 3. repeat split. }
  destruct (prepareWorkspace_success (ext := ext) (w5 := 5) G eq_refl) as (R & _ & E & _).
  split; [exact R | exact E].
Defined.

(** X14.  A checkout of the merge base that fails leaves
    [prepareWorkspace] with the error of the checkout: no exit code is
    set, nothing is installed and the workspace is not restored. *)
Theorem prepareWorkspace_checkout_failure
    (W : Type) (ext : PrepareWorkspace.collaborators W)
    (c : PrepareWorkspace.ctx) (w0 w1 w2 w3 w4 : W) (mb : option string) (e : exn) :
  PrepareWorkspace.isClean ext w0 = (Returned true, w1) ->
  PrepareWorkspace.isUpToDate ext w1 = (Returned true, w2) ->
  PrepareWorkspace.findMergeBase ext
    (PrepareWorkspace.patchHeadRef (PrepareWorkspace.ctx_options c))
    (PrepareWorkspace.patchBaseRef (PrepareWorkspace.ctx_options c)) w2
    = (Returned mb, w3) ->
  truthy_string mb = true ->
  PrepareWorkspace.checkout ext mb w3 = (Threw e, w4) ->
  let x := Task.run (PrepareWorkspace.prepareWorkspace ext) c w0 in
  Task.result x = Threw e /\
  PrepareWorkspace.exitCode (Task.final_ctx x) = PrepareWorkspace.exitCode c /\
  PrepareWorkspace.userError (Task.final_ctx x) = PrepareWorkspace.userError c /\
  occurrences Observed.is_install (Task.trace x) = 0 /\
  occurrences PrepareWorkspace.is_restore (Task.trace x) = 0.
Proof.
  intros H1 H2 H3 H4 H5 x. subst x.
  rewrite (prepareWorkspace_checkout_fails ext c w0 H1 H2 H3 H4 H5).
  repeat split.
Qed.

Lemma prepareWorkspace_checkout_failure_witness :
  let x := Task.run (PrepareWorkspace.prepareWorkspace MoreScenarios.broken_checkout)
             Scenario.patch_ctx 0 in
  Task.result x = Threw (Error "error: pathspec did not match") /\
  PrepareWorkspace.exitCode (Task.final_ctx x) = None /\
  occurrences PrepareWorkspace.is_restore (Task.trace x) = 0.
Proof.
  intros x.
  destruct (prepareWorkspace_checkout_failure MoreScenarios.broken_checkout
              Scenario.patch_ctx 0 (w1 := 1) (w2 := 2) (w3 := 3) (w4 := 4)
              (mb := Some "4f2a9c1") (e := Error "error: pathspec did not match")
              eq_refl eq_refl eq_refl eq_refl eq_refl) as (R & E & _ & _ & S).
  split; [exact R | split; [exact E | exact S]].
Defined.

(** X15.  In every run of [prepareWorkspace], whatever git, the
    installation and the restoration do: a run that returns has set no
    exit code and no [userError], has checked out and installed once and
    has not restored; the workspace is restored at most once, and only
    after an installation, with exit code 104 and an error; an exit code
    is set only by a run that throws and is one of 101 to 104; and
    [userError] is set only with 101, 102 or 103. *)
Theorem prepareWorkspace_exit_codes
    (W : Type) (ext : PrepareWorkspace.collaborators W)
    (c : PrepareWorkspace.ctx) (w0 : W) :
  let x := Task.run (PrepareWorkspace.prepareWorkspace ext) c w0 in
  (Task.result x = Returned tt ->
     PrepareWorkspace.exitCode (Task.final_ctx x) = PrepareWorkspace.exitCode c /\
     PrepareWorkspace.userError (Task.final_ctx x) = PrepareWorkspace.userError c /\
     occurrences PrepareWorkspace.is_restore (Task.trace x) = 0 /\
     occurrences PrepareWorkspace.is_checkout (Task.trace x) = 1 /\
     occurrences Observed.is_install (Task.trace x) = 1) /\
  (occurrences PrepareWorkspace.is_restore (Task.trace x) = 0 \/
   (occurrences PrepareWorkspace.is_restore (Task.trace x) = 1 /\
    PrepareWorkspace.exitCode (Task.final_ctx x) = Some 104%Z /\
    occurrences Observed.is_install (Task.trace x) = 1 /\
    threw (Task.result x) = true)) /\
  (PrepareWorkspace.exitCode (Task.final_ctx x) = PrepareWorkspace.exitCode c \/
   (threw (Task.result x) = true /\
    In (PrepareWorkspace.exitCode (Task.final_ctx x))
       [Some 101%Z; Some 102%Z; Some 103%Z; Some 104%Z])) /\
  (PrepareWorkspace.userError (Task.final_ctx x) = PrepareWorkspace.userError c \/
   (PrepareWorkspace.userError (Task.final_ctx x) = true /\
    In (PrepareWorkspace.exitCode (Task.final_ctx x))
       [Some 101%Z; Some 102%Z; Some 103%Z])).
Proof. apply prepareWorkspace_every_run. Qed.

Lemma prepareWorkspace_exit_codes_witness :
  let ext := Scenario.workspace (Returned true) (Returned true) (Returned (Some "4f2a9c1"))
               (Returned tt) (Returned tt) in
  let x := Task.run (PrepareWorkspace.prepareWorkspace ext) Scenario.patch_ctx 0 in
  PrepareWorkspace.exitCode (Task.final_ctx x) = None /\
  occurrences PrepareWorkspace.is_restore (Task.trace x) = 0.
Proof.
  intros ext x.
  destruct (prepareWorkspace_exit_codes ext Scenario.patch_ctx 0) as [R _].
  destruct (R eq_refl) as (E & _ & S & _).
  split; [exact E | exact S].
Defined.


(* ================================================================== *)
(** ** More theorems: verify *)
(* ================================================================== *)

Section VerifyMore.
Import Task Verify.
Variable W : Type.
Variable ext : collaborators W.

Lemma createBuild_query_fails (c : ctx) (w0 w1 : W) (e : exn) :
  runQuery ext (createBuildInput_of c) (isolatorUrl c) w0 = (Threw e, w1) ->
  let x := run (createBuild ext) c w0 in
  result x = Threw e /\ final_ctx x = c /\ final_world x = w1 /\
  exitCode_writes (trace x) = [] /\
  Observed.requests (trace x) = [(createBuildInput_of c, isolatorUrl c)].
Proof.
  intros H.
  unfold run, result, final_ctx, final_world, trace, createBuild,
    bind, call, get_ctx, modify_ctx, emit, ret.
  cbn [m_ctx m_world m_trace fst snd].
  destruct (truthy_string (only (ctx_options c)));
    destruct (onlyStoryFiles c);
    cbn [m_ctx m_world m_trace fst snd]; rewrite H; cbn;
    destruct c; repeat split.
Qed.

(** [createBuild] sends one mutation, whatever comes back. *)
Lemma createBuild_requests (c : ctx) (w : W) :
  Observed.requests (trace (run (createBuild ext) c w)) =
  [(createBuildInput_of c, isolatorUrl c)].
Proof.
  destruct (runQuery ext (createBuildInput_of c) (isolatorUrl c) w) as [[b | e] w1] eqn:H.
  - unfold run, trace, createBuild, assign_exitCode,
      bind, call, get_ctx, modify_ctx, emit, ret.
    cbn [m_ctx m_world m_trace fst snd].
    destruct (truthy_string (only (ctx_options c)));
      destruct (onlyStoryFiles c);
      cbn [m_ctx m_world m_trace fst snd]; rewrite H;
      cbn [m_ctx m_world m_trace fst snd];
      destruct (options_list (ctx_options c));
      destruct (build_wasLimited b);
      destruct (exceededThreshold (build_account b));
      destruct (paymentRequired (build_account b));
      destruct (exitsOnceUploaded c b);
      reflexivity.
  - exact (proj2 (proj2 (proj2 (proj2 (createBuild_query_fails c w H))))).
Qed.

Lemma setEnvironment_run (c : ctx) (w : W) :
  let s := Json.stringify (whitelisted_environment (ENVIRONMENT_WHITELIST c)
                             (process_env ext w)) in
  run (setEnvironment ext) c w =
    (Returned tt, Machine (set_environment s c) w [LogDebug (gotEnvironment s)]).
Proof. reflexivity. Qed.

Lemma requests_app (tr tr' : list event) :
  Observed.requests (tr ++ tr') = Observed.requests tr ++ Observed.requests tr'.
Proof. apply List.flat_map_app. Qed.

(** A task started on a trace only adds to it. *)
Lemma createBuild_trace_prefix (c : ctx) (w : W) (tr : list event) :
  m_trace (snd (createBuild ext (Machine c w tr))) =
  tr ++ m_trace (snd (createBuild ext (Machine c w []))).
Proof.
  unfold createBuild, assign_exitCode, bind, call, get_ctx, modify_ctx, emit, ret.
  cbn [m_ctx m_world m_trace fst snd].
  destruct (truthy_string (only (ctx_options c)));
    destruct (onlyStoryFiles c);
    cbn [m_ctx m_world m_trace fst snd];
    (destruct (runQuery ext (createBuildInput_of c) (isolatorUrl c) w) as [[b | e] w1];
     cbn [m_ctx m_world m_trace fst snd];
     [ destruct (options_list (ctx_options c));
       destruct (build_wasLimited b);
       destruct (exceededThreshold (build_account b));
       destruct (paymentRequired (build_account b));
       destruct (exitsOnceUploaded c b);
       cbn [m_ctx m_world m_trace fst snd app];
       rewrite <- ?app_assoc; reflexivity
     | rewrite <- ?app_assoc; reflexivity ]).
Qed.
End VerifyMore.

(** X16.  When the mutation fails, [createBuild] throws the error of the
    client and leaves the context as it was: no build, no exit code and
    no [skipSnapshots] are set, and the mutation was sent once. *)
Theorem createBuild_query_failure
    (W : Type) (ext : Verify.collaborators W) (c : Verify.ctx) (w0 w1 : W) (e : exn) :
  Verify.runQuery ext (Verify.createBuildInput_of c) (Verify.isolatorUrl c) w0
    = (Threw e, w1) ->
  let x := Task.run (Verify.createBuild ext) c w0 in
  Task.result x = Threw e /\
  Task.final_ctx x = c /\
  Verify.exitCode_writes (Task.trace x) = [] /\
  Observed.requests (Task.trace x) = [(Verify.createBuildInput_of c, Verify.isolatorUrl c)].
Proof.
  intros H x. destruct (createBuild_query_fails ext c w0 H) as (A & B & _ & C & D).
  repeat split; assumption.
Qed.

Lemma createBuild_query_failure_witness :
  let c := Scenario.verify_ctx false Verify.FlagUnset in
  let x := Task.run (Verify.createBuild Scenario.process) c [] in
  Task.result x = Threw (Error "network error") /\ Task.final_ctx x = c.
Proof.
  intros c x.
  destruct (createBuild_query_failure Scenario.process c [] (w1 := [])
              (e := Error "network error") eq_refl) as (A & B & _).
  split; [exact A | exact B].
Defined.

(** X17.  In the verify task, where [setEnvironment] runs before
    [createBuild], exactly one mutation is sent, and its [environment] is
    the JSON text of an object that holds the whitelisted variables,
    each with the value of its last entry, one named [__proto__] apart
    (the assignment stores nothing under that key), and nothing else,
    whatever [ctx.environment] held before.  Two runs whose environments
    have the same whitelisted entries send the same mutation: a variable
    that is not whitelisted never reaches the service. *)
Theorem verify_sends_whitelisted_environment
    (W : Type) (ext : Verify.collaborators W) (c : Verify.ctx) :
  let sent w := Observed.requests (Task.trace (Task.run (Observed.verifySteps ext) c w)) in
  (forall w,
      exists input,
        sent w = [(input, Verify.isolatorUrl c)] /\
        Verify.in_environment input =
          Some (Json.stringify
                  (Verify.whitelisted_environment (Verify.ENVIRONMENT_WHITELIST c)
                     (Verify.process_env ext w))) /\
        forall k,
          JsObject.get k (Verify.whitelisted_environment (Verify.ENVIRONMENT_WHITELIST c)
                            (Verify.process_env ext w)) =
          if Verify.whitelisted (Verify.ENVIRONMENT_WHITELIST c) k
             && negb (String.eqb k "__proto__")
          then JsObject.get k (List.rev (Verify.process_env ext w))
          else None)
  /\
  (forall w1 w2,
      Verify.visible (Verify.ENVIRONMENT_WHITELIST c) (Verify.process_env ext w1) =
      Verify.visible (Verify.ENVIRONMENT_WHITELIST c) (Verify.process_env ext w2) ->
      sent w1 = sent w2).
Proof.
  intros sent.
  assert (S : forall w,
    sent w =
    [(Verify.createBuildInput_of
        (Verify.set_environment
           (Json.stringify
              (Verify.whitelisted_environment (Verify.ENVIRONMENT_WHITELIST c)
                 (Verify.process_env ext w))) c),
      Verify.isolatorUrl c)]).
  { intros w. subst sent. cbv beta.
    unfold Observed.verifySteps, Task.run, Task.bind.
    change (Verify.setEnvironment ext (Task.Machine c w []))
      with (Task.run (Verify.setEnvironment ext) c w).
    rewrite setEnvironment_run. cbv zeta.
    unfold Task.trace. rewrite createBuild_trace_prefix, requests_app.
    change (Task.m_trace (snd (Verify.createBuild ext (Task.Machine ?c' w []))))
      with (Task.trace (Task.run (Verify.createBuild ext) c' w)).
    rewrite createBuild_requests. reflexivity. }
  split.
  - intros w. eexists. split; [apply S | split; [reflexivity |]].
    intros k. apply whitelisted_environment_get.
  - intros w1 w2 V. rewrite !S.
    rewrite <- (whitelisted_environment_visible _ (Verify.process_env ext w1)),
            <- (whitelisted_environment_visible _ (Verify.process_env ext w2)), V.
    reflexivity.
Qed.

Lemma verify_sends_whitelisted_environment_witness :
  let c := Scenario.verify_ctx false Verify.FlagUnset in
  let sent env :=
    Observed.requests (Task.trace (Task.run (Observed.verifySteps Scenario.process) c env)) in
  sent [("TRAVIS", "true"); ("NPM_TOKEN", "s3cr3t")] = sent [("TRAVIS", "true")].
Proof.
  intros c sent.
  destruct (verify_sends_whitelisted_environment Scenario.process c) as [_ N].
  exact (N [("TRAVIS", "true"); ("NPM_TOKEN", "s3cr3t")] [("TRAVIS", "true")] eq_refl).
Defined.

Section EnvironmentObject.
Import Verify.
Variable whitelist : list regex.

Lemma keys_set_subset {V} (k : string) (v : V) (o : JsObject.t V) (x : string) :
  In x (JsObject.keys (JsObject.set k v o)) -> x = k \/ In x (JsObject.keys o).
Proof.
  intros I. destruct (String.eqb x k) eqn:E.
  - left. apply String.eqb_eq. exact E.
  - right. destruct (JsObject.get x o) eqn:G.
    + destruct (in_dec string_dec x (JsObject.keys o)) as [Y | N]; [exact Y |].
      apply not_key_get_none in N. rewrite N in G. discriminate G.
    + exfalso. revert I. apply get_none_not_key.
      rewrite get_set, E. exact G.
Qed.

Lemma fold_pick_keys (env : list (string * string)) (acc : JsObject.t string) :
  GetOptions.distinct_keys acc ->
  Forall (fun k => whitelisted whitelist k = true) (JsObject.keys acc) ->
  let o := List.fold_left (pick_whitelisted whitelist) env acc in
  GetOptions.distinct_keys o /\
  Forall (fun k => whitelisted whitelist k = true) (JsObject.keys o).
Proof.
  revert acc. induction env as [| [k v] env IH]; intros acc D F; [split; assumption |].
  cbn [List.fold_left pick_whitelisted].
  destruct (whitelisted whitelist k) eqn:E; [| apply IH; assumption].
  unfold assign. destruct (String.eqb k "__proto__"); [apply IH; assumption |].
  apply IH.
  - apply distinct_keys_set. exact D.
  - apply Forall_forall. intros x I. apply keys_set_subset in I.
    destruct I as [-> | I]; [exact E |].
    rewrite Forall_forall in F. exact (F x I).
Qed.
End EnvironmentObject.

(** X18.  The object [setEnvironment] serializes has every key once, also
    when the environment lists a variable twice, and every key of it
    matches the whitelist. *)
Theorem whitelisted_environment_keys
    (whitelist : list Verify.regex) (env : list (string * string)) :
  let o := Verify.whitelisted_environment whitelist env in
  NoDup (JsObject.keys o) /\
  Forall (fun k => Verify.whitelisted whitelist k = true) (JsObject.keys o).
Proof.
  apply fold_pick_keys; constructor.
Qed.


(* ================================================================== *)
(** ** Theorems: the GitHub action *)
(* ================================================================== *)

Section MainFacts.
Import Task Main.
Variable W : Type.
Variable ext : collaborators W.

Ltac step_run :=
  unfold Task.run, result, final_ctx, final_world, trace, Main.run, createDeploymentStatus,
    get_repo, peek, bind, call, get_ctx, modify_ctx, emit, throw, try_catch, ret;
  cbn [m_ctx m_world m_trace fst snd].

Lemma run_every_run (w0 : W) :
  let x := Task.run (Main.run ext) tt w0 in
  result x = Returned tt /\
  occurrences is_setFailed (trace x) + occurrences is_setOutput (trace x) = 1 /\
  (exists before last,
      trace x = before ++ [last] /\ (is_setFailed last || is_setOutput last = true)) /\
  (occurrences is_setOutput (trace x) = 1 -> occurrences is_status (trace x) = 2).
Proof.
  step_run.
  destruct (newGitHub ext (getInput ext "token" w0) w0) as [[[] | e0] w1]; cbn;
    [| repeat split; [eexists [_], _; split; reflexivity | intros F; discriminate F]].
  destruct (context_repo ext w1) as [[r | e1] w2]; cbn;
    [| repeat split; [eexists [_], _; split; reflexivity | intros F; discriminate F]].
  destruct (createDeployment ext _ w2) as [[id | e2] w3]; cbn;
    [| repeat split; [eexists [_; _], _; split; reflexivity | intros F; discriminate F]].
  destruct (context_repo ext w3) as [[r' | e3] w4]; cbn;
    [| repeat split; [eexists [_; _; _], _; split; reflexivity | intros F; discriminate F]].
  destruct (context_repo ext w4) as [[r'' | e4] w5]; cbn;
    [| repeat split; [eexists [_; _; _; _], _; split; reflexivity
                     | intros F; discriminate F]].
  repeat split. eexists [_; _; _; _; _], _. split; reflexivity.
Qed.

Lemma run_deployed (w0 w1 w2 w3 w4 w5 : W) (r r' r'' : repo) (id : N) :
  let token := getInput ext "token" w0 in
  let d := Deployment r (context_sha ext w2) "staging" [] in
  newGitHub ext token w0 = (Returned tt, w1) ->
  context_repo ext w1 = (Returned r, w2) ->
  createDeployment ext d w2 = (Returned id, w3) ->
  context_repo ext w3 = (Returned r', w4) ->
  context_repo ext w4 = (Returned r'', w5) ->
  Task.run (Main.run ext) tt w0 =
    (Returned tt,
     Machine tt w5
       [NewGitHub token; CreateDeployment d;
        LogInfo ("deployment_id: " ++ decimal id);
        CreateDeploymentStatus (DeploymentStatus r' id "inactive" None None);
        CreateDeploymentStatus
          (DeploymentStatus r'' id "success"
             (Some "https://example.com?real") (Some "https://example.com?log"));
        SetOutput "time"
          (Json.stringify
             (List.map (fun name => (name, getInput ext name w1)) outputInputs))]).
Proof.
  intros token d H1 H2 H3 H4 H5. subst token d. step_run.
  rewrite H1. cbn. rewrite H2. cbn. rewrite H3. cbn. rewrite H4. cbn. rewrite H5.
  reflexivity.
Qed.

Lemma run_not_deployed (w0 w1 w2 w3 : W) (r : repo) (e : exn) :
  let token := getInput ext "token" w0 in
  let d := Deployment r (context_sha ext w2) "staging" [] in
  newGitHub ext token w0 = (Returned tt, w1) ->
  context_repo ext w1 = (Returned r, w2) ->
  createDeployment ext d w2 = (Threw e, w3) ->
  Task.run (Main.run ext) tt w0 =
    (Returned tt,
     Machine tt w3 [NewGitHub token; CreateDeployment d; SetFailed (exn_message e)]).
Proof.
  intros token d H1 H2 H3. subst token d. step_run.
  rewrite H1. cbn. rewrite H2. cbn. rewrite H3. reflexivity.
Qed.
End MainFacts.

(** X19.  [run] never lets an error out: what a call it waits for
    throws is caught.  Among the calls that [run] itself makes there is
    exactly one of [setOutput] or of [setFailed], and it is the last of
    them; [setOutput] is called only after the two
    [createDeploymentStatus] requests have been sent.  The two requests
    are not awaited: whether they complete or are rejected is not
    observed by [run], a rejection is neither caught by its [try] nor
    passed to [setFailed], and nothing is stated about it here. *)
Theorem run_ends_with_output_or_failure
    (W : Type) (ext : Main.collaborators W) (w0 : W) :
  let x := Task.run (Main.run ext) tt w0 in
  Task.result x = Returned tt /\
  occurrences Main.is_setFailed (Task.trace x)
    + occurrences Main.is_setOutput (Task.trace x) = 1 /\
  (exists before last,
      Task.trace x = before ++ [last] /\
      (Main.is_setFailed last || Main.is_setOutput last = true)) /\
  (occurrences Main.is_setOutput (Task.trace x) = 1 ->
   occurrences Main.is_status (Task.trace x) = 2).
Proof. apply run_every_run. Qed.

Lemma run_ends_with_output_or_failure_witness :
  let ext := MoreScenarios.action (Returned tt) (Returned (Main.Repo "chromaui" "chromatic-cli"))
               (Returned 42%N) in
  occurrences Main.is_status (Task.trace (Task.run (Main.run ext) tt 0)) = 2.
Proof.
  intros ext.
  destruct (run_ends_with_output_or_failure ext 0) as (_ & _ & _ & S).
  apply S. reflexivity.
Defined.

(** X20.  When the client is created, [context.repo] can be read and the
    deployment is created, the action creates it for [context.sha] in
    the [staging] environment, logs its id, marks it inactive and then
    successful, and writes to the output [time] the JSON text of the
    twelve inputs, without the token.  When the creation of the
    deployment fails, the message of the error goes to [setFailed] and no
    status is created. *)
Theorem run_deployment
    (W : Type) (ext : Main.collaborators W) (w0 w1 w2 w3 : W) (r : Main.repo) :
  let token := Main.getInput ext "token" w0 in
  let d := Main.Deployment r (Main.context_sha ext w2) "staging" [] in
  Main.newGitHub ext token w0 = (Returned tt, w1) ->
  Main.context_repo ext w1 = (Returned r, w2) ->
  let x := Task.run (Main.run ext) tt w0 in
  (forall id w4 w5 r' r'',
     Main.createDeployment ext d w2 = (Returned id, w3) ->
     Main.context_repo ext w3 = (Returned r', w4) ->
     Main.context_repo ext w4 = (Returned r'', w5) ->
     Task.trace x =
       [Main.NewGitHub token; Main.CreateDeployment d;
        Main.LogInfo ("deployment_id: " ++ Main.decimal id)%string;
        Main.CreateDeploymentStatus (Main.DeploymentStatus r' id "inactive" None None);
        Main.CreateDeploymentStatus
          (Main.DeploymentStatus r'' id "success"
             (Some "https://example.com?real") (Some "https://example.com?log"));
        Main.SetOutput "time"
          (Json.stringify
             (List.map (fun name => (name, Main.getInput ext name w1)) Main.outputInputs))]
     /\ ~ In "token" Main.outputInputs)
  /\
  (forall e,
     Main.createDeployment ext d w2 = (Threw e, w3) ->
     Task.trace x =
       [Main.NewGitHub token; Main.CreateDeployment d; Main.SetFailed (exn_message e)]).
Proof.
  intros token d H1 H2 x. split.
  - intros id w4 w5 r' r'' H3 H4 H5. subst x.
    rewrite (run_deployed ext w0 H1 H2 H3 H4 H5). split; [reflexivity |].
    cbn. intuition discriminate.
  - intros e H3. subst x. rewrite (run_not_deployed ext w0 H1 H2 H3). reflexivity.
Qed.

Lemma run_deployment_witness :
  let ext := MoreScenarios.action (Returned tt) (Returned (Main.Repo "chromaui" "chromatic-cli"))
               (Threw (Error "Resource not accessible by integration")) in
  Task.trace (Task.run (Main.run ext) tt 0) =
    [Main.NewGitHub "ghp_secret";
     Main.CreateDeployment
       (Main.Deployment (Main.Repo "chromaui" "chromatic-cli") "4f2a9c1" "staging" []);
     Main.SetFailed "Resource not accessible by integration"].
Proof.
  intros ext.
  destruct (run_deployment ext 0 (w1 := 1) (w2 := 2) 3
              (r := Main.Repo "chromaui" "chromatic-cli") eq_refl eq_refl) as [_ F].
  exact (F (Error "Resource not accessible by integration") eq_refl).
Defined.
